(** * report7.py: the flight-log normalisation and aggregation pipeline

    A shallow embedding of the data-frame script [report7.py]: the
    per-file load loop (schema reconciliation, date filter, numeric
    coercion, per-flight summary), the fleet KPIs and the time-bucketed
    grouper [plot_flight_metrics].

    Conventions of the embedding.
    - A data frame is column oriented, as in pandas: an index length and
      an ordered association list from column names to cell lists.
    - float64 cells are idealised as exact rationals ([Q]); NaN, NaT,
      None and pd.NA are the single missing marker [NA].
    - datetime64 cells carry their int64 nanosecond count since the
      epoch; timedelta cells carry their length in seconds, a whole
      number of ticks of the column's resolution.
    - Python exceptions are values of [error]; code that may raise
      returns [result].
    - An assignment [df[c] = ...] returns the updated frame; a function
      that assigns into its argument returns the caller's frame as it is
      after the call, together with its result or exception.

    The calls that draw (st.metric, st.plotly_chart, px.bar,
    px.line_map) are not part of the embedding; the values they are
    given, and the order in which the script computes them, are. *)

From Stdlib Require Import String Ascii List ZArith QArith Qround Qabs Bool Arith
  Lia Lqa Permutation DecimalString DecimalNat.
From Stdlib Require Import Sorted.
Import ListNotations.
Open Scope string_scope.
Open Scope list_scope.

(** ** Cells, exceptions *)

Inductive value : Type :=
| NA
| Str (s : string)
| Num (q : Q)
| Datetime (ns : Z)
| Timedelta (secs : Q).

Inductive error : Type :=
| KeyError (key : string)
| ValueError (msg : string)
| TypeError (msg : string)
| AttributeError (msg : string).

Inductive result (A : Type) : Type :=
| Ok (a : A)
| Raise (e : error).
Arguments Ok {A} a.
Arguments Raise {A} e.

Definition bind {A B : Type} (r : result A) (k : A -> result B) : result B :=
  match r with
  | Ok a => k a
  | Raise e => Raise e
  end.

Notation "x <- r ;; k" := (bind r (fun x => k))
  (at level 61, r at next level, right associativity).

Definition notna (v : value) : bool :=
  match v with
  | NA => false
  | _ => true
  end.

(** ** Data frames *)

Definition Series := list value.

Record DataFrame : Type := mkDF {
  nrows : nat;
  cols : list (string * Series)
}.

Definition columns (df : DataFrame) : list string := map fst (cols df).

Definition in_list (c : string) (l : list string) : bool :=
  existsb (String.eqb c) l.

(** [col in df.columns] *)
Definition has_col (df : DataFrame) (c : string) : bool :=
  in_list c (columns df).

Fixpoint assoc (c : string) (l : list (string * Series)) : option Series :=
  match l with
  | [] => None
  | (k, s) :: l' => if String.eqb k c then Some s else assoc c l'
  end.

(** [df[c]] *)
Definition getitem (df : DataFrame) (c : string) : result Series :=
  match assoc c (cols df) with
  | Some s => Ok s
  | None => Raise (KeyError c)
  end.

(** [df[cs]] for a list of labels: every column carrying a requested
    label, in the order of the request. *)
Definition select_cols (df : DataFrame) (cs : list string) : DataFrame :=
  mkDF (nrows df)
       (flat_map (fun c => filter (fun kv => String.eqb (fst kv) c) (cols df)) cs).

(** [df[c] = s]: overwrite the column(s) labelled [c], or append. *)
Definition setitem (df : DataFrame) (c : string) (s : Series) : DataFrame :=
  if has_col df c
  then mkDF (nrows df)
            (map (fun kv => if String.eqb (fst kv) c then (c, s) else kv) (cols df))
  else mkDF (nrows df) (cols df ++ [(c, s)]).

(** [df[c] = v] for a scalar, broadcast along the index. *)
Definition setitem_scalar (df : DataFrame) (c : string) (v : value) : DataFrame :=
  setitem df c (repeat v (nrows df)).

(** [s[mask]] / [df[mask]]: boolean-mask selection. *)
Fixpoint select {A : Type} (mask : list bool) (s : list A) : list A :=
  match mask, s with
  | b :: mask', x :: s' => if b then x :: select mask' s' else select mask' s'
  | _, _ => []
  end.

Definition count_true (mask : list bool) : nat :=
  length (filter (fun b => b) mask).

Definition select_rows (df : DataFrame) (mask : list bool) : DataFrame :=
  mkDF (count_true mask)
       (map (fun kv => (fst kv, select mask (snd kv))) (cols df)).

(** ** Required columns *)

Definition required_cols : list string :=
  [ "Timestamp"; "groundSpeed"; "airSpeed"; "altitudeRelative"; "altitudeAMSL";
    "flightDistance"; "flightTime"; "distanceToHome";
    "battery0.voltage"; "battery0.current"; "battery0.percentRemaining";
    "battery0.instantPower";
    "gps.lat"; "gps.lon";
    "clock.currentDate"; "clock.currentTime" ].

(** ** Load loop, lines 36-45 *)

(** [pd.read_csv(file, parse_dates=["Timestamp"])]: the file is given by
    the table the reader delivers (column labels made unique, the
    Timestamp cells already parsed); the reader rejects a file that has
    no column named in [parse_dates]. *)
Definition read_csv (file : DataFrame) : result DataFrame :=
  if has_col file "Timestamp" then Ok file
  else Raise (ValueError "Missing column provided to 'parse_dates': 'Timestamp'").

Definition available_cols (df : DataFrame) : list string :=
  filter (has_col df) required_cols.

(** [for col in required_cols: if col not in df.columns: df[col] = pd.NA] *)
Definition add_missing (df : DataFrame) : DataFrame :=
  fold_left (fun d c => if has_col d c then d else setitem_scalar d c NA)
            required_cols df.

Definition reconcile (df : DataFrame) : DataFrame :=
  add_missing (select_cols df (available_cols df)).

(** ** Coercions of the library

    The text parsers behind [pd.to_datetime], [pd.to_numeric] and
    [pd.to_timedelta] are parameters of the pipeline.  With
    [errors="coerce"] none of them raises: a cell that does not parse
    becomes missing.  [pd.to_datetime] without a format decides how to
    read a column from the column as a whole, so its parser sees the
    column and the position; the other three work cell by cell.  A
    duration is stored as an int64 count of ticks: [parse_timedelta]
    gives the count a cell reads as, and [resolution] the number of
    ticks in a second of the unit the library gives the column (10^9
    for nanoseconds, 10^6 for microseconds). *)

Record Coercions : Type := {
  parse_date : Series -> nat -> option Z;
  parse_time : value -> option Z;
  parse_float : string -> option Q;
  parse_timedelta : value -> option Z;
  resolution : positive
}.

Definition opt_value {A : Type} (box : A -> value) (o : option A) : value :=
  match o with
  | Some a => box a
  | None => NA
  end.

(** [int(x)] on a float: towards zero. *)
Definition trunc (q : Q) : Z :=
  if Qle_bool 0 q then Qfloor q else Qceiling q.

(** The length in seconds of [k] ticks, [ticks] of them to the second. *)
Definition seconds (ticks : positive) (k : Z) : Q :=
  Qred (inject_Z k / inject_Z (Zpos ticks)).

Section Pipeline.

Context (P : Coercions).

(** [pd.to_datetime(s, errors="coerce")] *)
Definition to_datetime (s : Series) : Series :=
  map (fun i => match nth i s NA with
                | NA => NA
                | _ => opt_value Datetime (parse_date P s i)
                end)
      (seq 0 (length s)).

(** [pd.to_datetime(s, format="%H:%M:%S", errors="coerce")] *)
Definition to_datetime_hms (s : Series) : Series :=
  map (fun v => match v with
                | NA => NA
                | _ => opt_value Datetime (parse_time P v)
                end) s.

(** [pd.to_numeric(s, errors="coerce")] on the cells a CSV column can
    hold: numbers, text and blanks. *)
Definition to_numeric (s : Series) : Series :=
  map (fun v => match v with
                | Num q => Num q
                | Str t => opt_value Num (parse_float P t)
                | _ => NA
                end) s.

(** [pd.to_timedelta(s, errors="coerce")] *)
Definition to_timedelta (s : Series) : Series :=
  map (fun v => match v with
                | NA => NA
                | _ => opt_value (fun k => Timedelta (seconds (resolution P) k))
                                 (parse_timedelta P v)
                end) s.

(** ** Reductions (skipna) *)

(** The dtype of a column: float64, or timedelta64 in a unit of which
    there are [ticks] to the second. *)
Inductive dtype : Type := Float64 | Timedelta64 (ticks : positive).

Definition unbox (d : dtype) (v : value) : option Q :=
  match d, v with
  | Float64, Num q => Some q
  | Timedelta64 _, Timedelta q => Some q
  | _, _ => None
  end.

Definition box (d : dtype) (q : Q) : value :=
  match d with
  | Float64 => Num q
  | Timedelta64 _ => Timedelta q
  end.

(** The cells of a column that are not missing. *)
Definition valid (d : dtype) (s : Series) : list Q :=
  flat_map (fun v => match unbox d v with Some q => [q] | None => [] end) s.

Definition Qmax (a b : Q) : Q := if Qle_bool a b then b else a.
Definition Qmin (a b : Q) : Q := if Qle_bool a b then a else b.

Definition series_max (d : dtype) (s : Series) : value :=
  match valid d s with
  | [] => NA
  | q :: l => box d (fold_left Qmax l q)
  end.

Definition series_min (d : dtype) (s : Series) : value :=
  match valid d s with
  | [] => NA
  | q :: l => box d (fold_left Qmin l q)
  end.

Definition Qsum (l : list Q) : Q := fold_left Qplus l 0%Q.

(** A float cast to an int64 count of ticks, as a length in seconds:
    the cast drops the fraction of a tick. *)
Definition whole_ticks (ticks : positive) (x : Q) : Q :=
  inject_Z (trunc (x * inject_Z (Zpos ticks))) / inject_Z (Zpos ticks).

(** A float64 result given the dtype of the column it was computed from. *)
Definition as_dtype (d : dtype) (x : Q) : Q :=
  match d with
  | Float64 => x
  | Timedelta64 ticks => whole_ticks ticks x
  end.

(** [s.mean()]: the mean is taken in float64, over the tick counts when
    the column holds durations, and the mean of durations is cast back
    to a count of ticks. *)
Definition series_mean (d : dtype) (s : Series) : value :=
  match valid d s with
  | [] => NA
  | l => box d (Qred (as_dtype d (Qsum l / inject_Z (Z.of_nat (length l)))))
  end.

(** [round(x, 2)] on a float: the nearest multiple of 0.01, a tie going
    to the even one; NaN stays NaN. *)
Definition round_half_even (y : Q) : Z :=
  let f := Qfloor y in
  match Qcompare (y - inject_Z f) (1 # 2) with
  | Lt => f
  | Gt => (f + 1)%Z
  | Eq => if Z.even f then f else (f + 1)%Z
  end.

Definition round2 (v : value) : value :=
  match v with
  | Num q => Num (Qred (inject_Z (round_half_even (q * 100)) / 100))
  | _ => v
  end.

(** ** Load loop, lines 47-87 *)

Definition str_of_nat (n : nat) : string :=
  NilEmpty.string_of_uint (Nat.to_uint n).

(** [f"flight_{i+1}"] *)
Definition flight_label (i : nat) : string :=
  ("flight_" ++ str_of_nat (i + 1))%string.

(** [df[c] = f(df[c])] *)
Definition update_col (f : Series -> Series) (df : DataFrame) (c : string)
  : result DataFrame :=
  s <- getitem df c ;;
  Ok (setitem df c (f s)).

Fixpoint for_each {A S : Type} (body : S -> A -> result S) (l : list A) (s : S)
  : result S :=
  match l with
  | [] => Ok s
  | a :: l' => s' <- body s a ;; for_each body l' s'
  end.

Definition numeric_cols : list string :=
  [ "flightDistance"; "altitudeRelative"; "groundSpeed"; "airSpeed";
    "battery0.percentRemaining"; "battery0.instantPower" ].

(** Lines 47-51: the flight label and the two derived clock columns. *)
Definition stamp (i : nat) (df : DataFrame) : result DataFrame :=
  let df := setitem_scalar df "flight_id" (Str (flight_label i)) in
  d <- getitem df "clock.currentDate" ;;
  let df := setitem df "date" (to_datetime d) in
  t <- getitem df "clock.currentTime" ;;
  Ok (setitem df "time" (to_datetime_hms t)).

(** Line 54: [df[df["date"].notna()].reset_index(drop=True)] *)
Definition drop_undated (df : DataFrame) : result DataFrame :=
  dates <- getitem df "date" ;;
  Ok (select_rows df (map notna dates)).

(** Lines 57-62. *)
Definition coerce (df : DataFrame) : result DataFrame :=
  df <- for_each (update_col to_numeric) numeric_cols df ;;
  update_col to_timedelta df "flightTime".

(** Lines 39-62: the normalised rows of the flight at position [i]. *)
Definition normalize (i : nat) (df : DataFrame) : result DataFrame :=
  df <- stamp i (reconcile df) ;;
  df <- drop_undated df ;;
  coerce df.

(** A Python dict with text keys, in insertion order. *)
Definition dict := list (string * value).

Fixpoint dict_get (k : string) (d : dict) : option value :=
  match d with
  | [] => None
  | (k', v) :: d' => if String.eqb k' k then Some v else dict_get k d'
  end.

Definition reduce (f : dtype -> Series -> value) (d : dtype)
  (df : DataFrame) (c : string) : result value :=
  s <- getitem df c ;; Ok (f d s).

(** Lines 65-80. *)
Definition summary (flight_id : string) (df : DataFrame) : result dict :=
  flight_time <- reduce series_max (Timedelta64 (resolution P)) df "flightTime" ;;
  flight_distance <- reduce series_max Float64 df "flightDistance" ;;
  max_altitude <- reduce series_max Float64 df "altitudeRelative" ;;
  max_ground_speed <- reduce series_max Float64 df "groundSpeed" ;;
  max_air_speed <- reduce series_max Float64 df "airSpeed" ;;
  min_battery <- reduce series_min Float64 df "battery0.percentRemaining" ;;
  avg_power <- reduce series_mean Float64 df "battery0.instantPower" ;;
  avg_altitude <- reduce series_mean Float64 df "altitudeRelative" ;;
  avg_flight_time <- reduce series_mean (Timedelta64 (resolution P)) df "flightTime" ;;
  avg_flight_distance <- reduce series_mean Float64 df "flightDistance" ;;
  avg_ground_speed <- reduce series_mean Float64 df "groundSpeed" ;;
  avg_air_speed <- reduce series_mean Float64 df "airSpeed" ;;
  avg_battery_remaining <- reduce series_mean Float64 df "battery0.percentRemaining" ;;
  Ok [ ("flight_id", Str flight_id);
       ("flight_time", flight_time);
       ("flight_distance", flight_distance);
       ("max_altitude", max_altitude);
       ("max_ground_speed", max_ground_speed);
       ("max_air_speed", max_air_speed);
       ("min_battery", min_battery);
       ("avg_power", round2 avg_power);
       ("avg_altitude", round2 avg_altitude);
       ("avg_flight_time", avg_flight_time);
       ("avg_flight_distance", round2 avg_flight_distance);
       ("avg_ground_speed", round2 avg_ground_speed);
       ("avg_air_speed", round2 avg_air_speed);
       ("avg_battery_remaining", round2 avg_battery_remaining) ].

(** The three lists the loop appends to. *)
Record Loaded : Type := mkLoaded {
  flight_summaries : list dict;
  gps_data : list DataFrame;
  all_dfs : list DataFrame
}.

(** One iteration of the loop at line 35. *)
Definition load_file (st : Loaded) (i : nat) (file : DataFrame) : result Loaded :=
  df <- read_csv file ;;
  df <- normalize i df ;;
  s <- summary (flight_label i) df ;;
  Ok (mkLoaded (flight_summaries st ++ [s])
               (gps_data st ++ [select_cols df ["gps.lat"; "gps.lon"; "flight_id"]])
               (all_dfs st ++ [df])).

Fixpoint load_from (i : nat) (files : list DataFrame) (st : Loaded) : result Loaded :=
  match files with
  | [] => Ok st
  | file :: rest => st' <- load_file st i file ;; load_from (S i) rest st'
  end.

(** [for i, file in enumerate(all_files)] *)
Definition load (all_files : list DataFrame) : result Loaded :=
  load_from 0 all_files (mkLoaded [] [] []).

End Pipeline.

(** ** Combined tables, lines 90-92, and the flight count, line 110 *)

Definition unique (l : list string) : list string :=
  fold_left (fun seen x => if in_list x seen then seen else seen ++ [x]) l [].

(** [pd.DataFrame(records)]: one column per key, one row per record; an
    empty list gives a frame without columns. *)
Definition frame_of_records (records : list dict) : DataFrame :=
  mkDF (length records)
       (map (fun k => (k, map (fun r => opt_value (fun v => v) (dict_get k r)) records))
            (unique (flat_map (map fst) records))).

(** [pd.concat(dfs, ignore_index=True)]: columns are matched by label,
    in order of first appearance; a frame that lacks one is padded with
    missing cells. *)
Definition concat (dfs : list DataFrame) : DataFrame :=
  mkDF (list_sum (map nrows dfs))
       (map (fun c => (c, flat_map (fun d => match assoc c (cols d) with
                                             | Some s => s
                                             | None => repeat NA (nrows d)
                                             end) dfs))
            (unique (flat_map columns dfs))).

Definition empty_frame : DataFrame := mkDF 0 [].

Definition flight_summary (st : Loaded) : DataFrame :=
  frame_of_records (flight_summaries st).

Definition gps_all (st : Loaded) : DataFrame :=
  match gps_data st with
  | [] => empty_frame
  | l => concat l
  end.

Definition df_all (st : Loaded) : DataFrame :=
  match all_dfs st with
  | [] => empty_frame
  | l => concat l
  end.

Definition text (v : value) : option string :=
  match v with
  | Str s => Some s
  | _ => None
  end.

Definition texts (s : Series) : list string :=
  flat_map (fun v => match text v with Some t => [t] | None => [] end) s.

(** [flight_summary["flight_id"].nunique()] *)
Definition total_flights (flight_summary : DataFrame) : result nat :=
  ids <- getitem flight_summary "flight_id" ;;
  Ok (length (unique (texts ids))).

(** ** Calendar fields of a datetime64 cell *)

Definition ns_per_second : Z := 1000000000.
Definition ns_per_hour : Z := 3600 * ns_per_second.
Definition ns_per_day : Z := 24 * ns_per_hour.

Definition dt_hour (ns : Z) : Z := (ns / ns_per_hour) mod 24.

Definition dt_days (ns : Z) : Z := ns / ns_per_day.

(** Proleptic Gregorian (year, month, day) of a day count since
    1970-01-01. *)
Definition civil_from_days (days : Z) : Z * Z * Z :=
  let z := (days + 719468)%Z in
  let era := (z / 146097)%Z in
  let doe := (z mod 146097)%Z in
  let yoe := ((doe - doe / 1460 + doe / 36524 - doe / 146096) / 365)%Z in
  let doy := (doe - (365 * yoe + yoe / 4 - yoe / 100))%Z in
  let mp := ((5 * doy + 2) / 153)%Z in
  let d := (doy - (153 * mp + 2) / 5 + 1)%Z in
  let m := (if mp <? 10 then mp + 3 else mp - 9)%Z in
  let y := (yoe + era * 400 + (if m <=? 2 then 1 else 0))%Z in
  (y, m, d).

Definition dt_year (ns : Z) : Z := fst (fst (civil_from_days (dt_days ns))).
Definition dt_month (ns : Z) : Z := snd (fst (civil_from_days (dt_days ns))).

(** 0 is Monday; 1970-01-01 was a Thursday. *)
Definition dt_weekday (ns : Z) : Z := (dt_days ns + 3) mod 7.

(** ** The time-bucketed grouper, lines 157-215 *)

Definition month_order : list string :=
  [ "Jan"; "Feb"; "Mar"; "Apr"; "May"; "Jun";
    "Jul"; "Aug"; "Sep"; "Oct"; "Nov"; "Dec" ].

Definition weekday_order : list string :=
  [ "Monday"; "Tuesday"; "Wednesday"; "Thursday"; "Friday"; "Saturday"; "Sunday" ].

Definition two_digits (n : nat) : string :=
  if (n <? 10)%nat then ("0" ++ str_of_nat n)%string else str_of_nat n.

(** [datetime.strptime(str(h), "%H").strftime("%I %p")] for an integer
    hour of the day. *)
Definition hour_label (h : nat) : string :=
  (two_digits (if (h mod 12 =? 0)%nat then 12 else h mod 12)
   ++ " " ++ (if (h <? 12)%nat then "AM" else "PM"))%string.

Definition hour_order : list string := map hour_label (seq 0 24).

Definition str_of_Z (z : Z) : string :=
  NilZero.string_of_int (Z.to_int z).

Definition is_datetimelike (s : Series) : bool :=
  forallb (fun v => match v with Datetime _ | NA => true | _ => false end) s.

(** [s.dt]: only a datetime column has the accessor. *)
Definition dt (s : Series) : result Series :=
  if is_datetimelike s then Ok s
  else Raise (AttributeError "Can only use .dt accessor with datetimelike values").

Definition on_datetime (f : Z -> value) (s : Series) : Series :=
  map (fun v => match v with Datetime ns => f ns | _ => NA end) s.

(** [pd.Categorical(s, categories=order, ordered=True)]: a label outside
    the categories becomes missing. *)
Definition categorical (order : list string) (s : Series) : Series :=
  map (fun v => match v with
                | Str l => if in_list l order then Str l else NA
                | _ => NA
                end) s.

(** [s.dt.year.astype(str)]: an integer column prints as integers; one
    with a missing date is a float column and prints as floats. *)
Definition year_labels (s : Series) : Series :=
  if forallb notna s
  then on_datetime (fun ns => Str (str_of_Z (dt_year ns))) s
  else map (fun v => match v with
                     | Datetime ns => Str (str_of_Z (dt_year ns) ++ ".0")%string
                     | _ => Str "nan"
                     end) s.

(** Lines 163-176: the column the grouping key adds to the caller's
    table.  The frame of the pair is the table as the caller sees it
    afterwards, also when the branch raises. *)
Definition derive_bucket (df : DataFrame) (group_col : string)
  : DataFrame * result unit :=
  if String.eqb group_col "month" then
    match s <- getitem df "date" ;; dt s with
    | Raise e => (df, Raise e)
    | Ok s =>
        let labels := on_datetime
          (fun ns => Str (nth (Z.to_nat (dt_month ns - 1)) month_order "")) s in
        let df := setitem df "month" labels in
        (setitem df "month" (categorical month_order labels), Ok tt)
    end
  else if String.eqb group_col "weekday" then
    match s <- getitem df "date" ;; dt s with
    | Raise e => (df, Raise e)
    | Ok s =>
        let labels := on_datetime
          (fun ns => Str (nth (Z.to_nat (dt_weekday ns)) weekday_order "")) s in
        let df := setitem df "weekday" labels in
        (setitem df "weekday" (categorical weekday_order labels), Ok tt)
    end
  else if String.eqb group_col "hour" then
    match s <- getitem df "time" ;; dt s with
    | Raise e => (df, Raise e)
    | Ok s =>
        let hours := on_datetime (fun ns => Num (inject_Z (dt_hour ns))) s in
        let df := setitem df "hour" hours in
        if forallb notna s then
          let labels := on_datetime
            (fun ns => Str (hour_label (Z.to_nat (dt_hour ns)))) s in
          let df := setitem df "hour" labels in
          (setitem df "hour" (categorical hour_order labels), Ok tt)
        else
          (* a float column: str(h) is "13.0" or "nan" *)
          (df, Raise (ValueError "time data does not match format '%H'"))
    end
  else if String.eqb group_col "year" then
    match s <- getitem df "date" ;; dt s with
    | Raise e => (df, Raise e)
    | Ok s =>
        let df := setitem df "year" (year_labels s) in
        (setitem df "year" (year_labels s), Ok tt)
    end
  else (df, Ok tt).

Definition is_categorical (group_col : string) : bool :=
  in_list group_col ["month"; "weekday"; "hour"].

Definition categories (group_col : string) : list string :=
  if String.eqb group_col "month" then month_order
  else if String.eqb group_col "weekday" then weekday_order
  else if String.eqb group_col "hour" then hour_order
  else [].

Fixpoint insert_sorted (x : string) (l : list string) : list string :=
  match l with
  | [] => [x]
  | y :: l' => if String.leb x y then x :: l else y :: insert_sorted x l'
  end.

Definition sort_strings (l : list string) : list string :=
  fold_right insert_sorted [] l.

(** One row of [avg_vals]: the two keys and one mean per metric. *)
Record GroupedRow : Type := mkGrouped {
  g_flight : string;
  g_bucket : string;
  g_means : list value
}.

(** One row of [avg_long]. *)
Record LongRow : Type := mkLong {
  flight_id : string;
  bucket : string;
  Metric : string;
  Value : value
}.

Inductive chart : Type := Line | Bar.

(** What a figure is built from: the style, the x column and the table. *)
Record Figure : Type := mkFigure {
  style : chart;
  x : string;
  table : list LongRow
}.

(** The rows of one group; a row with a missing key is in no group. *)
Definition group_mask (f b : string) (flights buckets : Series) : list bool :=
  map (fun k => match text (fst k), text (snd k) with
                | Some f', Some b' => String.eqb f' f && String.eqb b' b
                | _, _ => false
                end)
      (combine flights buckets).

Definition numeric_only (s : Series) : result Series :=
  if forallb (fun v => match v with Num _ | NA => true | _ => false end) s
  then Ok s
  else Raise (TypeError "agg function failed [how->mean,dtype->object]").

Section Grouper.

(** The library's default for [groupby(observed=...)] on a categorical
    key: when it is [false], every category gets a row for every flight,
    with a missing mean where no row falls in it. *)
Context (observed : bool).

(** [df.groupby(["flight_id", group_col])[keys].mean().reset_index()]:
    groups are sorted by flight label, then by bucket; a categorical
    bucket sorts by its position among the categories. *)
Definition groupby_mean (df : DataFrame) (group_col : string) (keys : list string)
  : result (list GroupedRow) :=
  flights <- getitem df "flight_id" ;;
  buckets <- getitem df group_col ;;
  data <- for_each (fun acc m => s <- getitem df m ;;
                                  s <- numeric_only s ;;
                                  Ok (acc ++ [s])) keys [] ;;
  let keyed := filter (fun k => match text (fst k), text (snd k) with
                                | Some _, Some _ => true
                                | _, _ => false
                                end) (combine flights buckets) in
  let fs := sort_strings (unique (texts (map fst keyed))) in
  let bs := if is_categorical group_col then categories group_col
            else sort_strings (unique (texts (map snd keyed))) in
  Ok (flat_map
        (fun f =>
           flat_map
             (fun b =>
                let mask := group_mask f b flights buckets in
                if existsb (fun t => t) mask
                   || (is_categorical group_col && negb observed)
                then [mkGrouped f b
                        (map (fun s => series_mean Float64 (select mask s)) data)]
                else [])
             bs)
        fs).

(** [avg_vals.melt(id_vars=[...], value_vars=keys, ...)] *)
Definition melt (keys : list string) (avg_vals : list GroupedRow) : list LongRow :=
  flat_map (fun jm => map (fun r => mkLong (g_flight r) (g_bucket r) (snd jm)
                                           (nth (fst jm) (g_means r) NA))
                          avg_vals)
           (combine (seq 0 (length keys)) keys).

Fixpoint lookup (k : string) (d : list (string * string)) : option string :=
  match d with
  | [] => None
  | (k', v) :: d' => if String.eqb k' k then Some v else lookup k d'
  end.

(** [avg_long["Metric"].map(metrics)] *)
Definition rename_metric (metrics : list (string * string)) (r : LongRow) : LongRow :=
  mkLong (flight_id r) (bucket r)
         (match lookup (Metric r) metrics with Some n => n | None => "" end)
         (Value r).

(** The body of the loop at line 191. *)
Definition make_fig (group_col chart_type : string) (avg_long : list LongRow)
  (figs : list (string * Figure)) (metric : string)
  : result (list (string * Figure)) :=
  let subset := filter (fun r => String.eqb (Metric r) metric) avg_long in
  fig <- (if String.eqb chart_type "line" then Ok (mkFigure Line group_col subset)
          else if String.eqb chart_type "bar" then Ok (mkFigure Bar group_col subset)
          else Raise (ValueError "Unsupported chart_type. Use 'line' or 'bar'.")) ;;
  Ok (figs ++ [(metric, fig)]).

(** Lines 178-215, on the table left by [derive_bucket]. *)
Definition group_and_chart (df : DataFrame) (group_col : string)
  (metrics : list (string * string)) (chart_type : string)
  : result (list (string * Figure)) :=
  avg_vals <- groupby_mean df group_col (map fst metrics) ;;
  let avg_long := map (rename_metric metrics) (melt (map fst metrics) avg_vals) in
  for_each (make_fig group_col chart_type avg_long)
           (unique (map Metric avg_long)) [].

(** [plot_flight_metrics(df, group_col, metrics, chart_type)]: the
    caller's table after the call, and the figures or the exception. *)
Definition plot_flight_metrics (df : DataFrame) (group_col : string)
  (metrics : list (string * string)) (chart_type : string)
  : DataFrame * result (list (string * Figure)) :=
  match derive_bucket df group_col with
  | (df', Raise e) => (df', Raise e)
  | (df', Ok _) => (df', group_and_chart df' group_col metrics chart_type)
  end.

End Grouper.

Definition metrics : list (string * string) :=
  [ ("groundSpeed", "Ground Speed");
    ("airSpeed", "Air Speed");
    ("altitudeRelative", "Altitude");
    ("battery0.percentRemaining", "Battery %") ].

(** ** A reference instance of the coercions

    The formats a ground-station log is written in: ISO calendar dates,
    [HH:MM:SS] clock times and durations, plain decimal numbers. *)

Module Iso.

Definition digit (c : ascii) : option Z :=
  let n := nat_of_ascii c in
  if ((48 <=? n) && (n <=? 57))%nat then Some (Z.of_nat (n - 48)) else None.

Fixpoint digits_from (acc : Z) (s : string) : option Z :=
  match s with
  | EmptyString => Some acc
  | String c s' =>
      match digit c with
      | Some d => digits_from (10 * acc + d) s'
      | None => None
      end
  end.

Definition number (s : string) : option Z :=
  match s with
  | EmptyString => None
  | _ => digits_from 0 s
  end.

Fixpoint split_on (sep : ascii) (s : string) : list string :=
  match s with
  | EmptyString => [EmptyString]
  | String c s' =>
      if Ascii.eqb c sep then EmptyString :: split_on sep s'
      else match split_on sep s' with
           | [] => [String c EmptyString]
           | w :: ws => String c w :: ws
           end
  end.

Definition days_from_civil (y m d : Z) : Z :=
  let y' := (if m <=? 2 then y - 1 else y)%Z in
  let era := (y' / 400)%Z in
  let yoe := (y' mod 400)%Z in
  let doy := ((153 * (if m >? 2 then m - 3 else m + 9) + 2) / 5 + d - 1)%Z in
  let doe := (yoe * 365 + yoe / 4 - yoe / 100 + doy)%Z in
  (era * 146097 + doe - 719468)%Z.

(** [YYYY-MM-DD], a date of the calendar. *)
Definition date (s : string) : option Z :=
  match map number (split_on "-" s) with
  | [Some y; Some m; Some d] =>
      let days := days_from_civil y m d in
      if ((String.length s =? 10)%nat
          && (1 <=? m)%Z && (m <=? 12)%Z && (1 <=? d)%Z
          && match civil_from_days days with
             | (y', m', d') => (y' =? y)%Z && (m' =? m)%Z && (d' =? d)%Z
             end)%bool
      then Some (days * ns_per_day)%Z
      else None
  | _ => None
  end.

(** Seconds into the day of [H:M:S]. *)
Definition hms (s : string) : option Z :=
  match map number (split_on ":" s) with
  | [Some h; Some m; Some sec] =>
      if ((String.length s <=? 8)%nat
          && (h <=? 23)%Z && (m <=? 59)%Z && (sec <=? 59)%Z)%bool
      then Some (h * 3600 + m * 60 + sec)%Z
      else None
  | _ => None
  end.

(** A time without a date is read on 1900-01-01. *)
Definition time (v : value) : option Z :=
  match v with
  | Str s =>
      match hms s with
      | Some secs =>
          Some (days_from_civil 1900 1 1 * ns_per_day + secs * ns_per_second)%Z
      | None => None
      end
  | _ => None
  end.

(** Digits with an optional fraction. *)
Definition decimal (s : string) : option Q :=
  match split_on "." s with
  | [i] => option_map inject_Z (number i)
  | [i; f] =>
      match number i, number f with
      | Some a, Some b =>
          Some (Qred (inject_Z a + inject_Z b / inject_Z (10 ^ Z.of_nat (String.length f))))
      | _, _ => None
      end
  | _ => None
  end.

(** Text is read as [H:M:S]; a bare number counts nanoseconds.  The
    result is a count of nanoseconds. *)
Definition timedelta (v : value) : option Z :=
  match v with
  | Str s => option_map (fun secs => (secs * ns_per_second)%Z) (hms s)
  | Num q => Some (trunc q)
  | _ => None
  end.

Definition coercions : Coercions :=
  {| parse_date := fun s i => match nth i s NA with Str t => date t | _ => None end;
     parse_time := time;
     parse_float := decimal;
     parse_timedelta := timedelta;
     resolution := 1000000000 |}.

End Iso.

(** ** The two-file scenario *)

Module Scenario.

Definition file_A : DataFrame :=
  mkDF 2
    [ ("Timestamp", [Datetime 1704878100000000000; Datetime 1704983400000000000]);
      ("groundSpeed", [Num 5; Num 7]);
      ("flightTime", [Str "00:00:10"; Str "00:00:20"]);
      ("clock.currentDate", [Str "2024-01-10"; Str "2024-01-11"]);
      ("clock.currentTime", [Str "09:15:00"; Str "14:30:00"]) ].

Definition file_B : DataFrame :=
  mkDF 1
    [ ("Timestamp", [Datetime 1706745900000000000]);
      ("groundSpeed", [Num 3]);
      ("flightTime", [Str "00:00:30"]);
      ("clock.currentDate", [Str "2024-02-01"]);
      ("clock.currentTime", [Str "00:05:00"]) ].

Definition loaded : result Loaded := load Iso.coercions [file_A; file_B].

(** The fleet table of the two files. *)
Definition fleet : DataFrame :=
  match loaded with
  | Ok st => df_all st
  | Raise _ => empty_frame
  end.

Definition ground_speed_by_month : list LongRow :=
  [ mkLong "flight_1" "Jan" "Ground Speed" (Num 6);
    mkLong "flight_2" "Feb" "Ground Speed" (Num 3) ].

End Scenario.


(** ** Further sample files *)

Module Samples.

(** A log whose second row carries no readable date. *)
Definition undated_row : DataFrame :=
  mkDF 3
    [ ("Timestamp", [Datetime 1709629200000000000; NA; Datetime 1709715600000000000]);
      ("groundSpeed", [Num 4; Num 9; Str "6.5"]);
      ("clock.currentDate", [Str "2024-03-05"; Str "n/a"; Str "2024-03-06"]);
      ("clock.currentTime", [Str "09:00:00"; Str "09:00:01"; Str "9:00:02"]);
      ("vehicle", [Str "x500"; Str "x500"; Str "x500"]) ].

(** A log in which no row carries a readable date. *)
Definition undated : DataFrame :=
  mkDF 1
    [ ("Timestamp", [NA]);
      ("groundSpeed", [Num 4]);
      ("airSpeed", [Num 5]);
      ("altitudeRelative", [Num 12]);
      ("flightTime", [Str "00:00:05"]);
      ("battery0.percentRemaining", [Num 97]);
      ("clock.currentDate", [Str "yesterday"]);
      ("clock.currentTime", [Str "09:00:00"]) ].

End Samples.


(** ** What the statistics are, in the words of the specification *)

(** A cell of a float64 or timedelta column: a number or missing. *)
Definition is_cell (d : dtype) (v : value) : Prop :=
  v = NA \/ exists q, v = box d q.

(** The numbers a column of dtype [d] holds, in row order: the floats
    of a float column, the lengths in seconds of the durations of a
    duration column.  Missing cells are left out. *)
Fixpoint present (d : dtype) (s : Series) : list Q :=
  match s with
  | [] => []
  | Num q :: s' =>
      match d with
      | Float64 => q :: present d s'
      | Timedelta64 _ => present d s'
      end
  | Timedelta q :: s' =>
      match d with
      | Float64 => present d s'
      | Timedelta64 _ => q :: present d s'
      end
  | _ :: s' => present d s'
  end.

Definition total (l : list Q) : Q := fold_right Qplus 0%Q l.

(** [v] is the largest of the present cells [l], or missing when there
    is none. *)
Definition maximum (d : dtype) (l : list Q) (v : value) : Prop :=
  match l with
  | [] => v = NA
  | _ => exists m, v = box d m /\ In m l /\ forall q, In q l -> (q <= m)%Q
  end.

Definition minimum (d : dtype) (l : list Q) (v : value) : Prop :=
  match l with
  | [] => v = NA
  | _ => exists m, v = box d m /\ In m l /\ forall q, In q l -> (m <= q)%Q
  end.


(** [r] is [x] to two decimal places: a whole number of hundredths, at
    most half a hundredth away, the even one when two are as near. *)
Definition two_decimals (x r : Q) : Prop :=
  exists k : Z,
    (r == inject_Z k / 100)%Q
    /\ (Qabs (r - x) <= 1 # 200)%Q
    /\ ((Qabs (r - x) == 1 # 200)%Q -> Z.even k = true).





(** The summary entries computed from each source column, lines 67-79. *)
Definition derived (c : string) : list string :=
  if String.eqb c "flightTime" then ["flight_time"; "avg_flight_time"]
  else if String.eqb c "flightDistance" then ["flight_distance"; "avg_flight_distance"]
  else if String.eqb c "altitudeRelative" then ["max_altitude"; "avg_altitude"]
  else if String.eqb c "groundSpeed" then ["max_ground_speed"; "avg_ground_speed"]
  else if String.eqb c "airSpeed" then ["max_air_speed"; "avg_air_speed"]
  else if String.eqb c "battery0.percentRemaining"
       then ["min_battery"; "avg_battery_remaining"]
  else if String.eqb c "battery0.instantPower" then ["avg_power"]
  else [].

Definition metric_sources : list string := "flightTime" :: numeric_cols.


(** The dtype lines 57-62 give a metric source column. *)
Definition dtype_of (P : Coercions) (c : string) : dtype :=
  if String.eqb c "flightTime" then Timedelta64 (resolution P) else Float64.

(** A duration cell that is a whole number of ticks, as every cell of
    a timedelta column is. *)
Definition whole_duration (ticks : positive) (v : value) : Prop :=
  match v with
  | Timedelta q => exists k : Z, (q == inject_Z k / inject_Z (Zpos ticks))%Q
  | _ => True
  end.


(** A log without battery, altitude and distance telemetry. *)
Module Sparse.

Definition file : DataFrame :=
  mkDF 2
    [ ("Timestamp", [Datetime 1709629200000000000; Datetime 1709629201000000000]);
      ("groundSpeed", [Num (5 # 2); Num (7 # 2)]);
      ("airSpeed", [NA; NA]);
      ("flightTime", [Str "00:01:00"; Str "00:01:01"]);
      ("clock.currentDate", [Str "2024-03-05"; Str "2024-03-05"]);
      ("clock.currentTime", [Str "09:00:00"; Str "09:00:01"]) ].

End Sparse.


(** [figs[metric]] *)
Fixpoint figs_get (metric : string) (figs : list (string * Figure)) : option Figure :=
  match figs with
  | [] => None
  | (k, fig) :: figs' => if String.eqb k metric then Some fig else figs_get metric figs'
  end.


(** ** The shape of a grouped table *)

(** Rows for the flights [fs] and buckets [bs], in that nesting, where
    [keep] says which combinations have a row and [means] what it holds. *)
Definition grid (fs bs : list string) (keep : string -> string -> bool)
  (means : string -> string -> list value) : list GroupedRow :=
  flat_map (fun f => flat_map (fun b => if keep f b
                                        then [mkGrouped f b (means f b)]
                                        else [])
                              bs)
           fs.

(** The [j]-th block of [avg_long]: one row per grouped row, under the
    display name [name]. *)
Definition block (name : string) (j : nat) (avg_vals : list GroupedRow) : list LongRow :=
  map (fun r => mkLong (g_flight r) (g_bucket r) name (nth j (g_means r) NA)) avg_vals.

(** The buckets of one flight in a chart table, in table order. *)
Definition buckets_of (f : string) (rows : list LongRow) : list string :=
  map bucket (filter (fun r => String.eqb (flight_id r) f) rows).


(** The tables of the scenario's fleet, grouped by hour. *)
Definition hour_figs : list (string * Figure) :=
  match snd (plot_flight_metrics false Scenario.fleet "hour" metrics "bar") with
  | Ok figs => figs
  | Raise _ => []
  end.


(** ** Bucket labels, in the words of the specification *)

(** The column a grouping key is derived from. *)
Definition source_col (group_col : string) : string :=
  if String.eqb group_col "hour" then "time" else "date".

(** The label of a moment: month abbreviation, weekday name, hour on
    the 12-hour clock, or year. *)
Definition bucket_label (group_col : string) (ns : Z) : string :=
  if String.eqb group_col "month" then nth (Z.to_nat (dt_month ns - 1)) month_order ""
  else if String.eqb group_col "weekday" then nth (Z.to_nat (dt_weekday ns)) weekday_order ""
  else if String.eqb group_col "hour" then hour_label (Z.to_nat (dt_hour ns))
  else str_of_Z (dt_year ns).

Definition labelling (group_col : string) (v : value) : value :=
  match v with
  | Datetime ns => Str (bucket_label group_col ns)
  | _ => NA
  end.


(** ** Auxiliary notions for the properties *)

(** The column labelled [c], as a one-entry list, or nothing. *)
Definition pick (l : list (string * Series)) (c : string) : list (string * Series) :=
  match assoc c l with
  | Some s => [(c, s)]
  | None => []
  end.

(** A column of missing cells. *)
Definition fill (n : nat) (c : string) : string * Series := (c, repeat NA n).

Fixpoint distinct (l : list string) : bool :=
  match l with
  | [] => true
  | a :: l' => negb (in_list a l') && distinct l'
  end.

(** The column [c] of a frame after [f] was applied to the columns [l]. *)
Definition updated (f : Series -> Series) (l : list string) (df : DataFrame) (c : string) : result Series :=
  if in_list c l then s <- getitem df c ;; Ok (f s) else getitem df c.

(** The column [c] after lines 47-51, read off the reconciled table. *)
Definition stamped (P : Coercions) (i : nat) (d : DataFrame) (c : string) : result Series :=
  if String.eqb c "time" then
    t <- getitem d "clock.currentTime" ;; Ok (to_datetime_hms P t)
  else if String.eqb c "date" then
    s <- getitem d "clock.currentDate" ;; Ok (to_datetime P s)
  else if String.eqb c "flight_id" then
    Ok (repeat (Str (flight_label i)) (nrows d))
  else getitem d c.

(** The coercion lines 57-62 apply to the column [c]. *)
Definition coercion (P : Coercions) (c : string) : Series -> Series :=
  if in_list c numeric_cols then to_numeric P
  else if String.eqb c "flightTime" then to_timedelta P
  else fun s => s.

(** The state after loading the first scenario file and a log without
    any readable date. *)
Definition loaded_with_undated : Loaded :=
  match load Iso.coercions [Scenario.file_A; Samples.undated] with
  | Ok st => st
  | Raise _ => mkLoaded [] [] []
  end.

(** A call of the grouper on the scenario's fleet table. *)
Definition month_call : DataFrame * result (list (string * Figure)) :=
  plot_flight_metrics true Scenario.fleet "month" metrics "line".

Definition month_figs : list (string * Figure) :=
  match snd month_call with
  | Ok figs => figs
  | Raise _ => []
  end.

(** ** Rendering, lines 97-105 *)

(** [f"{n:02}"] on an integer: at least two characters, zeros after the
    sign. *)
Definition pad2 (n : Z) : string :=
  if (n <? 0)%Z then ("-" ++ str_of_nat (Z.abs_nat n))%string
  else two_digits (Z.to_nat n).

(** [format_timedelta(td)]; only a duration has [total_seconds]. *)
Definition format_timedelta (td : value) : result string :=
  match td with
  | NA => Ok "N/A"
  | Timedelta secs =>
      let total_seconds := trunc secs in
      let h := (total_seconds / 3600)%Z in
      let r := (total_seconds mod 3600)%Z in
      let m := (r / 60)%Z in
      let s := (r mod 60)%Z in
      Ok (pad2 h ++ ":" ++ pad2 m ++ ":" ++ pad2 s)%string
  | _ => Raise (AttributeError "object has no attribute 'total_seconds'")
  end.

(** [f"{x:.2f}"]: the sign of the float, then its nearest number of
    hundredths. *)
Definition fixed2 (x : Q) : string :=
  let k := Z.abs (round_half_even (x * 100)) in
  ((if Qle_bool 0 x then "" else "-")
   ++ str_of_nat (Z.to_nat (k / 100)) ++ "." ++ two_digits (Z.to_nat (k mod 100)))%string.

Section Rendering.

(** Python's [float] on text. *)
Context (float_of_text : string -> option Q).

(** [fmt(value, unit)] *)
Definition fmt (value : value) (unit : string) : result string :=
  match value with
  | NA => Ok "N/A"
  | Num x => Ok (fixed2 x ++ unit)%string
  | Str t =>
      match float_of_text t with
      | Some x => Ok (fixed2 x ++ unit)%string
      | None => Raise (ValueError "could not convert string to float")
      end
  | _ => Raise (TypeError "float() argument must be a string or a real number")
  end.

End Rendering.

(** ** Fleet KPIs, lines 110-116 *)

(** [s.sum(skipna=True)]: the sum of an empty selection is 0. *)
Definition series_sum (d : dtype) (s : Series) : value :=
  box d (Qred (Qsum (valid d s))).

Definition isna (v : value) : bool := negb (notna v).

Section Kpis.

Context (P : Coercions).

(** Line 111, [flight_summary["flight_time"].sum(skipna=True)].  The
    frame constructor infers the dtype of the column from the records:
    with a duration among them it is a timedelta column, whose sum
    skips the missing entries; when every record holds NaT it is a
    datetime64 column, and datetimes cannot be summed.  A column
    without rows is an object column, whose sum is 0. *)
Definition total_flight_time (flight_summary : DataFrame) : result value :=
  s <- getitem flight_summary "flight_time" ;;
  match s with
  | [] => Ok (Num 0)
  | _ => if forallb isna s
         then Raise (TypeError "datetime64 type does not support operation 'sum'")
         else Ok (series_sum (Timedelta64 (resolution P)) s)
  end.

(** [pd.to_numeric(flight_summary[c], errors="coerce").f(skipna=True)] *)
Definition kpi (f : dtype -> Series -> value) (flight_summary : DataFrame)
  (c : string) : result value :=
  s <- getitem flight_summary c ;;
  Ok (f Float64 (to_numeric P s)).

Definition total_flight_distance (flight_summary : DataFrame) : result value :=
  kpi series_sum flight_summary "flight_distance".

Definition max_altitude (flight_summary : DataFrame) : result value :=
  kpi series_max flight_summary "max_altitude".

Definition max_ground_speed (flight_summary : DataFrame) : result value :=
  kpi series_max flight_summary "max_ground_speed".

Definition max_air_speed (flight_summary : DataFrame) : result value :=
  kpi series_max flight_summary "max_air_speed".

Definition min_battery (flight_summary : DataFrame) : result value :=
  kpi series_min flight_summary "min_battery".

End Kpis.

(** The seven module-level values of lines 110-116. *)
Record Kpis : Type := mkKpis {
  kpi_flights : nat;
  kpi_flight_time : value;
  kpi_distance : value;
  kpi_altitude : value;
  kpi_ground_speed : value;
  kpi_air_speed : value;
  kpi_battery : value
}.

(** Lines 110-116 in the order the script runs them: an exception at
    one line leaves the lines after it unreached. *)
Definition kpis (P : Coercions) (flight_summary : DataFrame) : result Kpis :=
  n <- total_flights flight_summary ;;
  t <- total_flight_time P flight_summary ;;
  d <- total_flight_distance P flight_summary ;;
  a <- max_altitude P flight_summary ;;
  g <- max_ground_speed P flight_summary ;;
  s <- max_air_speed P flight_summary ;;
  b <- min_battery P flight_summary ;;
  Ok (mkKpis n t d a g s b).

(** [df.empty]: no rows or no columns. *)
Definition empty (df : DataFrame) : bool :=
  (nrows df =? 0)%nat || (length (cols df) =? 0)%nat.

(** ** The script as a whole, lines 35-237

    What a run puts on the page: the texts of the seven KPI tiles
    (lines 121-129), the grouped charts (line 229) and whether the GPS
    map is drawn (the guard of line 237).  The bar charts of lines
    137-153 are drawn from [flight_summary] as it is. *)

Record Page : Type := mkPage {
  tiles : list (string * string);
  charts : list (string * Figure);
  gps_map : bool
}.

Section Script.

Context (P : Coercions) (observed : bool) (float_of_text : string -> option Q).

(** Lines 121-129. *)
Definition kpi_tiles (k : Kpis) : result (list (string * string)) :=
  t <- format_timedelta (kpi_flight_time k) ;;
  d <- fmt float_of_text (kpi_distance k) "" ;;
  a <- fmt float_of_text (kpi_altitude k) "" ;;
  g <- fmt float_of_text (kpi_ground_speed k) "" ;;
  s <- fmt float_of_text (kpi_air_speed k) "" ;;
  b <- fmt float_of_text (kpi_battery k) "" ;;
  Ok [ ("Total Flights", str_of_nat (kpi_flights k));
       ("Total Flight Time", t);
       ("Total Distance (m)", d);
       ("Max Altitude (m)", a);
       ("Max Ground Speed (m/s)", g);
       ("Max Air Speed (m/s)", s);
       ("Lowest Battery %", b) ].

(** One run of the script on the files of the data folder, with the
    grouping key and the chart style the two widgets of lines 226-227
    return: what the page is given, as far as the guard of line 237,
    when no drawing call raises. *)
Definition report (all_files : list DataFrame) (group_col chart_type : string)
  : result Page :=
  st <- load P all_files ;;
  k <- kpis P (flight_summary st) ;;
  tiles <- kpi_tiles k ;;
  charts <- snd (plot_flight_metrics observed (df_all st) group_col metrics chart_type) ;;
  Ok (mkPage tiles charts (negb (empty (gps_all st)))).

End Script.

(** ** What loading produces *)

(** The flights of the files from position [i] on: each file's
    normalised rows and summary. *)
Inductive flights_of (P : Coercions)
  : nat -> list DataFrame -> list (DataFrame * dict) -> Prop :=
| flights_nil (i : nat) : flights_of P i [] []
| flights_cons (i : nat) (file : DataFrame) (files : list DataFrame)
    (out : DataFrame) (s : dict) (rest : list (DataFrame * dict)) :
    has_col file "Timestamp" = true ->
    normalize P i file = Ok out ->
    summary P (flight_label i) out = Ok s ->
    flights_of P (S i) files rest ->
    flights_of P i (file :: files) ((out, s) :: rest).

Definition gps_of (out : DataFrame) : DataFrame :=
  select_cols out ["gps.lat"; "gps.lon"; "flight_id"].

(** Reads [H:M:S] back as a number of seconds. *)
Definition clock_seconds (s : string) : option Z :=
  match map Iso.number (Iso.split_on ":" s) with
  | [Some h; Some m; Some sec] => Some (h * 3600 + m * 60 + sec)%Z
  | _ => None
  end.


(** The cells of a column, nothing if the frame has no such column. *)
Definition column (df : DataFrame) (c : string) : Series :=
  match getitem df c with
  | Ok s => s
  | Raise _ => []
  end.

(** The labels of a normalised table. *)
Definition fleet_labels : list string :=
  required_cols ++ ["flight_id"; "date"; "time"].


(** [v] is the extreme, for the order [le], of the present cells [l]. *)
Definition extreme (le : Q -> Q -> Prop) (d : dtype) (l : list Q) (v : value) : Prop :=
  match l with
  | [] => v = NA
  | _ => exists m, v = box d m /\ In m l /\ forall q, In q l -> le q m
  end.


(** Every character is a decimal digit. *)
Fixpoint all_digits (s : string) : bool :=
  match s with
  | EmptyString => true
  | String c s' =>
      match Iso.digit c with
      | Some _ => all_digits s'
      | None => false
      end
  end.

(** Reads a signed decimal number. *)
Definition signed_decimal (s : string) : option Q :=
  match s with
  | String "-" t => option_map Qopp (Iso.decimal t)
  | _ => Iso.decimal s
  end.


(** A log that carries no clock time. *)
Module NoClock.

Definition file : DataFrame :=
  mkDF 2
    [ ("Timestamp", [Datetime 1709629200000000000; Datetime 1709629201000000000]);
      ("groundSpeed", [Num 2; Num 3]);
      ("clock.currentDate", [Str "2024-03-05"; Str "2024-03-05"]) ].

Definition files : list DataFrame := [Scenario.file_A; file].

Definition loaded : Loaded :=
  match load Iso.coercions files with
  | Ok st => st
  | Raise _ => mkLoaded [] [] []
  end.

Definition flight : DataFrame := nth 1 (all_dfs loaded) empty_frame.

End NoClock.

(** The hour of each row as a number, missing where the time is. *)
Definition raw_hours (times : Series) : Series :=
  on_datetime (fun ns => Num (inject_Z (dt_hour ns))) times.


(** [lo] is at most [hi] plus [slack], or both are missing. *)
Definition no_more_than (d : dtype) (slack : Q) (lo hi : value) : Prop :=
  (lo = NA /\ hi = NA)
  \/ exists a b, lo = box d a /\ hi = box d b /\ (a <= b + slack)%Q.

(** The entries [lo] and [hi] of a summary are so related. *)
Definition ordered_entries (s : dict) (d : dtype) (slack : Q) (lo hi : string) : Prop :=
  exists a b,
    dict_get lo s = Some a /\ dict_get hi s = Some b /\ no_more_than d slack a b.


(** The order of Python's [sorted] on labels: code point by code point. *)
Definition text_le (a b : string) : Prop := String.leb a b = true.


(** The entry [key] of every summary is [g] of the flight's rows. *)
Definition entry (P : Coercions) (key : string) (g : DataFrame -> value) : Prop :=
  forall fid d s, summary P fid d = Ok s -> dict_get key s = Some (g d).

(** The first figure of [month_figs] and the first row of its table. *)
Definition month_ground_speed : Figure :=
  match month_figs with
  | (_, fig) :: _ => fig
  | [] => mkFigure Line "month" []
  end.



(** A log of three readings whose flight times, 10 s, 20 s and 2 s,
    have a mean that is not a whole number of nanoseconds. *)
Module Thirds.

Definition file : DataFrame :=
  mkDF 3
    [ ("Timestamp", [Datetime 1709629200000000000; Datetime 1709629201000000000;
                     Datetime 1709629202000000000]);
      ("groundSpeed", [Num 1; Num 2; Num 3]);
      ("flightTime", [Str "00:00:10"; Str "00:00:20"; Str "00:00:02"]);
      ("clock.currentDate", [Str "2024-03-05"; Str "2024-03-05"; Str "2024-03-05"]);
      ("clock.currentTime", [Str "09:00:00"; Str "09:00:01"; Str "09:00:02"]) ].

End Thirds.


(** ** The date filter, in the words of the specification *)

(** Whether the calendar date of row [i] reads: the cell is not blank
    and the parser accepts it. *)
Definition date_reads (P : Coercions) (raw : Series) (i : nat) : bool :=
  match nth i raw NA with
  | NA => false
  | _ => match parse_date P raw i with
         | Some _ => true
         | None => false
         end
  end.

(** Row by row, whether the date reads. *)
Definition dated (P : Coercions) (raw : Series) : list bool :=
  map (date_reads P raw) (seq 0 (length raw)).

(** The cells of [s] in the rows marked [true], in their order. *)
Definition rows_kept {A : Type} (keep : list bool) (s : list A) : list A :=
  map snd (filter fst (combine keep s)).


(** Three logs with distance, altitude and battery telemetry; the only
    row of the second has no readable date. *)
Module Surveyed.

Definition file_1 : DataFrame :=
  mkDF 2
    [ ("Timestamp", [Datetime 1709629200000000000; Datetime 1709629201000000000]);
      ("groundSpeed", [Num 5; Num 7]);
      ("airSpeed", [Num 6; Num 8]);
      ("altitudeRelative", [Num 30; Num 42]);
      ("flightDistance", [Num 100; Num 250]);
      ("flightTime", [Str "00:00:10"; Str "00:00:20"]);
      ("battery0.percentRemaining", [Num 90; Num 80]);
      ("clock.currentDate", [Str "2024-03-05"; Str "2024-03-05"]);
      ("clock.currentTime", [Str "09:00:00"; Str "09:00:01"]) ].

Definition file_2 : DataFrame :=
  mkDF 1
    [ ("Timestamp", [NA]);
      ("groundSpeed", [Num 99]);
      ("airSpeed", [Num 99]);
      ("altitudeRelative", [Num 999]);
      ("flightDistance", [Num 7000]);
      ("flightTime", [Str "01:00:00"]);
      ("battery0.percentRemaining", [Num 5]);
      ("clock.currentDate", [Str "yesterday"]);
      ("clock.currentTime", [Str "09:00:00"]) ].

Definition file_3 : DataFrame :=
  mkDF 1
    [ ("Timestamp", [Datetime 1709715600000000000]);
      ("groundSpeed", [Num 3]);
      ("airSpeed", [Num 4]);
      ("altitudeRelative", [Num 55]);
      ("flightDistance", [Num 80]);
      ("flightTime", [Str "00:00:30"]);
      ("battery0.percentRemaining", [Num 95]);
      ("clock.currentDate", [Str "2024-03-06"]);
      ("clock.currentTime", [Str "10:00:00"]) ].

Definition files : list DataFrame := [file_1; file_2; file_3].

Definition loaded : Loaded :=
  match load Iso.coercions files with
  | Ok st => st
  | Raise _ => mkLoaded [] [] []
  end.

Definition values : Kpis :=
  match kpis Iso.coercions (flight_summary loaded) with
  | Ok k => k
  | Raise _ => mkKpis 0 NA NA NA NA NA NA
  end.

Definition page : Page :=
  match report Iso.coercions true Iso.decimal files "month" "line" with
  | Ok p => p
  | Raise _ => mkPage [] [] false
  end.

End Surveyed.


(** A log without a Timestamp column. *)
Module Untimed.

Definition file : DataFrame :=
  mkDF 2
    [ ("groundSpeed", [Num 2; Num 3]);
      ("clock.currentDate", [Str "2024-03-05"; Str "2024-03-05"]);
      ("clock.currentTime", [Str "09:00:00"; Str "09:00:01"]) ].

End Untimed.

(** Ten copies of a log whose first row is dated a year after its
    second, and the figures of their fleet table grouped by year. *)
Module Decade.

Definition log : DataFrame :=
  mkDF 2
    [ ("Timestamp", [Datetime 1717232400000000000; Datetime 1685610000000000000]);
      ("groundSpeed", [Num 4; Num 6]);
      ("clock.currentDate", [Str "2024-06-01"; Str "2023-06-01"]);
      ("clock.currentTime", [Str "09:00:00"; Str "09:00:00"]) ].

Definition files : list DataFrame := repeat log 10.

Definition fleet : DataFrame :=
  match load Iso.coercions files with
  | Ok st => df_all st
  | Raise _ => empty_frame
  end.

Definition year_figs : list (string * Figure) :=
  match snd (plot_flight_metrics true fleet "year" metrics "line") with
  | Ok figs => figs
  | Raise _ => []
  end.

Definition ground_speed : Figure :=
  match year_figs with
  | (_, fig) :: _ => fig
  | [] => mkFigure Line "year" []
  end.

End Decade.


(** * Properties *)

(** ** Frames *)

Lemma in_list_In (c : string) (l : list string) :
  in_list c l = true <-> In c l.
Proof.
  unfold in_list. rewrite existsb_exists. split.
  - intros [y [Hy He]]. apply String.eqb_eq in He. now subst.
  - intros H. exists c. split; [assumption | apply String.eqb_refl].
Qed.

Lemma in_list_false (c : string) (l : list string) :
  in_list c l = false <-> ~ In c l.
Proof.
  rewrite <- in_list_In. destruct (in_list c l); split; congruence.
Qed.

Lemma in_list_app (c : string) (l1 l2 : list string) :
  in_list c (l1 ++ l2) = in_list c l1 || in_list c l2.
Proof. unfold in_list. apply existsb_app. Qed.

Lemma assoc_None (c : string) (l : list (string * Series)) :
  assoc c l = None <-> in_list c (map fst l) = false.
Proof.
  induction l as [|[k s] l IH]; simpl.
  - tauto.
  - rewrite (String.eqb_sym c k). destruct (String.eqb k c); simpl.
    + split; discriminate.
    + exact IH.
Qed.

Lemma assoc_app (c : string) (l1 l2 : list (string * Series)) :
  assoc c (l1 ++ l2) =
  match assoc c l1 with Some s => Some s | None => assoc c l2 end.
Proof.
  induction l1 as [|[k s] l1 IH]; simpl; [reflexivity|].
  destruct (String.eqb k c); [reflexivity | exact IH].
Qed.

Lemma bind_Ok {A B : Type} (r : result A) (k : A -> result B) (b : B) :
  bind r k = Ok b -> exists a, r = Ok a /\ k a = Ok b.
Proof.
  destruct r as [a|e]; simpl; [|discriminate]. intros H. now exists a.
Qed.

Lemma Ok_inj {A : Type} (a b : A) : Ok a = Ok b -> a = b.
Proof. now intros [= ->]. Qed.

Lemma has_col_getitem (df : DataFrame) (c : string) :
  has_col df c = true -> exists s, getitem df c = Ok s.
Proof.
  unfold has_col, getitem, columns. intros H.
  destruct (assoc c (cols df)) eqn:E.
  - now exists s.
  - apply assoc_None in E. congruence.
Qed.

Lemma getitem_has_col (df : DataFrame) (c : string) (s : Series) :
  getitem df c = Ok s -> has_col df c = true.
Proof.
  unfold has_col, getitem, columns.
  destruct (assoc c (cols df)) eqn:E; [intros _ | discriminate].
  destruct (in_list c (map fst (cols df))) eqn:F; [reflexivity|].
  apply assoc_None in F. congruence.
Qed.

(** ** Schema reconciliation *)

Lemma filter_label_absent (c : string) (l : list (string * Series)) :
  ~ In c (map fst l) -> filter (fun kv => String.eqb (fst kv) c) l = [].
Proof.
  induction l as [|[k s] l IH]; simpl; [reflexivity|].
  intros H. destruct (String.eqb k c) eqn:E.
  - apply String.eqb_eq in E. tauto.
  - apply IH. tauto.
Qed.

Lemma filter_label_pick (c : string) (l : list (string * Series)) :
  NoDup (map fst l) ->
  filter (fun kv => String.eqb (fst kv) c) l = pick l c.
Proof.
  unfold pick. induction l as [|[k s] l IH]; simpl; [reflexivity|].
  intros H. inversion H as [|? ? Hk Hl]; subst.
  destruct (String.eqb k c) eqn:E.
  - apply String.eqb_eq in E. subst k.
    now rewrite filter_label_absent.
  - now apply IH.
Qed.

Lemma select_cols_pick (df : DataFrame) (cs : list string) :
  NoDup (columns df) ->
  cols (select_cols df cs) = flat_map (pick (cols df)) cs.
Proof.
  intros H. unfold select_cols. simpl.
  apply flat_map_ext. intros c. now apply filter_label_pick.
Qed.

Lemma pick_labels (l : list (string * Series)) (cs : list string) :
  map fst (flat_map (pick l) cs) = filter (fun c => in_list c (map fst l)) cs.
Proof.
  induction cs as [|c cs IH]; simpl; [reflexivity|].
  rewrite map_app, IH. unfold pick at 1.
  destruct (assoc c l) eqn:E.
  - destruct (in_list c (map fst l)) eqn:F; [reflexivity|].
    apply assoc_None in F. congruence.
  - apply assoc_None in E. now rewrite E.
Qed.

Lemma pick_assoc (l : list (string * Series)) (cs : list string) (c : string) :
  assoc c (flat_map (pick l) cs) = if in_list c cs then assoc c l else None.
Proof.
  induction cs as [|a cs IH]; simpl; [reflexivity|].
  rewrite assoc_app, IH. unfold pick.
  destruct (String.eqb c a) eqn:E; simpl.
  - apply String.eqb_eq in E. subst a.
    destruct (assoc c l) eqn:F; simpl.
    + now rewrite String.eqb_refl.
    + now destruct (in_list c cs).
  - destruct (assoc a l); simpl; [|reflexivity].
    rewrite String.eqb_sym. now rewrite E.
Qed.

Lemma add_missing_fold (l : list string) :
  NoDup l ->
  forall d,
    fold_left (fun d c => if has_col d c then d else setitem_scalar d c NA) l d
    = mkDF (nrows d)
           (cols d ++ map (fill (nrows d)) (filter (fun c => negb (has_col d c)) l)).
Proof.
  induction l as [|a l IH]; intros Hl d; simpl.
  - rewrite app_nil_r. now destruct d.
  - inversion Hl as [|? ? Ha Hl']; subst.
    destruct (has_col d a) eqn:E; simpl.
    + now apply IH.
    + rewrite (IH Hl'). unfold setitem_scalar, setitem. rewrite E. simpl.
      rewrite <- app_assoc. simpl. unfold fill at 2. do 4 f_equal.
      apply filter_ext_in. intros c Hc. unfold has_col, columns. simpl.
      rewrite map_app, in_list_app. simpl.
      destruct (String.eqb c a) eqn:F.
      * apply String.eqb_eq in F. subst c. tauto.
      * now rewrite orb_false_r.
Qed.

Lemma distinct_NoDup (l : list string) : distinct l = true -> NoDup l.
Proof.
  induction l as [|a l IH]; simpl; intros H; constructor;
    apply andb_true_iff in H; destruct H as [H1 H2].
  - apply in_list_false. now destruct (in_list a l).
  - now apply IH.
Qed.

Lemma required_cols_NoDup : NoDup required_cols.
Proof. apply distinct_NoDup. vm_compute. reflexivity. Qed.

Lemma filter_partition_perm {A : Type} (p : A -> bool) (l : list A) :
  Permutation (filter p l ++ filter (fun a => negb (p a)) l) l.
Proof.
  induction l as [|a l IH]; simpl; [constructor|].
  destruct (p a); simpl.
  - now constructor.
  - apply Permutation_sym, Permutation_cons_app, Permutation_sym, IH.
Qed.

Lemma reconcile_cols (df : DataFrame) :
  NoDup (columns df) ->
  reconcile df
  = mkDF (nrows df)
         (flat_map (pick (cols df)) (filter (has_col df) required_cols)
          ++ map (fill (nrows df))
                 (filter (fun c => negb (has_col df c)) required_cols)).
Proof.
  intros H. unfold reconcile, add_missing.
  rewrite (add_missing_fold _ required_cols_NoDup).
  rewrite (select_cols_pick _ _ H). unfold available_cols.
  change (nrows (select_cols df (filter (has_col df) required_cols))) with (nrows df).
  do 3 f_equal. apply filter_ext_in. intros c Hc. f_equal.
  unfold has_col at 1, columns.
  rewrite (select_cols_pick _ _ H), pick_labels.
  destruct (has_col df c) eqn:E.
  - apply in_list_In, filter_In. split; [|exact E].
    apply filter_In. split; assumption.
  - apply in_list_false. rewrite filter_In. intros [_ F].
    unfold has_col, columns in E. congruence.
Qed.

Lemma fill_labels (n : nat) (l : list string) : map fst (map (fill n) l) = l.
Proof. rewrite map_map. simpl. apply map_id. Qed.

Lemma fill_assoc (n : nat) (l : list string) (c : string) :
  assoc c (map (fill n) l) = if in_list c l then Some (repeat NA n) else None.
Proof.
  induction l as [|a l IH]; simpl; [reflexivity|].
  rewrite (String.eqb_sym c a). destruct (String.eqb a c); simpl; [reflexivity | exact IH].
Qed.

Lemma reconcile_columns (df : DataFrame) :
  NoDup (columns df) ->
  columns (reconcile df)
  = filter (has_col df) required_cols
    ++ filter (fun c => negb (has_col df c)) required_cols.
Proof.
  intros H. rewrite (reconcile_cols _ H). unfold columns. cbn [cols].
  rewrite map_app, pick_labels, fill_labels. f_equal.
  rewrite forallb_filter_id; [reflexivity|].
  apply forallb_forall. intros c Hc. apply filter_In in Hc. apply Hc.
Qed.

Lemma reconcile_nrows (df : DataFrame) : nrows (reconcile df) = nrows df.
Proof.
  unfold reconcile, add_missing.
  assert (G : forall l d,
             nrows (fold_left (fun d c => if has_col d c then d
                                          else setitem_scalar d c NA) l d)
             = nrows d).
  { induction l as [|a l IH]; intros d; simpl; [reflexivity|].
    rewrite IH. destruct (has_col d a); [reflexivity|].
    unfold setitem_scalar, setitem. now destruct (has_col d a). }
  now rewrite G.
Qed.

Lemma reconcile_getitem (df : DataFrame) (c : string) :
  NoDup (columns df) ->
  In c required_cols ->
  getitem (reconcile df) c
  = if has_col df c then getitem df c else Ok (repeat NA (nrows df)).
Proof.
  intros H Hc. unfold getitem. rewrite (reconcile_cols _ H). cbn [cols].
  rewrite assoc_app, pick_assoc, fill_assoc.
  destruct (has_col df c) eqn:E.
  - replace (in_list c (filter (has_col df) required_cols)) with true.
    + destruct (has_col_getitem _ _ E) as [s Hs]. unfold getitem in Hs.
      destruct (assoc c (cols df)); [reflexivity | discriminate].
    + symmetry. apply in_list_In, filter_In. split; assumption.
  - replace (in_list c (filter (has_col df) required_cols)) with false.
    + replace (in_list c (filter (fun c0 => negb (has_col df c0)) required_cols))
        with true; [reflexivity|].
      symmetry. apply in_list_In, filter_In. split; [assumption | now rewrite E].
    + symmetry. apply in_list_false. rewrite filter_In. intros [_ F]. congruence.
Qed.

(** X21.  Whatever columns the table given to lines 39-45 has, as long
    as its labels are distinct, the reconciled table
    has exactly the 16 required columns, each once: those of the file
    first, then the absent ones.  A required column the file lacks is
    filled with the missing marker in every row, a required column the
    file has is kept as it is, no other column survives, and the
    number of rows does not change. *)
Theorem reconcile_exactly_required (df : DataFrame) :
  NoDup (columns df) ->
  Permutation (columns (reconcile df)) required_cols
  /\ length (columns (reconcile df)) = 16%nat
  /\ NoDup (columns (reconcile df))
  /\ (forall c, In c required_cols -> has_col df c = false ->
                getitem (reconcile df) c = Ok (repeat NA (nrows df)))
  /\ (forall c, In c required_cols -> has_col df c = true ->
                getitem (reconcile df) c = getitem df c)
  /\ (forall c, ~ In c required_cols -> has_col (reconcile df) c = false)
  /\ nrows (reconcile df) = nrows df.
Proof.
  intros H.
  assert (HP : Permutation (columns (reconcile df)) required_cols).
  { rewrite (reconcile_columns _ H). apply filter_partition_perm. }
  split; [exact HP|].
  split; [now rewrite (Permutation_length HP)|].
  split.
  { apply Permutation_sym in HP.
    exact (Permutation_NoDup HP required_cols_NoDup). }
  split; [|split; [|split]].
  - intros c Hc E. now rewrite (reconcile_getitem _ _ H Hc), E.
  - intros c Hc E. now rewrite (reconcile_getitem _ _ H Hc), E.
  - intros c Hc. unfold has_col. apply in_list_false. intros F.
    apply Hc. eapply Permutation_in; eassumption.
  - apply reconcile_nrows.
Qed.

Lemma reconcile_exactly_required_witness :
  Permutation (columns (reconcile Scenario.file_A)) required_cols
  /\ length (columns (reconcile Scenario.file_A)) = 16%nat.
Proof.
  assert (H : NoDup (columns Scenario.file_A)).
  { apply distinct_NoDup. vm_compute. reflexivity. }
  destruct (reconcile_exactly_required Scenario.file_A H) as [A [B _]].
  split; assumption.
Defined.

(** ** Reading a frame after an update *)

Lemma assoc_replace (c c' : string) (s : Series) (l : list (string * Series)) :
  assoc c' (map (fun kv => if String.eqb (fst kv) c then (c, s) else kv) l)
  = if String.eqb c' c
    then (if in_list c (map fst l) then Some s else None)
    else assoc c' l.
Proof.
  induction l as [|[k v] l IH]; simpl.
  - now destruct (String.eqb c' c).
  - destruct (String.eqb k c) eqn:E; simpl.
    + apply String.eqb_eq in E. subst k. rewrite String.eqb_refl. simpl.
      rewrite (String.eqb_sym c c'). destruct (String.eqb c' c); [reflexivity|].
      rewrite IH. destruct (String.eqb c' c) eqn:F; [|reflexivity].
      rewrite String.eqb_sym in F. congruence.
    + rewrite (String.eqb_sym c k), E. simpl.
      destruct (String.eqb k c') eqn:F.
      * apply String.eqb_eq in F. subst k. now rewrite E.
      * exact IH.
Qed.

Lemma getitem_setitem (df : DataFrame) (c c' : string) (s : Series) :
  getitem (setitem df c s) c' = if String.eqb c' c then Ok s else getitem df c'.
Proof.
  unfold getitem, setitem. destruct (has_col df c) eqn:E; cbn [cols].
  - rewrite assoc_replace. unfold has_col, columns in E. rewrite E.
    now destruct (String.eqb c' c).
  - rewrite assoc_app. simpl. rewrite (String.eqb_sym c c').
    destruct (String.eqb c' c) eqn:F.
    + apply String.eqb_eq in F. subst c'.
      unfold has_col, columns in E. apply assoc_None in E. now rewrite E.
    + now destruct (assoc c' (cols df)).
Qed.

Lemma nrows_setitem (df : DataFrame) (c : string) (s : Series) :
  nrows (setitem df c s) = nrows df.
Proof. unfold setitem. now destruct (has_col df c). Qed.

Lemma getitem_select_rows (df : DataFrame) (mask : list bool) (c : string) :
  getitem (select_rows df mask) c = (s <- getitem df c ;; Ok (select mask s)).
Proof.
  unfold getitem, select_rows. cbn [cols].
  induction (cols df) as [|[k v] l IH]; simpl; [reflexivity|].
  destruct (String.eqb k c); [reflexivity | exact IH].
Qed.

Section UpdateColumns.

Context (f : Series -> Series).

Lemma for_each_update_col (l : list string) :
  NoDup l ->
  forall df,
    (forall c, In c l -> has_col df c = true) ->
    exists df',
      for_each (update_col f) l df = Ok df'
      /\ nrows df' = nrows df
      /\ forall c, getitem df' c = updated f l df c.
Proof.
  induction l as [|a l IH]; intros Hl df Hc.
  - exists df. repeat split; reflexivity.
  - inversion Hl as [|? ? Ha Hl']; subst.
    destruct (has_col_getitem df a (Hc a (or_introl eq_refl))) as [s Hs].
    destruct (IH Hl' (setitem df a (f s))) as [df' [H1 [H2 H3]]].
    { intros c Hin. destruct (has_col_getitem df c (Hc c (or_intror Hin))) as [t Ht].
      apply getitem_has_col with (s := t). rewrite getitem_setitem.
      destruct (String.eqb c a) eqn:E; [|assumption].
      apply String.eqb_eq in E. subst c. tauto. }
    exists df'. split; [|split].
    + simpl. unfold update_col at 1. rewrite Hs. simpl. exact H1.
    + now rewrite H2, nrows_setitem.
    + intros c. rewrite H3. unfold updated. simpl.
      rewrite getitem_setitem.
      destruct (String.eqb c a) eqn:E; simpl.
      * apply String.eqb_eq in E. subst c.
        replace (in_list a l) with false; [now rewrite Hs|].
        symmetry. now apply in_list_false.
      * reflexivity.
Qed.

End UpdateColumns.

(** ** The normalised table, column by column *)

Lemma reconcile_has_col (df : DataFrame) (c : string) :
  NoDup (columns df) -> has_col (reconcile df) c = in_list c required_cols.
Proof.
  intros H. unfold has_col. rewrite (reconcile_columns _ H).
  destruct (in_list c required_cols) eqn:E.
  - apply in_list_In. apply in_list_In in E.
    apply (Permutation_in c (Permutation_sym (filter_partition_perm _ _)) E).
  - apply in_list_false. apply in_list_false in E. intros F. apply E.
    apply (Permutation_in c (filter_partition_perm _ _) F).
Qed.

Section Normalised.

Context (P : Coercions).

Lemma stamp_ok (i : nat) (d : DataFrame) :
  has_col d "clock.currentDate" = true ->
  has_col d "clock.currentTime" = true ->
  exists d',
    stamp P i d = Ok d'
    /\ nrows d' = nrows d
    /\ forall c, getitem d' c = stamped P i d c.
Proof.
  intros Hd Ht.
  destruct (has_col_getitem _ _ Hd) as [ds Hds].
  destruct (has_col_getitem _ _ Ht) as [ts Hts].
  unfold stamp, setitem_scalar.
  rewrite getitem_setitem. cbn [String.eqb Ascii.eqb Bool.eqb]. rewrite Hds.
  cbn [bind]. rewrite !getitem_setitem. cbn [String.eqb Ascii.eqb Bool.eqb].
  rewrite Hts. cbn [bind].
  eexists. split; [reflexivity|]. split.
  - now rewrite !nrows_setitem.
  - intros c. rewrite !getitem_setitem. unfold stamped. rewrite Hds, Hts.
    reflexivity.
Qed.

Lemma coerce_ok (d : DataFrame) :
  (forall c, In c numeric_cols -> has_col d c = true) ->
  has_col d "flightTime" = true ->
  exists d',
    coerce P d = Ok d'
    /\ nrows d' = nrows d
    /\ forall c, getitem d' c = (s <- getitem d c ;; Ok (coercion P c s)).
Proof.
  intros Hn Hf. unfold coerce.
  assert (ND : NoDup numeric_cols) by (apply distinct_NoDup; vm_compute; reflexivity).
  destruct (for_each_update_col (to_numeric P) numeric_cols ND d Hn)
    as [d1 [H1 [H2 H3]]].
  rewrite H1. cbn [bind]. unfold update_col.
  destruct (has_col_getitem _ _ Hf) as [fs Hfs].
  rewrite H3. unfold updated at 1.
  replace (in_list "flightTime" numeric_cols) with false by (vm_compute; reflexivity).
  rewrite Hfs. cbn [bind].
  eexists. split; [reflexivity|]. split.
  - now rewrite nrows_setitem.
  - intros c. rewrite getitem_setitem, H3. unfold updated, coercion.
    destruct (String.eqb c "flightTime") eqn:E.
    + apply String.eqb_eq in E. subst c.
      replace (in_list "flightTime" numeric_cols) with false by (vm_compute; reflexivity).
      now rewrite Hfs.
    + destruct (in_list c numeric_cols); destruct (getitem d c); reflexivity.
Qed.

Lemma has_col_select_rows (d : DataFrame) (mask : list bool) (c : string) :
  has_col (select_rows d mask) c = has_col d c.
Proof.
  unfold has_col, columns, select_rows. cbn [cols]. now rewrite map_map.
Qed.

Lemma normalize_ok (i : nat) (df : DataFrame) :
  NoDup (columns df) ->
  exists dates out,
    stamped P i (reconcile df) "date" = Ok dates
    /\ normalize P i df = Ok out
    /\ nrows out = count_true (map notna dates)
    /\ forall c,
         getitem out c
         = (s <- stamped P i (reconcile df) c ;;
            Ok (coercion P c (select (map notna dates) s))).
Proof.
  intros H.
  assert (R : forall c, In c required_cols -> has_col (reconcile df) c = true).
  { intros c Hc. rewrite (reconcile_has_col _ _ H). now apply in_list_In. }
  assert (Q : forall c, in_list c required_cols = true ->
                        has_col (reconcile df) c = true).
  { intros c Hc. apply R. now apply in_list_In. }
  destruct (stamp_ok i (reconcile df)) as [d1 [S1 [S2 S3]]];
    try (apply Q; vm_compute; reflexivity).
  assert (D : exists dates, stamped P i (reconcile df) "date" = Ok dates).
  { unfold stamped. cbn [String.eqb Ascii.eqb Bool.eqb].
    destruct (has_col_getitem (reconcile df) "clock.currentDate") as [s Hs];
      [apply Q; vm_compute; reflexivity|].
    rewrite Hs. eexists. reflexivity. }
  destruct D as [dates D]. exists dates.
  assert (K : forall c, in_list c required_cols = true ->
                        has_col (select_rows d1 (map notna dates)) c = true).
  { intros c Hc. rewrite has_col_select_rows.
    destruct (has_col_getitem _ _ (Q c Hc)) as [s Hs].
    assert (Hne : stamped P i (reconcile df) c = Ok s).
    { unfold stamped.
      destruct (String.eqb c "time") eqn:E1;
        [apply String.eqb_eq in E1; subst c; vm_compute in Hc; discriminate|].
      destruct (String.eqb c "date") eqn:E2;
        [apply String.eqb_eq in E2; subst c; vm_compute in Hc; discriminate|].
      destruct (String.eqb c "flight_id") eqn:E3;
        [apply String.eqb_eq in E3; subst c; vm_compute in Hc; discriminate|].
      exact Hs. }
    apply getitem_has_col with (s := s). now rewrite S3. }
  destruct (coerce_ok (select_rows d1 (map notna dates))) as [d2 [C1 [C2 C3]]].
  { intros c Hc. apply K. apply in_list_In.
    revert c Hc. apply incl_Forall_in_iff, Forall_forall.
    intros c Hc. apply in_list_In.
    revert c Hc. apply Forall_forall.
    repeat (constructor; [vm_compute; reflexivity|]). constructor. }
  { apply K. vm_compute. reflexivity. }
  exists d2. split; [exact D|]. split; [|split].
  - unfold normalize. rewrite S1. cbn [bind]. unfold drop_undated.
    rewrite S3, D. cbn [bind]. exact C1.
  - rewrite C2. reflexivity.
  - intros c. rewrite C3, getitem_select_rows, S3.
    now destruct (stamped P i (reconcile df) c).
Qed.

End Normalised.

(** ** The date filter *)

Lemma notna_to_datetime (P : Coercions) (raw : Series) :
  map notna (to_datetime P raw) = dated P raw.
Proof.
  unfold to_datetime, dated. rewrite map_map. apply map_ext. intros j.
  unfold date_reads. destruct (nth j raw NA); try reflexivity;
    (destruct (parse_date P raw j); reflexivity).
Qed.

Lemma select_rows_kept {A : Type} (keep : list bool) (s : list A) :
  select keep s = rows_kept keep s.
Proof.
  unfold rows_kept. revert s. induction keep as [|b keep IH]; intros [|x s];
    cbn [select combine filter map fst]; try reflexivity.
  destruct b; cbn [map snd]; now rewrite IH.
Qed.

Lemma select_self_Forall (f : value -> bool) (Q : value -> Prop) (s : Series) :
  Forall Q s -> Forall (fun v => Q v /\ f v = true) (select (map f s) s).
Proof.
  induction 1 as [|v s Hv _ IH]; cbn [map select]; [constructor|].
  destruct (f v) eqn:E; [constructor; [now split | assumption] | assumption].
Qed.

Lemma to_datetime_kept (P : Coercions) (raw : Series) :
  Forall (fun v => exists ns, v = Datetime ns)
         (select (map notna (to_datetime P raw)) (to_datetime P raw)).
Proof.
  eapply Forall_impl;
    [|apply (select_self_Forall notna
               (fun v => v = NA \/ exists ns, v = Datetime ns))].
  - intros v [[->|Hv] Hn]; [discriminate | exact Hv].
  - unfold to_datetime. apply Forall_map, Forall_forall. intros j _.
    destruct (nth j raw NA); try (now left);
      (destruct (parse_date P raw j) as [t|]; [right; now exists t | now left]).
Qed.

Lemma stamped_date (P : Coercions) (i : nat) (d : DataFrame) (s : Series) :
  stamped P i d "date" = Ok s ->
  exists raw, getitem d "clock.currentDate" = Ok raw /\ s = to_datetime P raw.
Proof.
  unfold stamped. cbn [String.eqb Ascii.eqb Bool.eqb]. intros S.
  apply bind_Ok in S. destruct S as [t [G S]]. exists t. split; [exact G | congruence].
Qed.

Lemma stamped_required (P : Coercions) (i : nat) (d : DataFrame) (c : string) :
  in_list c required_cols = true -> stamped P i d c = getitem d c.
Proof.
  intros Hc. unfold stamped.
  destruct (String.eqb c "time") eqn:E1;
    [apply String.eqb_eq in E1; subst c; vm_compute in Hc; discriminate|].
  destruct (String.eqb c "date") eqn:E2;
    [apply String.eqb_eq in E2; subst c; vm_compute in Hc; discriminate|].
  destruct (String.eqb c "flight_id") eqn:E3;
    [apply String.eqb_eq in E3; subst c; vm_compute in Hc; discriminate|].
  reflexivity.
Qed.

Lemma coercion_date (P : Coercions) (s : Series) : coercion P "date" s = s.
Proof. reflexivity. Qed.

(** C6.  Normalisation of a loaded table always succeeds.  With [raw]
    the cells of clock.currentDate (all blank when the file has no such
    column), a row survives exactly when its cell is not blank and the
    date parser accepts it: the table has one row per such row, every
    date of the result is a date, and every column of the reconciled
    table holds, in their original order, the cells of the surviving
    rows (coerced where lines 57-62 coerce the column). *)
Theorem normalize_keeps_dated_rows (P : Coercions) (i : nat) (df : DataFrame) :
  NoDup (columns df) ->
  exists raw out,
    getitem (reconcile df) "clock.currentDate" = Ok raw
    /\ normalize P i df = Ok out
    /\ nrows out = length (filter (fun b => b) (dated P raw))
    /\ (exists dates, getitem out "date" = Ok dates
                      /\ Forall (fun v => exists ns, v = Datetime ns) dates)
    /\ forall c s,
         getitem (reconcile df) c = Ok s ->
         getitem out c = Ok (coercion P c (rows_kept (dated P raw) s)).
Proof.
  intros H.
  destruct (normalize_ok P i df H) as [dates [out [D [N [R G]]]]].
  destruct (stamped_date P i _ _ D) as [raw [Hraw ->]].
  rewrite notna_to_datetime in R.
  exists raw, out. split; [exact Hraw|]. split; [exact N|]. split; [exact R|]. split.
  - exists (select (map notna (to_datetime P raw)) (to_datetime P raw)). split.
    + rewrite G, D. cbn [bind]. now rewrite coercion_date.
    + apply to_datetime_kept.
  - intros c s Hs.
    assert (Hc : in_list c required_cols = true).
    { rewrite <- (reconcile_has_col _ _ H). eapply getitem_has_col. exact Hs. }
    rewrite G, (stamped_required P i _ c Hc), Hs. cbn [bind].
    now rewrite notna_to_datetime, select_rows_kept.
Qed.

Lemma normalize_keeps_dated_rows_witness :
  exists raw out,
    getitem (reconcile Samples.undated_row) "clock.currentDate" = Ok raw
    /\ normalize Iso.coercions 0 Samples.undated_row = Ok out
    /\ nrows out = length (filter (fun b => b) (dated Iso.coercions raw))
    /\ (exists dates, getitem out "date" = Ok dates
                      /\ Forall (fun v => exists ns, v = Datetime ns) dates)
    /\ (forall c s,
          getitem (reconcile Samples.undated_row) c = Ok s ->
          getitem out c
          = Ok (coercion Iso.coercions c (rows_kept (dated Iso.coercions raw) s)))
    /\ raw = [Str "2024-03-05"; Str "n/a"; Str "2024-03-06"]
    /\ dated Iso.coercions raw = [true; false; true]
    /\ nrows out = 2%nat
    /\ getitem out "clock.currentDate" = Ok [Str "2024-03-05"; Str "2024-03-06"]
    /\ getitem out "groundSpeed" = Ok [Num 4; Num (13 # 2)].
Proof.
  assert (H : NoDup (columns Samples.undated_row)).
  { apply distinct_NoDup. vm_compute. reflexivity. }
  destruct (normalize_keeps_dated_rows Iso.coercions 0 Samples.undated_row H)
    as [raw [out [Hraw [N [R [D K]]]]]].
  assert (Er : raw = [Str "2024-03-05"; Str "n/a"; Str "2024-03-06"]).
  { assert (C : getitem (reconcile Samples.undated_row) "clock.currentDate"
                = Ok [Str "2024-03-05"; Str "n/a"; Str "2024-03-06"])
      by (vm_compute; reflexivity).
    congruence. }
  set (o := match normalize Iso.coercions 0 Samples.undated_row with
            | Ok o => o
            | Raise _ => empty_frame
            end).
  assert (No : normalize Iso.coercions 0 Samples.undated_row = Ok o)
    by (vm_compute; reflexivity).
  assert (Eo : out = o) by congruence.
  exists raw, out.
  split; [exact Hraw|]. split; [exact N|]. split; [exact R|]. split; [exact D|].
  split; [exact K|]. split; [exact Er|].
  rewrite Er, Eo.
  split; [vm_compute; reflexivity|]. split; [vm_compute; reflexivity|].
  split; vm_compute; reflexivity.
Defined.

(** ** Reductions *)

Lemma Qmax_cases (a b : Q) :
  (Qmax a b = a \/ Qmax a b = b) /\ (a <= Qmax a b)%Q /\ (b <= Qmax a b)%Q.
Proof.
  unfold Qmax. destruct (Qle_bool a b) eqn:E.
  - apply Qle_bool_iff in E. repeat split; auto. apply Qle_refl.
  - assert (~ (a <= b)%Q) by (rewrite <- Qle_bool_iff; congruence).
    repeat split; auto; [apply Qle_refl | apply Qlt_le_weak, Qnot_le_lt; assumption].
Qed.

Lemma Qmin_cases (a b : Q) :
  (Qmin a b = a \/ Qmin a b = b) /\ (Qmin a b <= a)%Q /\ (Qmin a b <= b)%Q.
Proof.
  unfold Qmin. destruct (Qle_bool a b) eqn:E.
  - apply Qle_bool_iff in E. repeat split; auto. apply Qle_refl.
  - assert (~ (a <= b)%Q) by (rewrite <- Qle_bool_iff; congruence).
    repeat split; auto; [apply Qlt_le_weak, Qnot_le_lt; assumption | apply Qle_refl].
Qed.

Lemma fold_Qmax (l : list Q) (a : Q) :
  In (fold_left Qmax l a) (a :: l)
  /\ forall q, In q (a :: l) -> (q <= fold_left Qmax l a)%Q.
Proof.
  revert a. induction l as [|b l IH]; intros a; simpl.
  - split; [now left|]. intros q [<-|[]]. apply Qle_refl.
  - destruct (IH (Qmax a b)) as [I1 I2].
    destruct (Qmax_cases a b) as [C [La Lb]]. split.
    + destruct I1 as [I1|I1]; [|now right; right].
      rewrite <- I1. destruct C as [C|C]; rewrite C; auto.
    + intros q [<-|[<-|Hq]].
      * eapply Qle_trans; [exact La|]. apply I2. now left.
      * eapply Qle_trans; [exact Lb|]. apply I2. now left.
      * apply I2. now right.
Qed.

Lemma fold_Qmin (l : list Q) (a : Q) :
  In (fold_left Qmin l a) (a :: l)
  /\ forall q, In q (a :: l) -> (fold_left Qmin l a <= q)%Q.
Proof.
  revert a. induction l as [|b l IH]; intros a; simpl.
  - split; [now left|]. intros q [<-|[]]. apply Qle_refl.
  - destruct (IH (Qmin a b)) as [I1 I2].
    destruct (Qmin_cases a b) as [C [La Lb]]. split.
    + destruct I1 as [I1|I1]; [|now right; right].
      rewrite <- I1. destruct C as [C|C]; rewrite C; auto.
    + intros q [<-|[<-|Hq]].
      * eapply Qle_trans; [|exact La]. apply I2. now left.
      * eapply Qle_trans; [|exact Lb]. apply I2. now left.
      * apply I2. now right.
Qed.

Lemma valid_present (d : dtype) (s : Series) : valid d s = present d s.
Proof.
  unfold valid. induction s as [|v s IH]; [reflexivity|].
  cbn [flat_map present]. rewrite IH. now destruct v, d.
Qed.

Lemma series_max_maximum (d : dtype) (s : Series) :
  maximum d (valid d s) (series_max d s).
Proof.
  unfold maximum, series_max. destruct (valid d s) as [|a l]; [reflexivity|].
  exists (fold_left Qmax l a). split; [reflexivity|]. apply fold_Qmax.
Qed.

Lemma series_min_minimum (d : dtype) (s : Series) :
  minimum d (valid d s) (series_min d s).
Proof.
  unfold minimum, series_min. destruct (valid d s) as [|a l]; [reflexivity|].
  exists (fold_left Qmin l a). split; [reflexivity|]. apply fold_Qmin.
Qed.

Lemma Qsum_total (l : list Q) : (Qsum l == total l)%Q.
Proof.
  unfold Qsum.
  assert (G : forall a, (fold_left Qplus l a == a + total l)%Q).
  { induction l as [|b l IH]; intros a; simpl.
    - now rewrite Qplus_0_r.
    - rewrite IH. now rewrite Qplus_assoc. }
  rewrite G. apply Qplus_0_l.
Qed.

Lemma length_nonzero (a : Q) (l : list Q) :
  ~ (inject_Z (Z.of_nat (length (a :: l))) == 0)%Q.
Proof.
  unfold Qeq. simpl. lia.
Qed.

Lemma mean_of_sum (a : Q) (l : list Q) :
  (Qsum (a :: l) / inject_Z (Z.of_nat (length (a :: l)))
   * inject_Z (Z.of_nat (length (a :: l))) == total (a :: l))%Q.
Proof.
  rewrite <- Qsum_total. rewrite Qmult_comm. apply Qmult_div_r. apply length_nonzero.
Qed.


(** *** Casting a mean of durations back to ticks *)


Lemma tick_pos (u : positive) : (0 < inject_Z (Zpos u))%Q.
Proof. change 0%Q with (inject_Z 0). rewrite <- Zlt_Qlt. lia. Qed.





Lemma trunc_le_int (y : Q) (K : Z) : (y <= inject_Z K)%Q -> (trunc y <= K)%Z.
Proof.
  intros H. unfold trunc. destruct (Qle_bool 0 y).
  - apply Qfloor_resp_le in H. now rewrite Qfloor_Z in H.
  - apply Qceiling_resp_le in H. now rewrite Qceiling_Z in H.
Qed.

Lemma whole_ticks_le (u : positive) (x hi : Q) (K : Z) :
  (hi == inject_Z K / inject_Z (Zpos u))%Q -> (x <= hi)%Q -> (whole_ticks u x <= hi)%Q.
Proof.
  intros G L. pose proof (tick_pos u) as HU. unfold whole_ticks.
  set (U := inject_Z (Zpos u)) in *.
  assert (NU : ~ (U == 0)%Q) by lra.
  rewrite G. apply (Qmult_le_r _ _ U HU).
  assert (E : forall a, (a / U * U == a)%Q) by (intros a; field; exact NU).
  rewrite !E. rewrite <- Zle_Qle. apply trunc_le_int.
  rewrite <- (E (inject_Z K)), <- G. apply Qmult_le_r; assumption.
Qed.

Lemma round_half_even_near (y : Q) :
  (- (1 # 2) <= inject_Z (round_half_even y) - y <= 1 # 2)%Q
  /\ ((inject_Z (round_half_even y) - y == 1 # 2)%Q
      \/ (inject_Z (round_half_even y) - y == - (1 # 2))%Q ->
      Z.even (round_half_even y) = true).
Proof.
  unfold round_half_even.
  pose proof (Qfloor_le y) as Hlo. pose proof (Qlt_floor y) as Hhi.
  rewrite inject_Z_plus in Hhi.
  change (inject_Z 1) with 1%Q in Hhi.
  destruct (Qcompare (y - inject_Z (Qfloor y)) (1 # 2)) eqn:E.
  - apply Qeq_alt in E. destruct (Z.even (Qfloor y)) eqn:Ev.
    + split; [split; lra | intros _; exact Ev].
    + rewrite inject_Z_plus. change (inject_Z 1) with 1%Q.
      split; [split; lra|]. intros _.
      change (Qfloor y + 1)%Z with (Z.succ (Qfloor y)).
      rewrite Z.even_succ, <- Z.negb_even, Ev. reflexivity.
  - apply Qlt_alt in E. split; [split; lra|]. intros [F|F]; lra.
  - apply Qgt_alt in E. rewrite inject_Z_plus. change (inject_Z 1) with 1%Q.
    split; [split; lra|]. intros [F|F]; lra.
Qed.

Lemma round2_two_decimals (x : Q) :
  two_decimals x (Qred (inject_Z (round_half_even (x * 100)) / 100)).
Proof.
  destruct (round_half_even_near (x * 100)) as [[B1 B2] T].
  exists (round_half_even (x * 100)).
  set (k := inject_Z (round_half_even (x * 100))) in *.
  assert (R : (Qred (k / 100) == k * (1 # 100))%Q).
  { rewrite Qred_correct. reflexivity. }
  split; [apply Qred_correct|]. split.
  - apply Qabs_Qle_condition. rewrite R. split; lra.
  - intros F. apply T. rewrite R in F.
    destruct (Qlt_le_dec (k * (1 # 100) - x) 0) as [N|N].
    + rewrite Qabs_neg in F by lra. right. lra.
    + rewrite Qabs_pos in F by lra. left. lra.
Qed.


(** ** The per-flight summary *)

Lemma summary_eq (P : Coercions) (fid : string) (d : DataFrame)
  (ft fd alt gs asp bat pw : Series) :
  getitem d "flightTime" = Ok ft ->
  getitem d "flightDistance" = Ok fd ->
  getitem d "altitudeRelative" = Ok alt ->
  getitem d "groundSpeed" = Ok gs ->
  getitem d "airSpeed" = Ok asp ->
  getitem d "battery0.percentRemaining" = Ok bat ->
  getitem d "battery0.instantPower" = Ok pw ->
  summary P fid d
  = Ok [ ("flight_id", Str fid);
         ("flight_time", series_max (Timedelta64 (resolution P)) ft);
         ("flight_distance", series_max Float64 fd);
         ("max_altitude", series_max Float64 alt);
         ("max_ground_speed", series_max Float64 gs);
         ("max_air_speed", series_max Float64 asp);
         ("min_battery", series_min Float64 bat);
         ("avg_power", round2 (series_mean Float64 pw));
         ("avg_altitude", round2 (series_mean Float64 alt));
         ("avg_flight_time", series_mean (Timedelta64 (resolution P)) ft);
         ("avg_flight_distance", round2 (series_mean Float64 fd));
         ("avg_ground_speed", round2 (series_mean Float64 gs));
         ("avg_air_speed", round2 (series_mean Float64 asp));
         ("avg_battery_remaining", round2 (series_mean Float64 bat)) ].
Proof.
  intros H1 H2 H3 H4 H5 H6 H7. unfold summary, reduce.
  rewrite H1, H2, H3, H4, H5, H6, H7. reflexivity.
Qed.

Lemma to_numeric_cells (P : Coercions) (s : Series) :
  Forall (is_cell Float64) (to_numeric P s).
Proof.
  unfold to_numeric. apply Forall_map, Forall_forall. intros v _.
  destruct v; try (now left); [|right; eexists; reflexivity].
  destruct (parse_float P s0); [right; eexists; reflexivity | now left].
Qed.

Lemma to_timedelta_cells (P : Coercions) (s : Series) :
  Forall (is_cell (Timedelta64 (resolution P))) (to_timedelta P s).
Proof.
  unfold to_timedelta. apply Forall_map, Forall_forall. intros v _.
  destruct v; try (now left);
    (destruct (parse_timedelta P _); [right; eexists; reflexivity | now left]).
Qed.

Lemma to_timedelta_whole (P : Coercions) (s : Series) :
  Forall (whole_duration (resolution P)) (to_timedelta P s).
Proof.
  unfold to_timedelta. apply Forall_map, Forall_forall. intros v _.
  destruct v; try exact I;
    (destruct (parse_timedelta P _) as [k|]; [|exact I]);
    exists k; apply Qred_correct.
Qed.

Lemma metric_sources_required (c : string) :
  In c metric_sources ->
  in_list c required_cols = true
  /\ String.eqb c "time" = false
  /\ String.eqb c "date" = false
  /\ String.eqb c "flight_id" = false.
Proof.
  revert c. apply Forall_forall.
  repeat (constructor; [vm_compute; repeat split; reflexivity|]). constructor.
Qed.

Lemma coercion_cells (P : Coercions) (c : string) (s : Series) :
  In c metric_sources -> Forall (is_cell (dtype_of P c)) (coercion P c s).
Proof.
  revert c. apply Forall_forall.
  constructor; [apply to_timedelta_cells|].
  repeat (constructor; [apply to_numeric_cells|]). constructor.
Qed.

Lemma normalized_metric (P : Coercions) (i : nat) (df out : DataFrame) (c : string) :
  NoDup (columns df) ->
  normalize P i df = Ok out ->
  In c metric_sources ->
  exists s, getitem out c = Ok s /\ Forall (is_cell (dtype_of P c)) s.
Proof.
  intros H N Hc.
  destruct (normalize_ok P i df H) as [dates [out' [_ [N' [_ G]]]]].
  rewrite N in N'. injection N' as <-.
  destruct (metric_sources_required c Hc) as [R [E1 [E2 E3]]].
  assert (Hs : has_col (reconcile df) c = true).
  { now rewrite (reconcile_has_col _ _ H). }
  destruct (has_col_getitem _ _ Hs) as [s Hg].
  eexists. split.
  - rewrite G. unfold stamped. rewrite E1, E2, E3, Hg. reflexivity.
  - now apply coercion_cells.
Qed.





(** ** Missing columns *)

Lemma valid_all_missing (d : dtype) (s : Series) :
  Forall (fun v => v = NA) s -> valid d s = [].
Proof.
  unfold valid. induction 1 as [|v s Hv _ IH]; simpl; [reflexivity|].
  subst v. now destruct d.
Qed.

Lemma reductions_all_missing (d : dtype) (s : Series) :
  Forall (fun v => v = NA) s ->
  series_max d s = NA /\ series_min d s = NA /\ series_mean d s = NA.
Proof.
  intros H. unfold series_max, series_min, series_mean.
  rewrite (valid_all_missing d s H). repeat split.
Qed.

Lemma select_all_missing (mask : list bool) (s : Series) :
  Forall (fun v => v = NA) s -> Forall (fun v => v = NA) (select mask s).
Proof.
  intros H. revert mask. induction H as [|v s Hv _ IH]; intros [|b mask]; simpl;
    try constructor.
  destruct b; [constructor; [assumption | apply IH] | apply IH].
Qed.

Lemma coercion_all_missing (P : Coercions) (c : string) (s : Series) :
  Forall (fun v => v = NA) s -> Forall (fun v => v = NA) (coercion P c s).
Proof.
  intros H. unfold coercion.
  destruct (in_list c numeric_cols); [|destruct (String.eqb c "flightTime")].
  - unfold to_numeric. apply Forall_map. eapply Forall_impl; [|exact H].
    intros v ->. reflexivity.
  - unfold to_timedelta. apply Forall_map. eapply Forall_impl; [|exact H].
    intros v ->. reflexivity.
  - exact H.
Qed.

(** A metric column the file does not have is entirely missing in the
    normalised rows. *)
Lemma absent_column_missing (P : Coercions) (i : nat) (df out : DataFrame) (c : string) :
  NoDup (columns df) ->
  normalize P i df = Ok out ->
  In c metric_sources ->
  has_col df c = false ->
  exists s, getitem out c = Ok s /\ Forall (fun v => v = NA) s.
Proof.
  intros H N Hc A.
  destruct (normalize_ok P i df H) as [dates [out' [_ [N' [_ G]]]]].
  rewrite N in N'. injection N' as <-.
  destruct (metric_sources_required c Hc) as [R [E1 [E2 E3]]].
  apply in_list_In in R.
  eexists. split.
  - rewrite G. unfold stamped. rewrite E1, E2, E3.
    rewrite (reconcile_getitem _ _ H R), A. reflexivity.
  - apply coercion_all_missing, select_all_missing, Forall_forall.
    intros v Hv. now apply repeat_spec in Hv.
Qed.

(** C5.  When every cell of a metric column is missing in a flight's
    normalised rows, the summary is still produced and every entry
    computed from that column is the missing marker. *)
Theorem missing_column_propagates
  (P : Coercions) (i : nat) (df out : DataFrame) (c : string) (s : Series) :
  NoDup (columns df) ->
  normalize P i df = Ok out ->
  In c metric_sources ->
  getitem out c = Ok s ->
  Forall (fun v => v = NA) s ->
  exists smry,
    summary P (flight_label i) out = Ok smry
    /\ derived c <> []
    /\ forall key, In key (derived c) -> dict_get key smry = Some NA.
Proof.
  intros H N Hc Hs Hna.
  assert (M : forall c, In c metric_sources -> exists s, getitem out c = Ok s).
  { intros c' Hc'. destruct (normalized_metric P i df out c' H N Hc') as [t [Ht _]].
    now exists t. }
  destruct (M "flightTime") as [ft Hft]; [vm_compute; tauto|].
  destruct (M "flightDistance") as [fd Hfd]; [vm_compute; tauto|].
  destruct (M "altitudeRelative") as [alt Halt]; [vm_compute; tauto|].
  destruct (M "groundSpeed") as [gs Hgs]; [vm_compute; tauto|].
  destruct (M "airSpeed") as [asp Hasp]; [vm_compute; tauto|].
  destruct (M "battery0.percentRemaining") as [bat Hbat]; [vm_compute; tauto|].
  destruct (M "battery0.instantPower") as [pw Hpw]; [vm_compute; tauto|].
  eexists. split.
  { apply summary_eq; eassumption. }
  pose proof (fun d => reductions_all_missing d s Hna) as R.
  destruct (R Float64) as [F1 [F2 F3]]. destruct (R (Timedelta64 (resolution P))) as [T1 [T2 T3]].
  unfold metric_sources, numeric_cols in Hc. simpl in Hc.
  destruct Hc as [<-|[<-|[<-|[<-|[<-|[<-|[<-|[]]]]]]]];
    (split; [discriminate|]);
    match goal with
    | A : getitem out ?k = Ok s, B : getitem out ?k = Ok ?t |- _ =>
        assert (t = s) by congruence; subst t
    end;
    intros key Hk; simpl in Hk;
    repeat (destruct Hk as [<-|Hk]; [simpl; rewrite ?F1, ?F2, ?F3, ?T1, ?T3; reflexivity|]);
    destruct Hk.
Qed.

Lemma missing_column_propagates_witness :
  exists out smry,
    normalize Iso.coercions 0 Sparse.file = Ok out
    /\ summary Iso.coercions (flight_label 0) out = Ok smry
    /\ forall key, In key ["min_battery"; "avg_battery_remaining"] ->
                   dict_get key smry = Some NA.
Proof.
  set (out := match normalize Iso.coercions 0 Sparse.file with
              | Ok o => o
              | Raise _ => empty_frame
              end).
  assert (N : normalize Iso.coercions 0 Sparse.file = Ok out)
    by (vm_compute; reflexivity).
  destruct (missing_column_propagates Iso.coercions 0 Sparse.file out
              "battery0.percentRemaining" [NA; NA])
    as [smry [S [_ K]]].
  - apply distinct_NoDup. vm_compute. reflexivity.
  - exact N.
  - vm_compute. tauto.
  - vm_compute. reflexivity.
  - repeat constructor.
  - exists out, smry. split; [exact N | split; [exact S | exact K]].
Defined.

(** ** Counting flights *)

Lemma unique_from (l seen : list string) :
  NoDup l ->
  (forall x, In x l -> ~ In x seen) ->
  fold_left (fun seen x => if in_list x seen then seen else seen ++ [x]) l seen
  = seen ++ l.
Proof.
  revert seen. induction l as [|a l IH]; intros seen Hl Hd; simpl.
  - now rewrite app_nil_r.
  - inversion Hl as [|? ? Ha Hl']; subst.
    replace (in_list a seen) with false.
    + rewrite IH; [now rewrite <- app_assoc | assumption |].
      intros x Hx Hin. apply in_app_or in Hin. destruct Hin as [Hin|[<-|[]]].
      * apply (Hd x); [now right | assumption].
      * contradiction.
    + symmetry. apply in_list_false. apply Hd. now left.
Qed.

Lemma unique_NoDup (l : list string) : NoDup l -> unique l = l.
Proof.
  intros H. unfold unique. now rewrite unique_from.
Qed.

Lemma unique_In (l : list string) (x : string) : In x (unique l) <-> In x l.
Proof.
  unfold unique.
  assert (G : forall seen,
             In x (fold_left (fun seen x => if in_list x seen then seen
                                            else seen ++ [x]) l seen)
             <-> In x seen \/ In x l).
  { induction l as [|a l IH]; intros seen; simpl; [tauto|].
    rewrite IH. destruct (in_list a seen) eqn:E.
    - apply in_list_In in E. split; [tauto|].
      intros [H|[<-|H]]; tauto.
    - rewrite in_app_iff. simpl. tauto. }
  rewrite G. simpl. tauto.
Qed.

Lemma str_of_nat_inj (n m : nat) : str_of_nat n = str_of_nat m -> n = m.
Proof.
  unfold str_of_nat. intros H.
  assert (E : Some (Nat.to_uint n) = Some (Nat.to_uint m)).
  { rewrite <- !NilEmpty.usu. now rewrite H. }
  injection E as E.
  rewrite <- (Unsigned.of_to n), <- (Unsigned.of_to m). now rewrite E.
Qed.

Lemma flight_label_inj (i j : nat) : flight_label i = flight_label j -> i = j.
Proof.
  unfold flight_label. intros H. simpl in H. injection H as H.
  apply str_of_nat_inj in H. lia.
Qed.

Lemma flight_labels_NoDup (i n : nat) : NoDup (map flight_label (seq i n)).
Proof.
  revert i. induction n as [|n IH]; intros i; simpl; constructor; [|apply IH].
  rewrite in_map_iff. intros [j [E Hj]].
  apply flight_label_inj in E. apply in_seq in Hj. lia.
Qed.

Lemma summary_flight_id (P : Coercions) (fid : string) (d : DataFrame) (s : dict) :
  summary P fid d = Ok s -> dict_get "flight_id" s = Some (Str fid).
Proof.
  unfold summary.
  repeat match goal with
         | |- context [reduce ?f ?t d ?c] =>
             destruct (reduce f t d c); cbn [bind]; [|discriminate]
         end.
  intros [= <-]. reflexivity.
Qed.

Lemma dict_get_In (k : string) (d : dict) (v : value) :
  dict_get k d = Some v -> In k (map fst d).
Proof.
  induction d as [|[k' v'] d IH]; simpl; [discriminate|].
  destruct (String.eqb k' k) eqn:E.
  - apply String.eqb_eq in E. now left.
  - intros H. right. now apply IH.
Qed.

Section Loading.

Context (P : Coercions).

Lemma load_file_summary (st0 st1 : Loaded) (i : nat) (file : DataFrame) :
  load_file P st0 i file = Ok st1 ->
  exists s,
    flight_summaries st1 = flight_summaries st0 ++ [s]
    /\ dict_get "flight_id" s = Some (Str (flight_label i)).
Proof.
  unfold load_file. intros L.
  apply bind_Ok in L. destruct L as [d0 [_ L]].
  apply bind_Ok in L. destruct L as [d1 [_ L]].
  apply bind_Ok in L. destruct L as [s [S L]].
  injection L as <-. exists s. split; [reflexivity|].
  exact (summary_flight_id _ _ _ _ S).
Qed.

Lemma load_from_summaries (files : list DataFrame) :
  forall i st0 st,
    load_from P i files st0 = Ok st ->
    exists new,
      flight_summaries st = flight_summaries st0 ++ new
      /\ map (dict_get "flight_id") new
         = map (fun j => Some (Str (flight_label j))) (seq i (length files)).
Proof.
  induction files as [|file files IH]; intros i st0 st H; cbn [load_from] in H.
  - injection H as <-. exists []. now rewrite app_nil_r.
  - destruct (load_file P st0 i file) as [st1|] eqn:L; [|discriminate].
    cbn [bind] in H. destruct (IH _ _ _ H) as [new [H1 H2]].
    destruct (load_file_summary _ _ _ _ L) as [s [L1 L2]].
    exists (s :: new). split.
    + rewrite H1, L1, <- app_assoc. reflexivity.
    + cbn [map length seq]. now rewrite H2, L2.
Qed.

Lemma assoc_keys (g : string -> Series) (l : list string) (c : string) :
  assoc c (map (fun k => (k, g k)) l) = if in_list c l then Some (g c) else None.
Proof.
  induction l as [|a l IH]; simpl; [reflexivity|].
  rewrite (String.eqb_sym c a). destruct (String.eqb a c) eqn:E; simpl.
  - apply String.eqb_eq in E. now subst.
  - exact IH.
Qed.

Lemma texts_labels (l : list nat) :
  texts (map (fun j => Str (flight_label j)) l) = map flight_label l.
Proof.
  unfold texts. induction l as [|a l IH]; simpl; [reflexivity|]. now rewrite IH.
Qed.

Lemma total_flights_of_records (records : list dict) (n : nat) :
  records <> [] ->
  map (dict_get "flight_id") records
  = map (fun j => Some (Str (flight_label j))) (seq 0 n) ->
  total_flights (frame_of_records records) = Ok n.
Proof.
  intros Hne H. unfold total_flights, getitem, frame_of_records. cbn [cols].
  rewrite assoc_keys.
  replace (in_list "flight_id" (unique (flat_map (map fst) records))) with true.
  - cbn [bind]. f_equal.
    replace (map (fun r => opt_value (fun v => v) (dict_get "flight_id" r)) records)
      with (map (fun j => Str (flight_label j)) (seq 0 n)).
    + rewrite texts_labels, unique_NoDup by apply flight_labels_NoDup.
      now rewrite length_map, length_seq.
    + rewrite <- (map_map (dict_get "flight_id") (opt_value (fun v => v))), H.
      now rewrite map_map.
  - symmetry. apply in_list_In, unique_In.
    destruct records as [|r records]; [contradiction|].
    destruct n as [|n]; [discriminate|]. simpl in H. injection H as H _.
    simpl. apply in_or_app. left. now apply dict_get_In in H.
Qed.

End Loading.

(** C4, as amended.  Whenever at least one file is given and all of
    them load, the flight count is the number of files: a file whose
    rows were all dropped still contributes its summary. *)
Theorem total_flights_counts_loaded_files
  (P : Coercions) (files : list DataFrame) (st : Loaded) :
  files <> [] ->
  load P files = Ok st ->
  total_flights (flight_summary st) = Ok (length files).
Proof.
  intros Hne L. unfold load in L.
  destruct (load_from_summaries P files 0 _ st L) as [new [H1 H2]].
  cbn [flight_summaries app] in H1. unfold flight_summary. rewrite H1.
  apply total_flights_of_records; [|exact H2].
  intros ->. destruct files; [contradiction | discriminate].
Qed.

Lemma total_flights_counts_loaded_files_witness :
  load Iso.coercions [Scenario.file_A; Samples.undated] = Ok loaded_with_undated
  /\ total_flights (flight_summary loaded_with_undated) = Ok 2%nat.
Proof.
  assert (L : load Iso.coercions [Scenario.file_A; Samples.undated]
              = Ok loaded_with_undated) by (vm_compute; reflexivity).
  split; [exact L|].
  apply (total_flights_counts_loaded_files Iso.coercions
           [Scenario.file_A; Samples.undated] loaded_with_undated);
    [discriminate | exact L].
Defined.

(** C4, as stated, fails: the only row of the only file has no readable
    date and is dropped, and the flight count is 1, not 1 - 1. *)
Lemma total_flights_ignores_dropped_rows :
  exists st out,
    load Iso.coercions [Samples.undated] = Ok st
    /\ all_dfs st = [out]
    /\ nrows Samples.undated = 1%nat
    /\ nrows out = 0%nat
    /\ total_flights (flight_summary st) = Ok 1%nat
    /\ total_flights (flight_summary st)
       <> Ok (length [Samples.undated] - 1)%nat.
Proof.
  eexists. eexists.
  split; [vm_compute; reflexivity|].
  split; [vm_compute; reflexivity|].
  split; [reflexivity|].
  split; [reflexivity|].
  split; [vm_compute; reflexivity|].
  vm_compute. discriminate.
Qed.

(** ** No input files *)

(** C9, at the failing input.  With no files the three combined tables
    are empty frames without columns, and the first KPI, the flight
    count, raises KeyError; so does the grouper on the empty fleet
    table, for each of the four grouping keys. *)
Theorem empty_directory_raises (P : Coercions) :
  exists st,
    load P [] = Ok st
    /\ flight_summary st = empty_frame
    /\ gps_all st = empty_frame
    /\ df_all st = empty_frame
    /\ total_flights (flight_summary st) = Raise (KeyError "flight_id")
    /\ forall observed chart_type,
         snd (plot_flight_metrics observed (df_all st) "year" metrics chart_type)
         = Raise (KeyError "date")
         /\ snd (plot_flight_metrics observed (df_all st) "month" metrics chart_type)
            = Raise (KeyError "date")
         /\ snd (plot_flight_metrics observed (df_all st) "weekday" metrics chart_type)
            = Raise (KeyError "date")
         /\ snd (plot_flight_metrics observed (df_all st) "hour" metrics chart_type)
            = Raise (KeyError "time").
Proof.
  eexists. split; [reflexivity|]. repeat split.
Qed.

(** ** Grouped tables *)

Lemma insert_sorted_In (a x : string) (l : list string) :
  In x (insert_sorted a l) <-> x = a \/ In x l.
Proof.
  induction l as [|y l IH]; simpl.
  - intuition.
  - destruct (String.leb a y); simpl; [intuition|]. rewrite IH. intuition.
Qed.

Lemma insert_sorted_NoDup (a : string) (l : list string) :
  ~ In a l -> NoDup l -> NoDup (insert_sorted a l).
Proof.
  induction l as [|y l IH]; simpl; intros Ha Hl.
  - constructor; [tauto | constructor].
  - destruct (String.leb a y).
    + constructor; assumption.
    + inversion Hl as [|? ? Hy Hl']; subst. constructor.
      * rewrite insert_sorted_In. intros [->|F]; tauto.
      * apply IH; tauto.
Qed.

Lemma sort_strings_In (x : string) (l : list string) :
  In x (sort_strings l) <-> In x l.
Proof.
  unfold sort_strings. induction l as [|a l IH]; simpl; [tauto|].
  rewrite insert_sorted_In, IH. intuition.
Qed.

Lemma sort_strings_NoDup (l : list string) : NoDup l -> NoDup (sort_strings l).
Proof.
  unfold sort_strings. induction 1 as [|a l Ha Hl IH]; simpl; [constructor|].
  apply insert_sorted_NoDup; [|assumption].
  change (~ In a (sort_strings l)). now rewrite sort_strings_In.
Qed.

Lemma unique_is_NoDup (l : list string) : NoDup (unique l).
Proof.
  unfold unique.
  assert (G : forall seen, NoDup seen ->
             NoDup (fold_left (fun seen x => if in_list x seen then seen
                                             else seen ++ [x]) l seen)).
  { induction l as [|a l IH]; intros seen Hs; simpl; [assumption|].
    apply IH. destruct (in_list a seen) eqn:E; [assumption|].
    apply in_list_false in E.
    apply NoDup_app; [assumption | constructor; [tauto | constructor] |].
    intros x Hx [<-|[]]. contradiction. }
  apply G. constructor.
Qed.

Lemma groupby_mean_grid (observed : bool) (df : DataFrame) (group_col : string)
  (keys : list string) (avg_vals : list GroupedRow) :
  is_categorical group_col = true ->
  groupby_mean observed df group_col keys = Ok avg_vals ->
  exists fs keep means,
    NoDup fs /\ avg_vals = grid fs (categories group_col) keep means.
Proof.
  intros C H. unfold groupby_mean in H.
  apply bind_Ok in H. destruct H as [flights [_ H]].
  apply bind_Ok in H. destruct H as [buckets [_ H]].
  apply bind_Ok in H. destruct H as [data [_ H]].
  rewrite C in H. injection H as <-.
  eexists. eexists. eexists. split; [|unfold grid; reflexivity].
  apply sort_strings_NoDup, unique_is_NoDup.
Qed.

Lemma grid_buckets (fs bs : list string) (keep : string -> string -> bool)
  (means : string -> string -> list value) (r : GroupedRow) :
  In r (grid fs bs keep means) -> In (g_bucket r) bs.
Proof.
  unfold grid. rewrite in_flat_map. intros [f [_ H]].
  rewrite in_flat_map in H. destruct H as [b [Hb H]].
  destruct (keep f b); [|contradiction]. destruct H as [<-|[]]. exact Hb.
Qed.

Lemma grid_row_of_flight (f a : string) (bs : list string)
  (keep : string -> string -> bool) (means : string -> string -> list value) :
  map g_bucket
      (filter (fun r => String.eqb (g_flight r) f)
              (flat_map (fun b => if keep a b then [mkGrouped a b (means a b)] else []) bs))
  = if String.eqb a f then filter (keep a) bs else [].
Proof.
  induction bs as [|b bs IH]; simpl.
  - now destruct (String.eqb a f).
  - rewrite filter_app, map_app, IH.
    destruct (keep a b); simpl; destruct (String.eqb a f); reflexivity.
Qed.

Lemma grid_flight (f : string) (fs bs : list string)
  (keep : string -> string -> bool) (means : string -> string -> list value) :
  NoDup fs ->
  map g_bucket (filter (fun r => String.eqb (g_flight r) f) (grid fs bs keep means))
  = if in_list f fs then filter (keep f) bs else [].
Proof.
  unfold grid. induction 1 as [|a fs Ha Hfs IH]; simpl; [reflexivity|].
  rewrite filter_app, map_app, grid_row_of_flight, IH.
  rewrite (String.eqb_sym f a). destruct (String.eqb a f) eqn:E; simpl.
  - apply String.eqb_eq in E. subst a.
    replace (in_list f fs) with false; [apply app_nil_r|].
    symmetry. now apply in_list_false.
  - reflexivity.
Qed.

Lemma avg_long_blocks (avg_vals : list GroupedRow) :
  map (rename_metric metrics) (melt (map fst metrics) avg_vals)
  = block "Ground Speed" 0 avg_vals ++ block "Air Speed" 1 avg_vals
    ++ block "Altitude" 2 avg_vals ++ block "Battery %" 3 avg_vals.
Proof.
  unfold melt, metrics, block.
  cbn [map fst length seq combine flat_map].
  rewrite app_nil_r, !map_app, !map_map. reflexivity.
Qed.

Lemma filter_block (name n : string) (j : nat) (avg_vals : list GroupedRow) :
  filter (fun r => String.eqb (Metric r) name) (block n j avg_vals)
  = if String.eqb n name then block n j avg_vals else [].
Proof.
  unfold block. induction avg_vals as [|r l IH]; simpl.
  - now destruct (String.eqb n name).
  - rewrite IH. now destruct (String.eqb n name).
Qed.

Lemma buckets_of_block (f n : string) (j : nat) (avg_vals : list GroupedRow) :
  buckets_of f (block n j avg_vals)
  = map g_bucket (filter (fun r => String.eqb (g_flight r) f) avg_vals).
Proof.
  unfold buckets_of, block. induction avg_vals as [|r l IH]; simpl; [reflexivity|].
  destruct (String.eqb (g_flight r) f); simpl; now rewrite IH.
Qed.

Lemma block_buckets (n : string) (j : nat) (avg_vals : list GroupedRow) (r : LongRow) :
  In r (block n j avg_vals) -> exists g, In g avg_vals /\ bucket r = g_bucket g.
Proof.
  unfold block. rewrite in_map_iff. intros [g [<- Hg]]. now exists g.
Qed.

Lemma make_fig_tables (group_col chart_type : string) (avg_long : list LongRow)
  (names : list string) :
  forall acc figs,
    for_each (make_fig group_col chart_type avg_long) names acc = Ok figs ->
    forall name fig,
      In (name, fig) figs ->
      In (name, fig) acc
      \/ table fig = filter (fun r => String.eqb (Metric r) name) avg_long.
Proof.
  induction names as [|m names IH]; intros acc figs H name fig Hin.
  - injection H as <-. now left.
  - cbn [for_each] in H. apply bind_Ok in H. destruct H as [acc' [M H]].
    destruct (IH _ _ H _ _ Hin) as [Hacc|Ht]; [|now right].
    unfold make_fig in M. apply bind_Ok in M. destruct M as [fg [F M]].
    injection M as <-. apply in_app_or in Hacc.
    destruct Hacc as [Hacc|[Hacc|[]]]; [now left|].
    injection Hacc as <- <-. right.
    destruct (String.eqb chart_type "line").
    + injection F as <-. reflexivity.
    + destruct (String.eqb chart_type "bar"); [|discriminate].
      injection F as <-. reflexivity.
Qed.

Lemma four_names {T : Type} (name : string) (A B C D X : list T) :
  (if String.eqb "Ground Speed" name then A else [])
  ++ (if String.eqb "Air Speed" name then B else [])
  ++ (if String.eqb "Altitude" name then C else [])
  ++ (if String.eqb "Battery %" name then D else []) = X ->
  X = [] \/ X = A \/ X = B \/ X = C \/ X = D.
Proof.
  intros <-.
  destruct (String.eqb "Ground Speed" name) eqn:E1;
    [apply String.eqb_eq in E1; subst name; cbn; rewrite app_nil_r; tauto|].
  destruct (String.eqb "Air Speed" name) eqn:E2;
    [apply String.eqb_eq in E2; subst name; cbn; rewrite app_nil_r; tauto|].
  destruct (String.eqb "Altitude" name) eqn:E3;
    [apply String.eqb_eq in E3; subst name; cbn; rewrite app_nil_r; tauto|].
  destruct (String.eqb "Battery %" name); cbn; tauto.
Qed.

Lemma hour_order_clock :
  hour_order
  = [ "12 AM"; "01 AM"; "02 AM"; "03 AM"; "04 AM"; "05 AM";
      "06 AM"; "07 AM"; "08 AM"; "09 AM"; "10 AM"; "11 AM";
      "12 PM"; "01 PM"; "02 PM"; "03 PM"; "04 PM"; "05 PM";
      "06 PM"; "07 PM"; "08 PM"; "09 PM"; "10 PM"; "11 PM" ].
Proof. vm_compute. reflexivity. Qed.

Lemma table_of_categorical (observed : bool) (df : DataFrame) (group_col : string)
  (chart_type : string) (figs : list (string * Figure)) :
  is_categorical group_col = true ->
  group_and_chart observed df group_col metrics chart_type = Ok figs ->
  forall metric fig,
    In (metric, fig) figs ->
    (forall r, In r (table fig) -> In (bucket r) (categories group_col))
    /\ forall f, exists keep,
         buckets_of f (table fig) = filter keep (categories group_col).
Proof.
  intros C H metric fig Hin. unfold group_and_chart in H.
  apply bind_Ok in H. destruct H as [avg_vals [G H]].
  destruct (groupby_mean_grid _ _ _ _ _ C G) as [fs [keep [means [Hfs Hg]]]].
  destruct (make_fig_tables _ _ _ _ _ _ H _ _ Hin) as [[]|T].
  rewrite avg_long_blocks, !filter_app, !filter_block in T.
  split.
  - intros r Hr. rewrite T in Hr.
    assert (B : exists g, In g avg_vals /\ bucket r = g_bucket g).
    { repeat (apply in_app_or in Hr; destruct Hr as [Hr|Hr]);
        match type of Hr with
        | In _ (if ?c then _ else _) =>
            destruct c; [eapply block_buckets; exact Hr | destruct Hr]
        end. }
    destruct B as [g [Hg' ->]]. rewrite Hg in Hg'.
    eapply grid_buckets. exact Hg'.
  - intros f.
    assert (E : buckets_of f (table fig) = []
                \/ buckets_of f (table fig)
                   = map g_bucket (filter (fun r => String.eqb (g_flight r) f) avg_vals)).
    { symmetry in T. apply four_names in T.
      destruct T as [T|[T|[T|[T|T]]]]; rewrite T;
        [now left | right; apply buckets_of_block ..]. }
    destruct E as [E|E]; rewrite E.
    + exists (fun _ => false). now rewrite filter_false.
    + rewrite Hg, (grid_flight _ _ _ _ _ Hfs).
      destruct (in_list f fs).
      * now exists (keep f).
      * exists (fun _ => false). now rewrite filter_false.
Qed.

(** C7.  Whenever grouping by hour returns its tables, every bucket
    label in them is one of the 24 labels of the 12-hour clock, and the
    buckets of each flight appear in the order 12 AM to 11 PM: they are
    the clock's labels with some left out. *)
Theorem hour_buckets_follow_clock (observed : bool) (df : DataFrame)
  (chart_type : string) (figs : list (string * Figure)) :
  snd (plot_flight_metrics observed df "hour" metrics chart_type) = Ok figs ->
  length hour_order = 24%nat
  /\ forall metric fig,
       In (metric, fig) figs ->
       (forall r, In r (table fig) -> In (bucket r) hour_order)
       /\ forall f, exists keep,
            buckets_of f (table fig) = filter keep hour_order.
Proof.
  intros H. split; [reflexivity|].
  unfold plot_flight_metrics in H.
  destruct (derive_bucket df "hour") as [df' [u|e]]; [|discriminate].
  cbn [snd] in H.
  exact (table_of_categorical observed df' "hour" chart_type figs eq_refl H).
Qed.

Lemma hour_buckets_follow_clock_witness :
  length hour_order = 24%nat
  /\ forall metric fig,
       In (metric, fig) hour_figs ->
       (forall r, In r (table fig) -> In (bucket r) hour_order)
       /\ forall f, exists keep,
            buckets_of f (table fig) = filter keep hour_order.
Proof.
  apply (hour_buckets_follow_clock false Scenario.fleet "bar" hour_figs).
  vm_compute. reflexivity.
Defined.

(** ** The two-file scenario *)

(** C3.  The two files load; the flight count is 2; the summaries give
    flight_1 an average ground speed of 6 and flight_2 one of 3; and in
    the ground-speed table grouped by month, for either chart style, the
    buckets that hold a value are (flight_1, Jan, 6) and (flight_2, Feb,
    3), which are the whole table when only observed groups get a row. *)
Theorem two_file_scenario :
  exists st,
    Scenario.loaded = Ok st
    /\ total_flights (flight_summary st) = Ok 2%nat
    /\ getitem (flight_summary st) "flight_id" = Ok [Str "flight_1"; Str "flight_2"]
    /\ getitem (flight_summary st) "avg_ground_speed" = Ok [Num 6; Num 3]
    /\ forall observed chart_type,
         In chart_type ["line"; "bar"] ->
         exists figs fig,
           snd (plot_flight_metrics observed (df_all st) "month" metrics chart_type)
           = Ok figs
           /\ figs_get "Ground Speed" figs = Some fig
           /\ filter (fun r => notna (Value r)) (table fig)
              = Scenario.ground_speed_by_month
           /\ (observed = true -> table fig = Scenario.ground_speed_by_month).
Proof.
  eexists. split; [vm_compute; reflexivity|].
  split; [vm_compute; reflexivity|].
  split; [vm_compute; reflexivity|].
  split; [vm_compute; reflexivity|].
  intros observed chart_type [<-|[<-|[]]]; destruct observed;
    eexists; eexists;
    (split; [vm_compute; reflexivity|]);
    (split; [vm_compute; reflexivity|]);
    (split; [vm_compute; reflexivity|]);
    intros E; try discriminate E; vm_compute; reflexivity.
Qed.

(** ** Unsupported chart styles *)

Lemma make_fig_unsupported (group_col chart_type : string) (avg_long : list LongRow)
  (names : list string) (acc : list (string * Figure)) :
  String.eqb chart_type "line" = false ->
  String.eqb chart_type "bar" = false ->
  for_each (make_fig group_col chart_type avg_long) names acc
  = match names with
    | [] => Ok acc
    | _ => Raise (ValueError "Unsupported chart_type. Use 'line' or 'bar'.")
    end.
Proof.
  intros L B. destruct names as [|m names]; [reflexivity|].
  cbn [for_each]. unfold make_fig at 1. rewrite L, B. reflexivity.
Qed.

(** An unsupported style never yields a chart table; it raises as soon
    as the grouped table has a row. *)
Lemma unsupported_style_no_tables (observed : bool) (df : DataFrame)
  (group_col chart_type : string) (ms : list (string * string))
  (figs : list (string * Figure)) :
  String.eqb chart_type "line" = false ->
  String.eqb chart_type "bar" = false ->
  snd (plot_flight_metrics observed df group_col ms chart_type) = Ok figs ->
  figs = [].
Proof.
  intros L B H. unfold plot_flight_metrics in H.
  destruct (derive_bucket df group_col) as [df' [u|e]]; [|discriminate].
  cbn [snd] in H. unfold group_and_chart in H.
  apply bind_Ok in H. destruct H as [avg_vals [_ H]].
  rewrite (make_fig_unsupported _ _ _ _ _ L B) in H.
  destruct (unique _); [now injection H | discriminate].
Qed.

Lemma unsupported_style_raises :
  forall observed,
    snd (plot_flight_metrics observed Scenario.fleet "month" metrics "pie")
    = Raise (ValueError "Unsupported chart_type. Use 'line' or 'bar'.").
Proof. intros []; vm_compute; reflexivity. Qed.

(** C8, at the failing input.  The fleet table of a single log whose
    only row has no readable date has no rows; the grouper, called on it
    with the style "pie", returns an empty set of figures for each of
    the four grouping keys and raises nothing. *)
Theorem unsupported_style_on_empty_table :
  exists st,
    load Iso.coercions [Samples.undated] = Ok st
    /\ nrows (df_all st) = 0%nat
    /\ forall observed group_col,
         In group_col ["year"; "month"; "weekday"; "hour"] ->
         snd (plot_flight_metrics observed (df_all st) group_col metrics "pie")
         = Ok [].
Proof.
  eexists. split; [vm_compute; reflexivity|].
  split; [vm_compute; reflexivity|].
  intros observed group_col [<-|[<-|[<-|[<-|[]]]]]; destruct observed;
    vm_compute; reflexivity.
Qed.

(** ** The grouper's effect on the caller's table *)

Lemma dt_month_range (ns : Z) : (1 <= dt_month ns <= 12)%Z.
Proof.
  unfold dt_month, civil_from_days. cbn [fst snd].
  set (z := (dt_days ns + 719468)%Z).
  assert (D : (0 <= z mod 146097 < 146097)%Z) by (apply Z.mod_pos_bound; lia).
  set (doe := (z mod 146097)%Z) in *.
  set (yoe := ((doe - doe / 1460 + doe / 36524 - doe / 146096) / 365)%Z).
  set (doy := (doe - (365 * yoe + yoe / 4 - yoe / 100))%Z).
  assert (Y : (0 <= doy <= 365)%Z).
  { subst doy yoe. Z.div_mod_to_equations. lia. }
  set (mp := ((5 * doy + 2) / 153)%Z).
  assert (M : (0 <= mp <= 11)%Z).
  { subst mp. Z.div_mod_to_equations. lia. }
  destruct (mp <? 10)%Z eqn:E; [apply Z.ltb_lt in E | apply Z.ltb_ge in E]; lia.
Qed.

Lemma nth_in_list (k : nat) (l : list string) :
  (k < length l)%nat -> in_list (nth k l "") l = true.
Proof. intros H. apply in_list_In. now apply nth_In. Qed.

Lemma month_label_known (ns : Z) :
  in_list (bucket_label "month" ns) month_order = true.
Proof.
  apply nth_in_list. pose proof (dt_month_range ns). cbn [length month_order]. lia.
Qed.

Lemma weekday_label_known (ns : Z) :
  in_list (bucket_label "weekday" ns) weekday_order = true.
Proof.
  apply nth_in_list.
  assert ((0 <= dt_weekday ns < 7)%Z) by (apply Z.mod_pos_bound; lia).
  cbn [length weekday_order]. lia.
Qed.

Lemma hour_label_known (ns : Z) :
  in_list (bucket_label "hour" ns) hour_order = true.
Proof.
  change (bucket_label "hour" ns) with (hour_label (Z.to_nat (dt_hour ns))).
  apply in_list_In. unfold hour_order. apply in_map. apply in_seq.
  assert ((0 <= dt_hour ns < 24)%Z) by (apply Z.mod_pos_bound; lia). lia.
Qed.

Lemma categorical_labelling (group_col : string) (order : list string) (s : Series) :
  (forall ns, in_list (bucket_label group_col ns) order = true) ->
  categorical order (on_datetime (fun ns => Str (bucket_label group_col ns)) s)
  = map (labelling group_col) s.
Proof.
  intros K. unfold categorical, on_datetime. rewrite map_map.
  apply map_ext. intros [| | |ns|]; try reflexivity. simpl. now rewrite K.
Qed.

Lemma setitem_fresh (df : DataFrame) (c : string) (s : Series) :
  has_col df c = false ->
  setitem df c s = mkDF (nrows df) (cols df ++ [(c, s)]).
Proof. intros H. unfold setitem. now rewrite H. Qed.

Lemma setitem_last (df : DataFrame) (n : nat) (c : string) (s1 s2 : Series) :
  has_col df c = false ->
  setitem (mkDF n (cols df ++ [(c, s1)])) c s2 = mkDF n (cols df ++ [(c, s2)]).
Proof.
  intros H. unfold setitem, has_col, columns. cbn [cols nrows].
  rewrite map_app, in_list_app. cbn [map fst in_list existsb].
  rewrite String.eqb_refl, orb_true_r. f_equal.
  rewrite map_app. cbn [map fst]. rewrite String.eqb_refl. f_equal.
  rewrite <- (map_id (cols df)) at 2. apply map_ext_in.
  intros [k v] Hin. cbn [fst]. destruct (String.eqb k c) eqn:E; [|reflexivity].
  apply String.eqb_eq in E. subst k.
  unfold has_col, columns in H. apply in_list_false in H.
  exfalso. apply H. now apply (in_map fst) in Hin.
Qed.

Lemma setitem_twice (df : DataFrame) (c : string) (s1 s2 : Series) :
  has_col df c = false ->
  setitem (setitem df c s1) c s2 = mkDF (nrows df) (cols df ++ [(c, s2)]).
Proof.
  intros H. rewrite (setitem_fresh _ _ _ H). now apply setitem_last.
Qed.

Lemma forallb_present (s : Series) :
  Forall (fun v => v <> NA) s -> forallb notna s = true.
Proof.
  intros H. apply forallb_forall. rewrite Forall_forall in H.
  intros v Hv. specialize (H v Hv). now destruct v.
Qed.

Lemma derive_bucket_ok (df df' : DataFrame) (group_col : string) :
  In group_col ["year"; "month"; "weekday"; "hour"] ->
  has_col df group_col = false ->
  derive_bucket df group_col = (df', Ok tt) ->
  exists src labels,
    getitem df (source_col group_col) = Ok src
    /\ df' = mkDF (nrows df) (cols df ++ [(group_col, labels)])
    /\ (Forall (fun v => v <> NA) src -> labels = map (labelling group_col) src).
Proof.
  intros Hg Hc H.
  destruct Hg as [<-|[<-|[<-|[<-|[]]]]]; unfold derive_bucket in H;
    cbn [String.eqb Ascii.eqb Bool.eqb] in H.
  - destruct (getitem df "date") as [s|] eqn:G; cbn [bind] in H; [|discriminate].
    unfold dt in H. destruct (is_datetimelike s); [|discriminate].
    injection H as <-. exists s. eexists. split; [exact G|].
    split; [now apply setitem_twice|].
    intros A. unfold year_labels. now rewrite (forallb_present _ A).
  - destruct (getitem df "date") as [s|] eqn:G; cbn [bind] in H; [|discriminate].
    unfold dt in H. destruct (is_datetimelike s); [|discriminate].
    injection H as <-. exists s. eexists. split; [exact G|].
    split; [now apply setitem_twice|].
    intros _. apply (categorical_labelling "month"). exact month_label_known.
  - destruct (getitem df "date") as [s|] eqn:G; cbn [bind] in H; [|discriminate].
    unfold dt in H. destruct (is_datetimelike s); [|discriminate].
    injection H as <-. exists s. eexists. split; [exact G|].
    split; [now apply setitem_twice|].
    intros _. apply (categorical_labelling "weekday"). exact weekday_label_known.
  - destruct (getitem df "time") as [s|] eqn:G; cbn [bind] in H; [|discriminate].
    unfold dt in H. destruct (is_datetimelike s); [|discriminate].
    destruct (forallb notna s); [|discriminate].
    injection H as <-. exists s. eexists. split; [exact G|].
    split.
    + rewrite (setitem_fresh _ _ _ Hc), !(setitem_last _ _ _ _ _ Hc). reflexivity.
    + intros _. apply (categorical_labelling "hour"). exact hour_label_known.
Qed.

(** C10.  A call with one of the four grouping keys that returns its
    figures leaves the caller's table with the same rows and the same
    columns as before, unchanged and in the same order, followed by one
    new column named after the key; when no cell of the source column is
    missing, the new column holds the bucket label of each row. *)
Theorem grouper_adds_bucket_column (observed : bool) (df df' : DataFrame)
  (group_col chart_type : string) (ms : list (string * string))
  (figs : list (string * Figure)) :
  In group_col ["year"; "month"; "weekday"; "hour"] ->
  has_col df group_col = false ->
  plot_flight_metrics observed df group_col ms chart_type = (df', Ok figs) ->
  exists src labels,
    getitem df (source_col group_col) = Ok src
    /\ nrows df' = nrows df
    /\ cols df' = cols df ++ [(group_col, labels)]
    /\ (Forall (fun v => v <> NA) src -> labels = map (labelling group_col) src).
Proof.
  intros Hg Hc H. unfold plot_flight_metrics in H.
  destruct (derive_bucket df group_col) as [d [[]|e]] eqn:D; [|discriminate].
  injection H as -> _.
  destruct (derive_bucket_ok _ _ _ Hg Hc D) as [src [labels [S [E L]]]].
  exists src, labels. subst df'. repeat split; assumption.
Qed.

Lemma grouper_adds_bucket_column_witness :
  exists src labels,
    getitem Scenario.fleet (source_col "month") = Ok src
    /\ nrows (fst month_call) = nrows Scenario.fleet
    /\ cols (fst month_call) = cols Scenario.fleet ++ [("month", labels)]
    /\ (Forall (fun v => v <> NA) src -> labels = map (labelling "month") src).
Proof.
  apply (grouper_adds_bucket_column true Scenario.fleet (fst month_call)
           "month" "line" metrics month_figs).
  - vm_compute. tauto.
  - vm_compute. reflexivity.
  - vm_compute. reflexivity.
Defined.

(** * Further properties *)

(** ** Loading *)

Section LoadedFlights.

Context (P : Coercions).

Lemma read_csv_Ok (file df : DataFrame) :
  read_csv file = Ok df <-> has_col file "Timestamp" = true /\ df = file.
Proof.
  unfold read_csv. destruct (has_col file "Timestamp"); split.
  - intros [= <-]. now split.
  - intros [_ ->]. reflexivity.
  - discriminate.
  - intros [F _]. discriminate.
Qed.

Lemma load_file_Ok (st0 st1 : Loaded) (i : nat) (file : DataFrame) :
  load_file P st0 i file = Ok st1 <->
  exists out s,
    has_col file "Timestamp" = true
    /\ normalize P i file = Ok out
    /\ summary P (flight_label i) out = Ok s
    /\ st1 = mkLoaded (flight_summaries st0 ++ [s])
                      (gps_data st0 ++ [gps_of out])
                      (all_dfs st0 ++ [out]).
Proof.
  unfold load_file. split.
  - intros L.
    apply bind_Ok in L. destruct L as [d0 [R L]].
    apply read_csv_Ok in R. destruct R as [T ->].
    apply bind_Ok in L. destruct L as [out [N L]].
    apply bind_Ok in L. destruct L as [s [S L]].
    injection L as <-. exists out, s. repeat split; assumption.
  - intros [out [s [T [N [S ->]]]]].
    replace (read_csv file) with (Ok file)
      by (symmetry; apply read_csv_Ok; now split).
    cbn [bind]. rewrite N. cbn [bind]. rewrite S. reflexivity.
Qed.

Lemma load_from_flights (files : list DataFrame) :
  forall i st0 st,
    load_from P i files st0 = Ok st <->
    exists fl,
      flights_of P i files fl
      /\ st = mkLoaded (flight_summaries st0 ++ map snd fl)
                       (gps_data st0 ++ map (fun x => gps_of (fst x)) fl)
                       (all_dfs st0 ++ map fst fl).
Proof.
  induction files as [|file files IH]; intros i st0 st; cbn [load_from].
  - split.
    + intros [= <-]. exists []. split; [constructor|].
      cbn [map]. rewrite !app_nil_r. now destruct st0.
    + intros [fl [F ->]]. inversion F; subst. cbn [map].
      rewrite !app_nil_r. now destruct st0.
  - split.
    + intros H. apply bind_Ok in H. destruct H as [st1 [L H]].
      apply load_file_Ok in L. destruct L as [out [s [T [N [S ->]]]]].
      apply IH in H. destruct H as [fl [F ->]].
      exists ((out, s) :: fl). split; [now constructor|].
      cbn [flight_summaries gps_data all_dfs map fst snd].
      now rewrite <- !app_assoc.
    + intros [fl [F ->]]. inversion F as [|? ? ? out s rest T N S F']; subst.
      replace (load_file P st0 i file)
        with (Ok (mkLoaded (flight_summaries st0 ++ [s])
                           (gps_data st0 ++ [gps_of out])
                           (all_dfs st0 ++ [out])))
        by (symmetry; apply load_file_Ok; exists out, s; repeat split; assumption).
      cbn [bind]. apply IH. exists rest. split; [assumption|].
      cbn [flight_summaries gps_data all_dfs map fst snd].
      now rewrite <- !app_assoc.
Qed.

Lemma load_flights (files : list DataFrame) (st : Loaded) :
  load P files = Ok st <->
  exists fl,
    flights_of P 0 files fl
    /\ st = mkLoaded (map snd fl) (map (fun x => gps_of (fst x)) fl) (map fst fl).
Proof. unfold load. now rewrite load_from_flights. Qed.

Lemma flights_of_length (files : list DataFrame) :
  forall i fl, flights_of P i files fl -> length fl = length files.
Proof.
  induction files as [|file files IH]; intros i fl F; inversion F; subst;
    [reflexivity|]. cbn [length]. f_equal. eapply IH. eassumption.
Qed.

Lemma file_flight (i : nat) (file : DataFrame) :
  NoDup (columns file) ->
  exists out s, normalize P i file = Ok out /\ summary P (flight_label i) out = Ok s.
Proof.
  intros H. destruct (normalize_ok P i file H) as [_ [out [_ [N _]]]].
  assert (M : forall c, In c metric_sources -> exists s, getitem out c = Ok s).
  { intros c Hc. destruct (normalized_metric P i file out c H N Hc) as [t [Ht _]].
    now exists t. }
  destruct (M "flightTime") as [ft Hft]; [vm_compute; tauto|].
  destruct (M "flightDistance") as [fd Hfd]; [vm_compute; tauto|].
  destruct (M "altitudeRelative") as [alt Halt]; [vm_compute; tauto|].
  destruct (M "groundSpeed") as [gs Hgs]; [vm_compute; tauto|].
  destruct (M "airSpeed") as [asp Hasp]; [vm_compute; tauto|].
  destruct (M "battery0.percentRemaining") as [bat Hbat]; [vm_compute; tauto|].
  destruct (M "battery0.instantPower") as [pw Hpw]; [vm_compute; tauto|].
  exists out. eexists. split; [exact N|]. apply summary_eq; eassumption.
Qed.

Lemma flights_of_total (files : list DataFrame) :
  Forall (fun f => NoDup (columns f)) files ->
  Forall (fun f => has_col f "Timestamp" = true) files ->
  forall i, exists fl, flights_of P i files fl.
Proof.
  induction 1 as [|file files Hn _ IH]; intros T i.
  - exists []. constructor.
  - inversion T as [|? ? Tf Tr]; subst.
    destruct (file_flight i file Hn) as [out [s [N Hs]]].
    destruct (IH Tr (S i)) as [rest F].
    exists ((out, s) :: rest). now constructor.
Qed.

Lemma flights_of_timestamps (files : list DataFrame) :
  forall i fl, flights_of P i files fl ->
               Forall (fun f => has_col f "Timestamp" = true) files.
Proof.
  induction files as [|file files IH]; intros i fl F; inversion F; subst;
    constructor; [assumption | eapply IH; eassumption].
Qed.

End LoadedFlights.

(** X1.  Files whose column labels are distinct all load, with no step
    of the loop raising, exactly when each of them has a Timestamp
    column. *)
Theorem load_succeeds_iff_timestamps (P : Coercions) (files : list DataFrame) :
  Forall (fun f => NoDup (columns f)) files ->
  (exists st, load P files = Ok st)
  <-> Forall (fun f => has_col f "Timestamp" = true) files.
Proof.
  intros H. split.
  - intros [st L]. apply load_flights in L. destruct L as [fl [F _]].
    eapply flights_of_timestamps. eassumption.
  - intros T. destruct (flights_of_total P files H T 0) as [fl F].
    eexists. apply load_flights. exists fl. split; [exact F | reflexivity].
Qed.

Lemma load_succeeds_iff_timestamps_witness :
  (exists st, load Iso.coercions [Scenario.file_A; Samples.undated_row] = Ok st)
  <-> Forall (fun f => has_col f "Timestamp" = true)
             [Scenario.file_A; Samples.undated_row].
Proof.
  apply (load_succeeds_iff_timestamps Iso.coercions
           [Scenario.file_A; Samples.undated_row]).
  constructor; [|constructor; [|constructor]];
    apply distinct_NoDup; vm_compute; reflexivity.
Defined.

(** ** A file without a Timestamp column *)

(** C1, at the failing input.  Timestamp is one of the 16 required
    columns, and reconciliation of the table of a file without it would
    fill it with the missing marker like any other absent column.  The
    file never gets there: the reader at line 36 raises ValueError, so
    does the iteration of the loop, and no list of files that contains
    the file loads. *)
Theorem file_without_timestamp_is_rejected (P : Coercions) (file : DataFrame) :
  NoDup (columns file) ->
  has_col file "Timestamp" = false ->
  In "Timestamp" required_cols
  /\ Permutation (columns (reconcile file)) required_cols
  /\ getitem (reconcile file) "Timestamp" = Ok (repeat NA (nrows file))
  /\ (exists msg, read_csv file = Raise (ValueError msg))
  /\ (forall st i, exists msg, load_file P st i file = Raise (ValueError msg))
  /\ (forall files st, In file files -> load P files <> Ok st).
Proof.
  intros H E.
  assert (T : In "Timestamp" required_cols) by (vm_compute; tauto).
  split; [exact T|]. split; [|split; [|split; [|split]]].
  - rewrite (reconcile_columns _ H). apply filter_partition_perm.
  - now rewrite (reconcile_getitem _ _ H T), E.
  - unfold read_csv. rewrite E. eexists. reflexivity.
  - intros st i. unfold load_file, read_csv. rewrite E. cbn [bind].
    eexists. reflexivity.
  - intros files st Hin L. apply load_flights in L. destruct L as [fl [F _]].
    pose proof (flights_of_timestamps P files 0 fl F) as A.
    rewrite Forall_forall in A. specialize (A file Hin). congruence.
Qed.

Lemma file_without_timestamp_is_rejected_witness :
  getitem (reconcile Untimed.file) "Timestamp" = Ok [NA; NA]
  /\ (exists msg, read_csv Untimed.file = Raise (ValueError msg))
  /\ (forall st, load Iso.coercions [Scenario.file_A; Untimed.file] <> Ok st)
  /\ load Iso.coercions [Scenario.file_A; Untimed.file]
     = Raise (ValueError "Missing column provided to 'parse_dates': 'Timestamp'").
Proof.
  destruct (file_without_timestamp_is_rejected Iso.coercions Untimed.file)
    as [_ [_ [G [R [_ L]]]]].
  - apply distinct_NoDup. vm_compute. reflexivity.
  - vm_compute. reflexivity.
  - split; [exact G|]. split; [exact R|]. split.
    + intros st. apply L. vm_compute. tauto.
    + vm_compute. reflexivity.
Defined.

(** ** The fleet table *)

Lemma normalized_column (P : Coercions) (i : nat) (file out : DataFrame) (c : string) :
  NoDup (columns file) ->
  normalize P i file = Ok out ->
  In c fleet_labels ->
  exists dates s,
    stamped P i (reconcile file) "date" = Ok dates
    /\ stamped P i (reconcile file) c = Ok s
    /\ getitem out c = Ok (coercion P c (select (map notna dates) s)).
Proof.
  intros H N Hc.
  destruct (normalize_ok P i file H) as [dates [out' [D [N' [_ G]]]]].
  rewrite N in N'. injection N' as <-.
  assert (R : forall c', in_list c' required_cols = true ->
                         exists s, getitem (reconcile file) c' = Ok s).
  { intros c' Hc'. apply has_col_getitem. now rewrite (reconcile_has_col _ _ H). }
  assert (S : exists s, stamped P i (reconcile file) c = Ok s).
  { unfold stamped.
    destruct (String.eqb c "time") eqn:E1.
    { destruct (R "clock.currentTime") as [t Ht]; [vm_compute; reflexivity|].
      rewrite Ht. eexists. reflexivity. }
    destruct (String.eqb c "date") eqn:E2.
    { destruct (R "clock.currentDate") as [t Ht]; [vm_compute; reflexivity|].
      rewrite Ht. eexists. reflexivity. }
    destruct (String.eqb c "flight_id") eqn:E3; [eexists; reflexivity|].
    apply R. apply in_list_In. unfold fleet_labels in Hc.
    apply in_app_or in Hc. destruct Hc as [Hc|Hc]; [assumption|].
    simpl in Hc. destruct Hc as [<-|[<-|[<-|[]]]]; discriminate. }
  destruct S as [s Hs]. exists dates, s. split; [exact D|]. split; [exact Hs|].
  now rewrite G, Hs.
Qed.

Lemma concat_getitem (dfs : list DataFrame) (c : string) :
  dfs <> [] ->
  Forall (fun d => has_col d c = true) dfs ->
  getitem (concat dfs) c = Ok (flat_map (fun d => column d c) dfs).
Proof.
  intros Hne H. unfold getitem at 1, concat. cbn [cols]. rewrite assoc_keys.
  replace (in_list c (unique (flat_map columns dfs))) with true.
  - f_equal. clear Hne. induction H as [|d dfs Hd _ IH]; [reflexivity|].
    cbn [flat_map]. rewrite IH. f_equal. unfold column, getitem.
    destruct (has_col_getitem _ _ Hd) as [s Hs]. unfold getitem in Hs.
    now destruct (assoc c (cols d)).
  - symmetry. apply in_list_In, unique_In.
    destruct dfs as [|d dfs]; [contradiction|].
    inversion H as [|? ? Hd _]; subst. simpl. apply in_or_app. left.
    now apply in_list_In.
Qed.

Lemma select_Forall {A : Type} (Q : A -> Prop) (mask : list bool) (s : list A) :
  Forall Q s -> Forall Q (select mask s).
Proof.
  intros H. revert mask. induction H as [|v s Hv _ IH]; intros [|b mask]; simpl;
    try constructor.
  destruct b; [constructor; [assumption | apply IH] | apply IH].
Qed.

Lemma flights_of_normalized (P : Coercions) (files : list DataFrame) (i : nat)
  (fl : list (DataFrame * dict)) :
  flights_of P i files fl ->
  Forall2 (fun j out => exists file s,
             In file files
             /\ normalize P j file = Ok out
             /\ summary P (flight_label j) out = Ok s)
          (seq i (length files)) (map fst fl).
Proof.
  induction 1 as [|i file files out s rest T N Hs F IH];
    cbn [length seq map fst]; constructor.
  - exists file, s. repeat split; [now left | assumption ..].
  - eapply Forall2_impl; [|exact IH].
    intros j o [f [t [Hin [Hn Ht]]]]. exists f, t. repeat split; [now right | assumption ..].
Qed.

Section Fleet.

Context (P : Coercions) (files : list DataFrame) (st : Loaded).
Hypothesis files_nonempty : files <> [].
Hypothesis labels_distinct : Forall (fun f => NoDup (columns f)) files.
Hypothesis loaded : load P files = Ok st.

Lemma fleet_flights :
  Forall2 (fun j out => exists file s,
             In file files
             /\ normalize P j file = Ok out
             /\ summary P (flight_label j) out = Ok s)
          (seq 0 (length files)) (all_dfs st)
  /\ all_dfs st <> []
  /\ length (all_dfs st) = length files.
Proof.
  apply load_flights in loaded. destruct loaded as [fl [F ->]].
  cbn [all_dfs]. pose proof (flights_of_length P files 0 fl F) as L.
  split; [|split].
  - now apply flights_of_normalized.
  - intros E. apply map_eq_nil in E. subst fl. destruct files; [contradiction|].
    discriminate.
  - now rewrite length_map.
Qed.

Lemma fleet_has_col (c : string) :
  In c fleet_labels -> Forall (fun d => has_col d c = true) (all_dfs st).
Proof.
  intros Hc. destruct fleet_flights as [F _].
  revert F. generalize (seq 0 (length files)). generalize (all_dfs st).
  induction l as [|out l IH]; intros js F;
    inversion F as [|j o js' l' Hx Hr]; subst; constructor.
  - destruct Hx as [file [s [Hin [N _]]]].
    rewrite Forall_forall in labels_distinct.
    destruct (normalized_column P _ file out c (labels_distinct _ Hin) N Hc)
      as [dates [t [_ [_ G]]]].
    eapply getitem_has_col. exact G.
  - eapply IH. eassumption.
Qed.

Lemma df_all_concat : df_all st = concat (all_dfs st).
Proof.
  destruct fleet_flights as [_ [Hne _]]. unfold df_all.
  destruct (all_dfs st); [contradiction | reflexivity].
Qed.

Lemma fleet_column (c : string) :
  In c fleet_labels ->
  getitem (df_all st) c = Ok (flat_map (fun out => column out c) (all_dfs st)).
Proof.
  intros Hc. rewrite df_all_concat. apply concat_getitem.
  - apply fleet_flights.
  - now apply fleet_has_col.
Qed.

End Fleet.

(** X2.  In the fleet table of a non-empty list of loaded files, each
    of the 19 columns of the normalised tables is the per-flight columns
    joined in file order, nothing being padded, and the row count is the
    sum of the flights' row counts. *)
Theorem fleet_table_joins_flights (P : Coercions) (files : list DataFrame)
  (st : Loaded) (c : string) :
  files <> [] ->
  Forall (fun f => NoDup (columns f)) files ->
  load P files = Ok st ->
  In c fleet_labels ->
  length (all_dfs st) = length files
  /\ Forall (fun out => has_col out c = true) (all_dfs st)
  /\ getitem (df_all st) c = Ok (flat_map (fun out => column out c) (all_dfs st))
  /\ nrows (df_all st) = list_sum (map nrows (all_dfs st)).
Proof.
  intros Hne Hd L Hc. split; [|split; [|split]].
  - apply (fleet_flights P files st Hne Hd L).
  - now apply (fleet_has_col P files st Hne Hd L).
  - now apply (fleet_column P files st Hne Hd L).
  - rewrite (df_all_concat P files st Hne Hd L). reflexivity.
Qed.

(** X3.  The flight_id column of the fleet table is one block of cells
    per file, in file order; every cell of the block of the file at
    position j is the label flight_(j+1), and the labels of different
    files differ. *)
Theorem fleet_flight_id_blocks (P : Coercions) (files : list DataFrame)
  (st : Loaded) :
  files <> [] ->
  Forall (fun f => NoDup (columns f)) files ->
  load P files = Ok st ->
  exists blocks,
    getitem (df_all st) "flight_id" = Ok (List.concat blocks)
    /\ Forall2 (fun j block => Forall (fun v => v = Str (flight_label j)) block)
               (seq 0 (length files)) blocks
    /\ NoDup (map flight_label (seq 0 (length files))).
Proof.
  intros Hne Hd L.
  exists (map (fun out => column out "flight_id") (all_dfs st)).
  split; [|split].
  - rewrite <- flat_map_concat_map.
    apply (fleet_column P files st Hne Hd L). vm_compute. tauto.
  - destruct (fleet_flights P files st Hne Hd L) as [F _].
    revert F. generalize (seq 0 (length files)). generalize (all_dfs st).
    induction l as [|out l IH]; intros js F;
      inversion F as [|j o js' l' Hx Hr]; subst; cbn [map]; constructor.
    + destruct Hx as [file [s [Hin [N _]]]].
      rewrite Forall_forall in Hd.
      destruct (normalized_column P _ file out "flight_id" (Hd _ Hin) N)
        as [dates [t [_ [T G]]]]; [vm_compute; tauto|].
      unfold column. rewrite G.
      change (coercion P "flight_id") with (fun s : Series => s). cbn beta.
      apply select_Forall.
      change (stamped P j (reconcile file) "flight_id")
        with (Ok (repeat (Str (flight_label j)) (nrows (reconcile file)))) in T.
      assert (Et : t = repeat (Str (flight_label j)) (nrows (reconcile file)))
        by congruence.
      rewrite Et. apply Forall_forall. intros v Hv. now apply repeat_spec in Hv.
    + now apply IH.
  - apply flight_labels_NoDup.
Qed.

(** ** Fleet KPIs *)

Lemma reduce_Ok (f : dtype -> Series -> value) (d : dtype) (df : DataFrame)
  (c : string) (v : value) :
  reduce f d df c = Ok v -> getitem df c = Ok (column df c) /\ v = f d (column df c).
Proof.
  unfold reduce, column. intros H. apply bind_Ok in H. destruct H as [s [G H]].
  rewrite G. injection H as <-. now split.
Qed.

Lemma summary_inv (P : Coercions) (fid : string) (d : DataFrame) (s : dict) :
  summary P fid d = Ok s ->
  s = [ ("flight_id", Str fid);
        ("flight_time",
         series_max (Timedelta64 (resolution P)) (column d "flightTime"));
        ("flight_distance", series_max Float64 (column d "flightDistance"));
        ("max_altitude", series_max Float64 (column d "altitudeRelative"));
        ("max_ground_speed", series_max Float64 (column d "groundSpeed"));
        ("max_air_speed", series_max Float64 (column d "airSpeed"));
        ("min_battery", series_min Float64 (column d "battery0.percentRemaining"));
        ("avg_power", round2 (series_mean Float64 (column d "battery0.instantPower")));
        ("avg_altitude", round2 (series_mean Float64 (column d "altitudeRelative")));
        ("avg_flight_time",
         series_mean (Timedelta64 (resolution P)) (column d "flightTime"));
        ("avg_flight_distance", round2 (series_mean Float64 (column d "flightDistance")));
        ("avg_ground_speed", round2 (series_mean Float64 (column d "groundSpeed")));
        ("avg_air_speed", round2 (series_mean Float64 (column d "airSpeed")));
        ("avg_battery_remaining",
         round2 (series_mean Float64 (column d "battery0.percentRemaining"))) ].
Proof.
  unfold summary. intros H.
  repeat match type of H with
         | bind (reduce _ _ _ _) _ = Ok _ =>
             let v := fresh "v" in
             let R := fresh "R" in
             apply bind_Ok in H; destruct H as [v [R H]];
             apply reduce_Ok in R; destruct R as [_ ->]
         end.
  now injection H as <-.
Qed.

Lemma flights_of_summaries (P : Coercions) (files : list DataFrame) (i : nat)
  (fl : list (DataFrame * dict)) :
  flights_of P i files fl ->
  Forall (fun os => exists j, summary P (flight_label j) (fst os) = Ok (snd os)) fl.
Proof.
  induction 1 as [|i file files out s rest T N Hs F IH]; constructor;
    [now exists i | assumption].
Qed.

Lemma to_numeric_cells_id (P : Coercions) (s : Series) :
  Forall (is_cell Float64) s -> to_numeric P s = s.
Proof.
  unfold to_numeric. induction 1 as [|v s Hv _ IH]; [reflexivity|].
  cbn [map]. rewrite IH. f_equal.
  destruct Hv as [->|[q ->]]; reflexivity.
Qed.

Lemma valid_app (d : dtype) (s t : Series) :
  valid d (s ++ t) = valid d s ++ valid d t.
Proof. unfold valid. apply flat_map_app. Qed.

Lemma valid_flat_map {A : Type} (d : dtype) (col : A -> Series) (l : list A) :
  valid d (flat_map col l) = flat_map (fun x => valid d (col x)) l.
Proof.
  induction l as [|a l IH]; [reflexivity|].
  cbn [flat_map]. now rewrite valid_app, IH.
Qed.

Lemma valid_box (d : dtype) (m : Q) : valid d [box d m] = [m].
Proof. now destruct d. Qed.

Section Extremes.

Context (le : Q -> Q -> Prop) (red : dtype -> Series -> value).
Hypothesis le_trans : forall a b c, le a b -> le b c -> le a c.
Hypothesis red_extreme : forall d s, extreme le d (valid d s) (red d s).

Lemma extreme_of_extremes {A : Type} (d : dtype) (col : A -> Series) (l : list A) :
  extreme le d (valid d (flat_map col l)) (red d (map (fun x => red d (col x)) l)).
Proof.
  rewrite valid_flat_map.
  set (M := map (fun x => red d (col x)) l).
  set (U := flat_map (fun x => valid d (col x)) l).
  assert (Up : forall m, In m (valid d M) ->
                         In m U /\ exists x, In x l /\ forall q, In q (valid d (col x)) -> le q m).
  { subst M U. induction l as [|a l IH]; [intros m []|].
    intros m Hm. cbn [map] in Hm.
    change (red d (col a) :: map (fun x => red d (col x)) l)
      with ([red d (col a)] ++ map (fun x => red d (col x)) l) in Hm.
    rewrite valid_app in Hm. apply in_app_or in Hm. cbn [flat_map].
    destruct Hm as [Hm|Hm].
    - pose proof (red_extreme d (col a)) as E. unfold extreme in E.
      destruct (valid d (col a)) as [|q0 qs] eqn:V.
      + rewrite E in Hm. destruct d; destruct Hm.
      + destruct E as [m' [E [I B]]]. rewrite E, valid_box in Hm.
        destruct Hm as [<-|[]]. split; [apply in_or_app; now left|].
        exists a. split; [now left|]. rewrite V. exact B.
    - destruct (IH m Hm) as [I [x [Hx B]]]. split; [apply in_or_app; now right|].
      exists x. split; [now right | exact B]. }
  assert (Down : forall q, In q U -> exists m, In m (valid d M) /\ le q m).
  { clear Up. subst M U. induction l as [|a l IH]; [intros q []|].
    intros q Hq. cbn [flat_map] in Hq. apply in_app_or in Hq. cbn [map].
    change (red d (col a) :: map (fun x => red d (col x)) l)
      with ([red d (col a)] ++ map (fun x => red d (col x)) l).
    rewrite valid_app.
    destruct Hq as [Hq|Hq].
    - pose proof (red_extreme d (col a)) as E. unfold extreme in E.
      destruct (valid d (col a)) as [|q0 qs] eqn:V; [destruct Hq|].
      destruct E as [m' [E [I B]]]. exists m'. split; [|now apply B].
      apply in_or_app. left. rewrite E, valid_box. now left.
    - destruct (IH q Hq) as [m [Hm L]]. exists m. split; [|exact L].
      apply in_or_app. now right. }
  pose proof (red_extreme d M) as E. unfold extreme in *.
  destruct U as [|u U'] eqn:HU.
  - destruct (valid d M) as [|m ms]; [exact E|].
    destruct (Up m (or_introl eq_refl)) as [[] _].
  - destruct (Down u (or_introl eq_refl)) as [m0 [Hm0 _]].
    destruct (valid d M) as [|m ms] eqn:VM; [destruct Hm0|].
    destruct E as [m' [E [I B]]]. exists m'. split; [exact E|]. split.
    + apply (Up m' I).
    + intros q Hq. destruct (Down q Hq) as [m1 [Hm1 L1]].
      eapply le_trans; [exact L1 | apply B; exact Hm1].
Qed.

End Extremes.

Lemma extreme_cell (le : Q -> Q -> Prop) (d : dtype) (l : list Q) (v : value) :
  extreme le d l v -> is_cell d v.
Proof.
  unfold extreme, is_cell. destruct l; [now left|].
  intros [m [-> _]]. right. now exists m.
Qed.

Lemma series_max_isna (d : dtype) (s : Series) :
  isna (series_max d s) = true <-> valid d s = [].
Proof.
  unfold series_max. destruct (valid d s); [now split|].
  destruct d; split; discriminate.
Qed.

Lemma all_missing_maxima {A : Type} (d : dtype) (col : A -> Series) (l : list A) :
  forallb isna (map (fun x => series_max d (col x)) l) = true
  <-> flat_map (fun x => valid d (col x)) l = [].
Proof.
  induction l as [|a l IH]; cbn [map forallb flat_map]; [now split|].
  rewrite andb_true_iff, series_max_isna, IH. split.
  - intros [-> ->]. reflexivity.
  - intros H. apply app_eq_nil in H. exact H.
Qed.

Lemma kpis_Ok (P : Coercions) (fs : DataFrame) (k : Kpis) :
  kpis P fs = Ok k <->
  total_flights fs = Ok (kpi_flights k)
  /\ total_flight_time P fs = Ok (kpi_flight_time k)
  /\ total_flight_distance P fs = Ok (kpi_distance k)
  /\ max_altitude P fs = Ok (kpi_altitude k)
  /\ max_ground_speed P fs = Ok (kpi_ground_speed k)
  /\ max_air_speed P fs = Ok (kpi_air_speed k)
  /\ min_battery P fs = Ok (kpi_battery k).
Proof.
  unfold kpis. split.
  - intros H.
    apply bind_Ok in H. destruct H as [n [H1 H]].
    apply bind_Ok in H. destruct H as [t [H2 H]].
    apply bind_Ok in H. destruct H as [d [H3 H]].
    apply bind_Ok in H. destruct H as [a [H4 H]].
    apply bind_Ok in H. destruct H as [g [H5 H]].
    apply bind_Ok in H. destruct H as [v [H6 H]].
    apply bind_Ok in H. destruct H as [b [H7 H]].
    injection H as <-. cbn. repeat split; assumption.
  - intros [H1 [H2 [H3 [H4 [H5 [H6 H7]]]]]].
    rewrite H1, H2, H3, H4, H5, H6, H7. cbn [bind]. now destruct k.
Qed.

Section FleetKpis.

Context (P : Coercions) (files : list DataFrame) (st : Loaded).
Hypothesis files_nonempty : files <> [].
Hypothesis labels_distinct : Forall (fun f => NoDup (columns f)) files.
Hypothesis loaded : load P files = Ok st.

Lemma summary_column (key : string) (g : DataFrame -> value) :
  entry P key g ->
  getitem (flight_summary st) key = Ok (map g (all_dfs st)).
Proof.
  intros E. apply load_flights in loaded. destruct loaded as [fl [F ->]].
  pose proof (flights_of_summaries P files 0 fl F) as S.
  unfold flight_summary, getitem, frame_of_records. cbn [flight_summaries all_dfs cols].
  rewrite assoc_keys.
  replace (in_list key (unique (flat_map (map fst) (map snd fl)))) with true.
  - f_equal. rewrite !map_map. apply map_ext_in. intros os Hos.
    rewrite Forall_forall in S. destruct (S os Hos) as [j Hj].
    now rewrite (E _ _ _ Hj).
  - symmetry. apply in_list_In, unique_In.
    destruct fl as [|[out s] fl].
    + inversion F; subst. contradiction.
    + inversion S as [|? ? [j Hj] _]; subst. cbn [map snd flat_map].
      apply in_or_app. left. eapply dict_get_In. apply (E _ _ _ Hj).
Qed.

Lemma kpi_over_fleet (le : Q -> Q -> Prop) (red : dtype -> Series -> value)
  (key c : string) :
  (forall a b c', le a b -> le b c' -> le a c') ->
  (forall d s, extreme le d (valid d s) (red d s)) ->
  entry P key (fun d => red Float64 (column d c)) ->
  In c fleet_labels ->
  exists v,
    kpi P red (flight_summary st) key = Ok v
    /\ extreme le Float64 (valid Float64 (column (df_all st) c)) v.
Proof.
  intros T R E Hc. unfold kpi. rewrite (summary_column _ _ E). cbn [bind].
  eexists. split; [reflexivity|].
  rewrite to_numeric_cells_id.
  - unfold column at 1.
    rewrite (fleet_column P files st files_nonempty labels_distinct loaded c Hc).
    now apply extreme_of_extremes.
  - apply Forall_map, Forall_forall. intros out _.
    eapply extreme_cell. apply R.
Qed.

Lemma kpi_returns (red : dtype -> Series -> value) (key : string)
  (g : DataFrame -> value) :
  entry P key g -> exists v, kpi P red (flight_summary st) key = Ok v.
Proof.
  intros E. unfold kpi. rewrite (summary_column _ _ E). cbn [bind].
  eexists. reflexivity.
Qed.

Lemma flight_count : total_flights (flight_summary st) = Ok (length files).
Proof.
  pose proof loaded as L. unfold load in L.
  destruct (load_from_summaries P files 0 _ st L) as [new [H1 H2]].
  cbn [flight_summaries app] in H1. unfold flight_summary. rewrite H1.
  apply total_flights_of_records; [|exact H2].
  intros ->. destruct files; [contradiction | discriminate].
Qed.

Lemma fleet_flight_times :
  present (Timedelta64 (resolution P)) (column (df_all st) "flightTime") = []
  <-> forallb isna
        (map (fun d => series_max (Timedelta64 (resolution P)) (column d "flightTime"))
             (all_dfs st)) = true.
Proof.
  unfold column at 1.
  rewrite (fleet_column P files st files_nonempty labels_distinct loaded "flightTime")
    by (vm_compute; tauto).
  rewrite <- valid_present, valid_flat_map. symmetry. apply all_missing_maxima.
Qed.

Lemma total_flight_time_fleet :
  (present (Timedelta64 (resolution P)) (column (df_all st) "flightTime") <> [] ->
   exists t, total_flight_time P (flight_summary st) = Ok t)
  /\ (present (Timedelta64 (resolution P)) (column (df_all st) "flightTime") = [] ->
      exists msg, total_flight_time P (flight_summary st) = Raise (TypeError msg)).
Proof.
  unfold total_flight_time.
  rewrite (summary_column "flight_time"
             (fun d => series_max (Timedelta64 (resolution P)) (column d "flightTime")))
    by (intros fid d s Hs; now rewrite (summary_inv _ _ _ _ Hs)).
  cbn [bind].
  destruct (fleet_flights P files st files_nonempty labels_distinct loaded)
    as [_ [Hne _]].
  rewrite fleet_flight_times.
  destruct (all_dfs st) as [|o l]; [contradiction|].
  cbn [map].
  destruct (forallb isna _); split; intros H.
  - now contradiction H.
  - eexists. reflexivity.
  - eexists. reflexivity.
  - discriminate.
Qed.

End FleetKpis.

Lemma Qge_trans (a b c : Q) : (b <= a)%Q -> (c <= b)%Q -> (c <= a)%Q.
Proof. intros H1 H2. eapply Qle_trans; eassumption. Qed.

Lemma Forall2_map_r {A B : Type} (R : A -> B -> Prop) (f : A -> B) (l : list A) :
  (forall a, In a l -> R a (f a)) -> Forall2 R l (map f l).
Proof.
  induction l as [|a l IH]; intros H; cbn [map]; constructor.
  - apply H. now left.
  - apply IH. intros x Hx. apply H. now right.
Qed.

Lemma fleet_kpis_return (P : Coercions) (files : list DataFrame) (st : Loaded) :
  files <> [] ->
  Forall (fun f => NoDup (columns f)) files ->
  load P files = Ok st ->
  present (Timedelta64 (resolution P)) (column (df_all st) "flightTime") <> [] ->
  exists k,
    kpis P (flight_summary st) = Ok k
    /\ kpi_flights k = length files
    /\ maximum Float64
         (present Float64 (column (df_all st) "altitudeRelative")) (kpi_altitude k)
    /\ maximum Float64
         (present Float64 (column (df_all st) "groundSpeed")) (kpi_ground_speed k)
    /\ maximum Float64
         (present Float64 (column (df_all st) "airSpeed")) (kpi_air_speed k)
    /\ minimum Float64
         (present Float64 (column (df_all st) "battery0.percentRemaining"))
         (kpi_battery k).
Proof.
  intros Hne Hd L Hft.
  pose proof (flight_count P files st Hne Hd L) as C.
  destruct (total_flight_time_fleet P files st Hne Hd L) as [T1 _].
  destruct (T1 Hft) as [t Ht].
  destruct (kpi_returns P files st Hne Hd L series_sum "flight_distance"
              (fun d => series_max Float64 (column d "flightDistance")))
    as [d Hdist];
    [intros fid o s Hs; now rewrite (summary_inv _ _ _ _ Hs)|].
  destruct (kpi_over_fleet P files st Hne Hd L Qle series_max
              "max_altitude" "altitudeRelative") as [a [Ha Ma]];
    [exact Qle_trans | exact series_max_maximum
     | intros fid o s Hs; now rewrite (summary_inv _ _ _ _ Hs)
     | vm_compute; tauto |].
  destruct (kpi_over_fleet P files st Hne Hd L Qle series_max
              "max_ground_speed" "groundSpeed") as [g [Hg Mg]];
    [exact Qle_trans | exact series_max_maximum
     | intros fid o s Hs; now rewrite (summary_inv _ _ _ _ Hs)
     | vm_compute; tauto |].
  destruct (kpi_over_fleet P files st Hne Hd L Qle series_max
              "max_air_speed" "airSpeed") as [v [Hv Mv]];
    [exact Qle_trans | exact series_max_maximum
     | intros fid o s Hs; now rewrite (summary_inv _ _ _ _ Hs)
     | vm_compute; tauto |].
  destruct (kpi_over_fleet P files st Hne Hd L (fun q m => (m <= q)%Q) series_min
              "min_battery" "battery0.percentRemaining") as [b [Hb Mb]];
    [exact Qge_trans | exact series_min_minimum
     | intros fid o s Hs; now rewrite (summary_inv _ _ _ _ Hs)
     | vm_compute; tauto |].
  rewrite valid_present in Ma, Mg, Mv, Mb.
  exists (mkKpis (length files) t d a g v b).
  split; [apply kpis_Ok; cbn; repeat split; assumption|].
  split; [reflexivity|].
  split; [exact Ma|]. split; [exact Mg|]. split; [exact Mv | exact Mb].
Qed.

(** X4.  For a non-empty list of loaded files, lines 110-116 return
    when some surviving row of some flight has a flight time; the
    flight count is then the number of files, and each of the four
    extreme KPIs is taken over every surviving row of every flight: the
    fleet maxima of altitude, ground speed and air speed are the
    largest number in that column of the fleet table, the fleet battery
    minimum is the smallest one, and each is missing exactly when the
    column holds no number.  When no surviving row has a flight time,
    line 111 raises TypeError and none of the later KPIs is computed. *)
Theorem fleet_extremes_over_all_rows (P : Coercions) (files : list DataFrame)
  (st : Loaded) :
  files <> [] ->
  Forall (fun f => NoDup (columns f)) files ->
  load P files = Ok st ->
  (present (Timedelta64 (resolution P)) (column (df_all st) "flightTime") <> [] ->
   exists k,
     kpis P (flight_summary st) = Ok k
     /\ kpi_flights k = length files
     /\ maximum Float64
          (present Float64 (column (df_all st) "altitudeRelative")) (kpi_altitude k)
     /\ maximum Float64
          (present Float64 (column (df_all st) "groundSpeed")) (kpi_ground_speed k)
     /\ maximum Float64
          (present Float64 (column (df_all st) "airSpeed")) (kpi_air_speed k)
     /\ minimum Float64
          (present Float64 (column (df_all st) "battery0.percentRemaining"))
          (kpi_battery k))
  /\ (present (Timedelta64 (resolution P)) (column (df_all st) "flightTime") = [] ->
      exists msg, kpis P (flight_summary st) = Raise (TypeError msg)).
Proof.
  intros Hne Hd L. split.
  - now apply fleet_kpis_return.
  - intros Hft.
    pose proof (flight_count P files st Hne Hd L) as C.
    destruct (total_flight_time_fleet P files st Hne Hd L) as [_ T2].
    destruct (T2 Hft) as [msg Hmsg]. exists msg.
    unfold kpis. rewrite C. cbn [bind]. rewrite Hmsg. reflexivity.
Qed.

(** ** Decimal text *)

Lemma digits_from_uint (d : Decimal.uint) :
  forall acc,
    Iso.digits_from (Z.of_nat acc) (NilEmpty.string_of_uint d)
    = Some (Z.of_nat (Nat.of_uint_acc d acc)).
Proof.
  induction d; intros acc; cbn [NilEmpty.string_of_uint Nat.of_uint_acc Iso.digits_from];
    [reflexivity | ..];
    match goal with
    | |- context [Iso.digit ?c] =>
        let v := eval vm_compute in (Iso.digit c) in
        change (Iso.digit c) with v
    end;
    cbv iota; rewrite <- IHd; f_equal; rewrite Nat.tail_mul_spec; lia.
Qed.

Lemma number_str_of_nat (n : nat) : Iso.number (str_of_nat n) = Some (Z.of_nat n).
Proof.
  unfold Iso.number, str_of_nat.
  pose proof (digits_from_uint (Nat.to_uint n) 0) as H.
  change (Z.of_nat 0) with 0%Z in H.
  unfold Nat.of_uint in *. rewrite H.
  change (Nat.of_uint_acc (Nat.to_uint n) 0) with (Nat.of_uint (Nat.to_uint n)).
  rewrite Unsigned.of_to.
  destruct (NilEmpty.string_of_uint (Nat.to_uint n)) eqn:E; [|reflexivity].
  exfalso. apply (DecimalFacts.unorm_nonnil (Nat.to_uint n)).
  rewrite <- Unsigned.to_of, Unsigned.of_to.
  destruct (Nat.to_uint n); try discriminate E. reflexivity.
Qed.

Lemma all_digits_uint (d : Decimal.uint) :
  all_digits (NilEmpty.string_of_uint d) = true.
Proof. induction d; cbn; assumption || reflexivity. Qed.

Lemma all_digits_str_of_nat (n : nat) : all_digits (str_of_nat n) = true.
Proof. apply all_digits_uint. Qed.

Lemma two_digits_cases (n : nat) :
  two_digits n = String "0" (str_of_nat n) \/ two_digits n = str_of_nat n.
Proof. unfold two_digits. destruct (n <? 10)%nat; [left | right]; reflexivity. Qed.

Lemma all_digits_two_digits (n : nat) : all_digits (two_digits n) = true.
Proof.
  destruct (two_digits_cases n) as [-> | ->]; [cbn|]; apply all_digits_str_of_nat.
Qed.

Lemma str_of_nat_nonempty (n : nat) : str_of_nat n <> EmptyString.
Proof.
  intros E. pose proof (number_str_of_nat n) as H. rewrite E in H. discriminate.
Qed.

Lemma digits_str_of_nat (n : nat) :
  Iso.digits_from 0 (str_of_nat n) = Some (Z.of_nat n).
Proof.
  pose proof (number_str_of_nat n) as H. unfold Iso.number in H.
  destruct (str_of_nat n) eqn:E; [discriminate | exact H].
Qed.

Lemma number_two_digits (n : nat) : Iso.number (two_digits n) = Some (Z.of_nat n).
Proof.
  destruct (two_digits_cases n) as [-> | ->]; [|apply number_str_of_nat].
  cbn. apply digits_str_of_nat.
Qed.

Lemma split_on_digits (sep : ascii) (s : string) :
  Iso.digit sep = None -> all_digits s = true -> Iso.split_on sep s = [s].
Proof.
  intros Hs. induction s as [|c s IH]; cbn; [reflexivity|].
  destruct (Iso.digit c) eqn:D; [|discriminate]. intros H.
  destruct (Ascii.eqb c sep) eqn:E.
  - apply Ascii.eqb_eq in E. subst c. congruence.
  - now rewrite (IH H).
Qed.

Lemma split_on_app (sep : ascii) (s t : string) :
  Iso.digit sep = None ->
  all_digits s = true ->
  Iso.split_on sep (s ++ String sep t) = s :: Iso.split_on sep t.
Proof.
  intros Hs. induction s as [|c s IH]; cbn.
  - intros _. now rewrite Ascii.eqb_refl.
  - destruct (Iso.digit c) eqn:D; [|discriminate]. intros H.
    destruct (Ascii.eqb c sep) eqn:E.
    + apply Ascii.eqb_eq in E. subst c. congruence.
    + now rewrite (IH H).
Qed.

Lemma two_digits_length (n : nat) : (n < 100)%nat -> String.length (two_digits n) = 2%nat.
Proof.
  intros H.
  assert (G : forallb (fun k => (String.length (two_digits k) =? 2)%nat) (seq 0 100) = true)
    by (vm_compute; reflexivity).
  rewrite forallb_forall in G. apply Nat.eqb_eq, G, in_seq. lia.
Qed.

(** ** Rendering *)

Lemma length_append_string (s t : string) :
  String.length (s ++ t) = (String.length s + String.length t)%nat.
Proof. induction s as [|c s IH]; cbn; [reflexivity | now rewrite IH]. Qed.

Lemma trunc_floor (q : Q) : (0 <= q)%Q -> trunc q = Qfloor q /\ (0 <= Qfloor q)%Z.
Proof.
  intros H. unfold trunc.
  replace (Qle_bool 0 q) with true by (symmetry; now apply Qle_bool_iff).
  split; [reflexivity|].
  change 0%Z with (Qfloor 0). now apply Qfloor_resp_le.
Qed.

Lemma pad2_nonneg (n : Z) : (0 <= n)%Z -> pad2 n = two_digits (Z.to_nat n).
Proof.
  intros H. unfold pad2.
  destruct (n <? 0)%Z eqn:E; [apply Z.ltb_lt in E; lia | reflexivity].
Qed.

(** X5.  A duration that is not negative renders as H:M:S text that
    reads back as the whole seconds of the duration: only the fraction
    of a second is lost.  Below 100 hours the text has exactly eight
    characters. *)
Theorem format_timedelta_reads_back (q : Q) :
  (0 <= q)%Q ->
  exists text,
    format_timedelta (Timedelta q) = Ok text
    /\ clock_seconds text = Some (Qfloor q)
    /\ ((Qfloor q < 360000)%Z -> String.length text = 8%nat).
Proof.
  intros H. destruct (trunc_floor q H) as [T N]. unfold format_timedelta.
  rewrite T. set (t := Qfloor q) in *.
  assert (R : (0 <= t mod 3600 < 3600)%Z) by (apply Z.mod_pos_bound; lia).
  assert (Hh : (0 <= t / 3600)%Z) by (apply Z.div_pos; lia).
  assert (Hm : (0 <= t mod 3600 / 60 < 60)%Z).
  { split; [apply Z.div_pos; lia | apply Z.div_lt_upper_bound; lia]. }
  assert (Hs : (0 <= (t mod 3600) mod 60 < 60)%Z) by (apply Z.mod_pos_bound; lia).
  rewrite !pad2_nonneg by lia.
  eexists. split; [reflexivity|]. split.
  - unfold clock_seconds.
    change (two_digits (Z.to_nat (t / 3600)) ++ ":"
            ++ two_digits (Z.to_nat (t mod 3600 / 60)) ++ ":"
            ++ two_digits (Z.to_nat ((t mod 3600) mod 60)))%string
      with (two_digits (Z.to_nat (t / 3600))
            ++ String ":" (two_digits (Z.to_nat (t mod 3600 / 60))
                           ++ String ":" (two_digits (Z.to_nat ((t mod 3600) mod 60)))))%string.
    rewrite !split_on_app, split_on_digits
      by (reflexivity || apply all_digits_two_digits).
    cbn [map]. rewrite !number_two_digits, !Z2Nat.id by lia. f_equal.
    pose proof (Z.div_mod t 3600). pose proof (Z.div_mod (t mod 3600) 60). lia.
  - intros B.
    assert (Hh' : (t / 3600 < 100)%Z) by (apply Z.div_lt_upper_bound; lia).
    rewrite !length_append_string. cbn [String.length].
    rewrite !two_digits_length by lia. reflexivity.
Qed.

Lemma format_timedelta_reads_back_witness :
  exists text,
    format_timedelta (Timedelta (7325 # 2)) = Ok text
    /\ clock_seconds text = Some (Qfloor (7325 # 2))
    /\ ((Qfloor (7325 # 2) < 360000)%Z -> String.length text = 8%nat).
Proof.
  apply (format_timedelta_reads_back (7325 # 2)). unfold Qle. simpl. lia.
Defined.

Lemma str_of_nat_head (n : nat) :
  exists c s, str_of_nat n = String c s /\ Iso.digit c <> None.
Proof.
  pose proof (all_digits_str_of_nat n) as A.
  pose proof (str_of_nat_nonempty n) as E.
  destruct (str_of_nat n) as [|c s]; [contradiction|].
  exists c, s. split; [reflexivity|]. cbn in A. now destruct (Iso.digit c).
Qed.

Lemma two_digits_head (n : nat) :
  exists c s, two_digits n = String c s /\ Iso.digit c <> None.
Proof.
  destruct (two_digits_cases n) as [-> | ->]; [|apply str_of_nat_head].
  eexists. eexists. split; [reflexivity | discriminate].
Qed.

Lemma pad2_head (n : Z) : exists c s, pad2 n = String c s /\ c <> "N"%char.
Proof.
  unfold pad2. destruct (n <? 0)%Z.
  - eexists. eexists. split; [reflexivity | discriminate].
  - destruct (two_digits_head (Z.to_nat n)) as [c [s [-> D]]].
    exists c, s. split; [reflexivity|]. intros ->. now apply D.
Qed.

Lemma fixed2_head (x : Q) : exists c s, fixed2 x = String c s /\ c <> "N"%char.
Proof.
  unfold fixed2. destruct (Qle_bool 0 x).
  - destruct (str_of_nat_head
                (Z.to_nat (Z.abs (round_half_even (x * 100)) / 100)))
      as [c [s [-> D]]].
    eexists. eexists. split; [reflexivity|]. intros ->. now apply D.
  - eexists. eexists. split; [reflexivity | discriminate].
Qed.

(** X6.  [format_timedelta] answers "N/A" for a missing duration and
    for nothing else: no duration, not even an empty one, is shown as
    not available. *)
Theorem format_timedelta_na_iff_missing (td : value) :
  format_timedelta td = Ok "N/A" <-> td = NA.
Proof.
  split; [|intros ->; reflexivity].
  destruct td as [| | | |q]; try discriminate; [reflexivity|].
  unfold format_timedelta.
  destruct (pad2_head (trunc q / 3600)) as [c [s [-> D]]].
  intros [= E _]. exfalso. now apply D.
Qed.

(** X7.  [fmt] answers "N/A" for a missing number and for nothing else,
    whatever the unit: a number, zero included, is never shown as not
    available. *)
Theorem fmt_na_iff_missing (float_of_text : string -> option Q)
  (v : value) (unit : string) :
  fmt float_of_text v unit = Ok "N/A" <-> v = NA.
Proof.
  split; [|intros ->; reflexivity].
  destruct v as [|t|x| |]; try discriminate; [reflexivity | |]; cbn [fmt].
  - destruct (float_of_text t) as [x|]; [|discriminate].
    destruct (fixed2_head x) as [c [s [-> D]]]. intros [= E _]. exfalso. now apply D.
  - destruct (fixed2_head x) as [c [s [-> D]]]. intros [= E _]. exfalso. now apply D.
Qed.

(** ** The properties of the fleet table on two sample files *)

Lemma sample_files_distinct :
  Forall (fun f => NoDup (columns f)) [Scenario.file_A; Samples.undated].
Proof.
  constructor; [|constructor; [|constructor]];
    apply distinct_NoDup; vm_compute; reflexivity.
Qed.

Lemma sample_files_loaded :
  load Iso.coercions [Scenario.file_A; Samples.undated] = Ok loaded_with_undated.
Proof. vm_compute. reflexivity. Qed.

Lemma fleet_table_joins_flights_witness :
  length (all_dfs loaded_with_undated) = 2%nat
  /\ Forall (fun out => has_col out "groundSpeed" = true) (all_dfs loaded_with_undated)
  /\ getitem (df_all loaded_with_undated) "groundSpeed"
     = Ok (flat_map (fun out => column out "groundSpeed") (all_dfs loaded_with_undated))
  /\ nrows (df_all loaded_with_undated)
     = list_sum (map nrows (all_dfs loaded_with_undated)).
Proof.
  apply (fleet_table_joins_flights Iso.coercions
           [Scenario.file_A; Samples.undated] loaded_with_undated "groundSpeed").
  - discriminate.
  - exact sample_files_distinct.
  - exact sample_files_loaded.
  - vm_compute. tauto.
Defined.

Lemma fleet_flight_id_blocks_witness :
  exists blocks,
    getitem (df_all loaded_with_undated) "flight_id" = Ok (List.concat blocks)
    /\ Forall2 (fun j block => Forall (fun v => v = Str (flight_label j)) block)
               (seq 0 2) blocks
    /\ NoDup (map flight_label (seq 0 2)).
Proof.
  apply (fleet_flight_id_blocks Iso.coercions
           [Scenario.file_A; Samples.undated] loaded_with_undated).
  - discriminate.
  - exact sample_files_distinct.
  - exact sample_files_loaded.
Defined.

Lemma surveyed_distinct : Forall (fun f => NoDup (columns f)) Surveyed.files.
Proof.
  constructor; [|constructor; [|constructor; [|constructor]]];
    apply distinct_NoDup; vm_compute; reflexivity.
Qed.

Lemma surveyed_loaded : load Iso.coercions Surveyed.files = Ok Surveyed.loaded.
Proof. vm_compute. reflexivity. Qed.

Lemma surveyed_values :
  kpis Iso.coercions (flight_summary Surveyed.loaded) = Ok Surveyed.values.
Proof. vm_compute. reflexivity. Qed.

Lemma surveyed_flight_time :
  present (Timedelta64 (resolution Iso.coercions))
          (column (df_all Surveyed.loaded) "flightTime") <> [].
Proof. vm_compute. discriminate. Qed.

Lemma fleet_extremes_over_all_rows_witness :
  kpis Iso.coercions (flight_summary Surveyed.loaded) = Ok Surveyed.values
  /\ kpi_flights Surveyed.values = 3%nat
  /\ maximum Float64
       (present Float64 (column (df_all Surveyed.loaded) "altitudeRelative"))
       (kpi_altitude Surveyed.values)
  /\ minimum Float64
       (present Float64 (column (df_all Surveyed.loaded) "battery0.percentRemaining"))
       (kpi_battery Surveyed.values)
  /\ present Float64 (column (df_all Surveyed.loaded) "altitudeRelative") = [30; 42; 55]
  /\ kpi_altitude Surveyed.values = Num 55
  /\ kpi_battery Surveyed.values = Num 80.
Proof.
  destruct (fleet_extremes_over_all_rows Iso.coercions Surveyed.files Surveyed.loaded)
    as [R _].
  - discriminate.
  - exact surveyed_distinct.
  - exact surveyed_loaded.
  - destruct (R surveyed_flight_time) as [k [K [F [A [_ [_ B]]]]]].
    assert (E : k = Surveyed.values).
    { apply Ok_inj. rewrite <- K. exact surveyed_values. }
    subst k.
    split; [exact K|]. split; [exact F|]. split; [exact A|]. split; [exact B|].
    split; [vm_compute; reflexivity|]. split; vm_compute; reflexivity.
Defined.

(** ** Reading a rendered number back *)

Lemma signed_decimal_digit (c : ascii) (s : string) :
  Iso.digit c <> None -> signed_decimal (String c s) = Iso.decimal (String c s).
Proof.
  intros D. destruct c as [b0 b1 b2 b3 b4 b5 b6 b7].
  destruct b0, b1, b2, b3, b4, b5, b6, b7; try reflexivity.
  exfalso. apply D. reflexivity.
Qed.

Lemma decimal_parts (a b : nat) :
  (b < 100)%nat ->
  Iso.decimal (str_of_nat a ++ "." ++ two_digits b)
  = Some (Qred (inject_Z (Z.of_nat a)
                + inject_Z (Z.of_nat b) / inject_Z (10 ^ Z.of_nat 2))).
Proof.
  intros H. unfold Iso.decimal.
  change (str_of_nat a ++ "." ++ two_digits b)%string
    with (str_of_nat a ++ String "." (two_digits b))%string.
  rewrite split_on_app, split_on_digits
    by (reflexivity || apply all_digits_two_digits || apply all_digits_str_of_nat).
  now rewrite number_str_of_nat, number_two_digits, two_digits_length.
Qed.

Lemma hundredths (k : Z) :
  (0 <= k)%Z ->
  (inject_Z (Z.of_nat (Z.to_nat (k / 100)))
   + inject_Z (Z.of_nat (Z.to_nat (k mod 100))) / inject_Z (10 ^ Z.of_nat 2)
   == inject_Z k / 100)%Q.
Proof.
  intros H.
  assert (B : (0 <= k mod 100 < 100)%Z) by (apply Z.mod_pos_bound; lia).
  assert (A : (0 <= k / 100)%Z) by (apply Z.div_pos; lia).
  rewrite !Z2Nat.id by lia.
  rewrite (Z.div_mod k 100) at 3 by lia.
  rewrite inject_Z_plus, inject_Z_mult.
  change (inject_Z (10 ^ Z.of_nat 2)) with 100%Q. change (inject_Z 100) with 100%Q.
  field.
Qed.

Lemma round_half_even_sign (y : Q) :
  ((0 <= y)%Q -> (0 <= round_half_even y)%Z)
  /\ ((y < 0)%Q -> (round_half_even y <= 0)%Z).
Proof.
  destruct (round_half_even_near y) as [[B1 B2] _].
  set (k := round_half_even y) in *. split; intros H.
  - assert (L : (inject_Z (-1) < inject_Z k)%Q) by (change (inject_Z (-1)) with (-1)%Q; lra).
    rewrite <- Zlt_Qlt in L. lia.
  - assert (L : (inject_Z k < inject_Z 1)%Q) by (change (inject_Z 1) with 1%Q; lra).
    rewrite <- Zlt_Qlt in L. lia.
Qed.

Lemma two_decimals_Qeq (x r r' : Q) :
  (r == r')%Q -> two_decimals x r -> two_decimals x r'.
Proof.
  intros E [k [K [B T]]]. exists k. rewrite <- E. repeat split; assumption.
Qed.

Lemma fixed2_reads_back (x : Q) :
  exists r, signed_decimal (fixed2 x) = Some r /\ two_decimals x r.
Proof.
  pose proof (round2_two_decimals x) as R.
  destruct (round_half_even_sign (x * 100)) as [Sp Sn].
  unfold fixed2. set (k := round_half_even (x * 100)) in *.
  assert (B : (0 <= Z.abs k mod 100 < 100)%Z) by (apply Z.mod_pos_bound; lia).
  destruct (Qle_bool 0 x) eqn:E.
  - apply Qle_bool_iff in E.
    assert (K : (0 <= k)%Z) by (apply Sp; lra).
    change ("" ++ ?s)%string with s.
    destruct (str_of_nat_head (Z.to_nat (Z.abs k / 100))) as [c [s [Hc D]]].
    pose proof (decimal_parts (Z.to_nat (Z.abs k / 100)) (Z.to_nat (Z.abs k mod 100))) as Dp.
    rewrite Hc in *. cbn [append] in *. rewrite (signed_decimal_digit _ _ D).
    rewrite Dp by lia. eexists. split; [reflexivity|].
    eapply two_decimals_Qeq; [|exact R].
    rewrite !Qred_correct, hundredths by lia. now rewrite Z.abs_eq.
  - assert (N : (x < 0)%Q).
    { apply Qnot_le_lt. intros F. apply Qle_bool_iff in F. congruence. }
    assert (K : (k <= 0)%Z) by (apply Sn; lra).
    change ("-" ++ ?s)%string with (String "-" s).
    cbn [signed_decimal].
    rewrite decimal_parts by lia. cbn [option_map]. eexists. split; [reflexivity|].
    eapply two_decimals_Qeq; [|exact R].
    rewrite !Qred_correct, hundredths by lia. rewrite Z.abs_neq by lia.
    rewrite inject_Z_opp. field.
Qed.

(** X8.  The text [fmt] gives for a number is its two-decimal text
    followed by the unit, and the two-decimal text reads back as the
    number to two decimal places: a whole number of hundredths at most
    0.005 away, sign included. *)
Theorem fmt_reads_back (float_of_text : string -> option Q) (x : Q) (unit : string) :
  exists text r,
    fmt float_of_text (Num x) unit = Ok (text ++ unit)%string
    /\ signed_decimal text = Some r
    /\ two_decimals x r.
Proof.
  destruct (fixed2_reads_back x) as [r [S T]].
  exists (fixed2 x), r. repeat split; assumption.
Qed.

(** ** The total distance *)

Lemma valid_series_max_empty (d : dtype) (s : Series) :
  valid d s = [] -> valid d [series_max d s] = [].
Proof. intros H. unfold series_max. rewrite H. now destruct d. Qed.

Lemma flat_map_nil {A B : Type} (f : A -> list B) (l : list A) :
  flat_map f l = [] -> forall a, In a l -> f a = [].
Proof.
  induction l as [|x l IH]; [intros _ a []|].
  cbn [flat_map]. intros H. apply app_eq_nil in H. destruct H as [H1 H2].
  intros a [<-|Ha]; [assumption | now apply IH].
Qed.

Lemma maxima_of_nothing {A : Type} (d : dtype) (col : A -> Series) (l : list A) :
  flat_map (fun x => valid d (col x)) l = [] ->
  valid d (map (fun x => series_max d (col x)) l) = [].
Proof.
  intros E. pose proof (flat_map_nil _ _ E) as Z. clear E.
  induction l as [|a l IH]; [reflexivity|].
  cbn [map].
  change (series_max d (col a) :: ?t) with ([series_max d (col a)] ++ t).
  rewrite valid_app, valid_series_max_empty by (apply Z; now left).
  apply IH. intros x Hx. apply Z. now right.
Qed.

(** X9.  When lines 110-116 return, the total distance is the sum of
    the flights' largest distances and is always a number: a flight
    without any distance adds nothing, and when no surviving row of any
    flight has a distance the total is 0 and its tile reads 0.00, not
    N/A. *)
Theorem total_distance_is_never_missing (P : Coercions)
  (float_of_text : string -> option Q) (files : list DataFrame) (st : Loaded)
  (unit : string) :
  files <> [] ->
  Forall (fun f => NoDup (columns f)) files ->
  load P files = Ok st ->
  present (Timedelta64 (resolution P)) (column (df_all st) "flightTime") <> [] ->
  exists k x maxima,
    kpis P (flight_summary st) = Ok k
    /\ kpi_distance k = Num x
    /\ Forall2 (fun out m =>
                  maximum Float64 (present Float64 (column out "flightDistance")) m)
               (all_dfs st) maxima
    /\ (x == total (present Float64 maxima))%Q
    /\ (present Float64 (column (df_all st) "flightDistance") = [] ->
        fmt float_of_text (kpi_distance k) unit = Ok ("0.00" ++ unit)%string).
Proof.
  intros Hne Hd L Hft.
  destruct (fleet_kpis_return P files st Hne Hd L Hft) as [k [K _]].
  pose proof K as K'. apply kpis_Ok in K'. destruct K' as [_ [_ [D _]]].
  unfold total_flight_distance, kpi in D.
  rewrite (summary_column P files st Hne Hd L "flight_distance"
             (fun d => series_max Float64 (column d "flightDistance"))) in D
    by (intros fid d s Hs; now rewrite (summary_inv _ _ _ _ Hs)).
  cbn [bind] in D. rewrite to_numeric_cells_id in D.
  2:{ apply Forall_map, Forall_forall. intros out _.
      eapply (extreme_cell Qle). apply series_max_maximum. }
  injection D as D.
  exists k. eexists.
  exists (map (fun out => series_max Float64 (column out "flightDistance")) (all_dfs st)).
  split; [exact K|]. split; [symmetry; exact D|]. split; [|split].
  - apply Forall2_map_r. intros out _. rewrite <- valid_present.
    apply series_max_maximum.
  - rewrite Qred_correct, <- valid_present. apply Qsum_total.
  - intros E. rewrite <- D. unfold column at 1 in E.
    rewrite (fleet_column P files st Hne Hd L "flightDistance") in E
      by (vm_compute; tauto).
    rewrite <- valid_present, valid_flat_map in E.
    rewrite (maxima_of_nothing _ _ _ E). reflexivity.
Qed.

Lemma total_distance_is_never_missing_witness :
  exists x maxima,
    kpis Iso.coercions (flight_summary Surveyed.loaded) = Ok Surveyed.values
    /\ kpi_distance Surveyed.values = Num x
    /\ Forall2 (fun out m =>
                  maximum Float64 (present Float64 (column out "flightDistance")) m)
               (all_dfs Surveyed.loaded) maxima
    /\ (x == total (present Float64 maxima))%Q
    /\ (present Float64 (column (df_all Surveyed.loaded) "flightDistance") = [] ->
        fmt Iso.decimal (kpi_distance Surveyed.values) " m"
        = Ok ("0.00" ++ " m")%string)
    /\ map (fun out => present Float64 (column out "flightDistance"))
           (all_dfs Surveyed.loaded) = [[100; 250]; []; [80]]
    /\ kpi_distance Surveyed.values = Num 330
    /\ fmt Iso.decimal (kpi_distance Surveyed.values) " m" = Ok "330.00 m".
Proof.
  destruct (total_distance_is_never_missing Iso.coercions Iso.decimal
              Surveyed.files Surveyed.loaded " m")
    as [k [x [maxima [K [D [M [T Z]]]]]]].
  - discriminate.
  - exact surveyed_distinct.
  - exact surveyed_loaded.
  - exact surveyed_flight_time.
  - assert (E : k = Surveyed.values).
    { apply Ok_inj. rewrite <- K. exact surveyed_values. }
    subst k. exists x, maxima.
    split; [exact K|]. split; [exact D|]. split; [exact M|]. split; [exact T|].
    split; [exact Z|].
    split; [vm_compute; reflexivity|]. split; vm_compute; reflexivity.
Defined.

(** ** The GPS map *)

Lemma select_cols_In (df : DataFrame) (cs : list string) (c : string) :
  In c cs -> has_col df c = true -> In c (columns (select_cols df cs)).
Proof.
  intros Hc H. unfold columns, select_cols. cbn [cols].
  unfold has_col, columns in H. apply in_list_In in H.
  apply in_map_iff in H. destruct H as [[k v] [E Hin]]. cbn in E. subst k.
  apply in_map_iff. exists (c, v). split; [reflexivity|].
  apply in_flat_map. exists c. split; [assumption|].
  apply filter_In. split; [assumption | apply String.eqb_refl].
Qed.

Lemma some_row (l : list DataFrame) :
  list_sum (map nrows l) <> 0%nat <-> exists o, In o l /\ (0 < nrows o)%nat.
Proof.
  induction l as [|d l IH]; simpl.
  - split; [congruence | intros [o [[] _]]].
  - split.
    + intros H. destruct (nrows d) eqn:R.
      * destruct IH as [IH _]. destruct (IH H) as [o [Ho Hr]].
        exists o. split; [now right | assumption].
      * exists d. split; [now left | lia].
    + intros [o [[<-|Ho] Hr]]; [lia|].
      assert (list_sum (map nrows l) <> 0%nat) by (apply IH; now exists o). lia.
Qed.

Lemma gps_all_rows (P : Coercions) (files : list DataFrame) (st : Loaded) :
  Forall (fun f => NoDup (columns f)) files ->
  load P files = Ok st ->
  negb (empty (gps_all st)) = true
  <-> exists out, In out (all_dfs st) /\ (0 < nrows out)%nat.
Proof.
  intros Hd L. destruct files as [|file files].
  - apply load_flights in L. destruct L as [fl [F ->]]. inversion F; subst.
    cbn. split; [discriminate | intros [out [[] _]]].
  - assert (Hne : file :: files <> []) by discriminate.
    pose proof (fleet_has_col P _ st Hne Hd L "flight_id") as C.
    assert (Cin : In "flight_id" fleet_labels) by (vm_compute; tauto).
    specialize (C Cin).
    destruct (fleet_flights P _ st Hne Hd L) as [_ [N _]].
    apply load_flights in L. destruct L as [fl [F ->]].
    cbn [all_dfs] in *. unfold gps_all. cbn [gps_data].
    rewrite <- (map_map fst gps_of).
    destruct (map fst fl) as [|out outs] eqn:E; [contradiction|].
    assert (K : (length (cols (concat (map gps_of (out :: outs)))) =? 0)%nat = false).
    { apply Nat.eqb_neq. unfold concat. cbn [cols]. rewrite length_map.
      assert (I : In "flight_id"
                     (unique (flat_map columns (map gps_of (out :: outs))))).
      { apply unique_In. cbn [map flat_map]. apply in_or_app. left.
        apply select_cols_In; [vm_compute; tauto|].
        inversion C; subst. assumption. }
      destruct (unique _); [destruct I | discriminate]. }
    cbn [map]. cbn [map] in K. unfold empty. rewrite K, orb_false_r.
    unfold concat at 1. cbn [nrows]. rewrite negb_true_iff, Nat.eqb_neq.
    rewrite <- (some_row (out :: outs)).
    replace (map nrows (gps_of out :: map gps_of outs)) with (map nrows (out :: outs));
      [reflexivity|].
    cbn [map]. f_equal. rewrite map_map. reflexivity.
Qed.

Lemma select_length {A : Type} (mask : list bool) (s : list A) :
  (length (select mask s) <= count_true mask)%nat.
Proof.
  unfold count_true. revert s.
  induction mask as [|b mask IH]; intros [|x s]; simpl; try lia.
  specialize (IH s). destruct b; simpl; lia.
Qed.

Lemma coercion_length (P : Coercions) (c : string) (s : Series) :
  length (coercion P c s) = length s.
Proof.
  unfold coercion. destruct (in_list c numeric_cols); [apply length_map|].
  destruct (String.eqb c "flightTime"); [apply length_map | reflexivity].
Qed.

Lemma normalized_length (P : Coercions) (i : nat) (file out : DataFrame) (c : string) :
  NoDup (columns file) ->
  normalize P i file = Ok out ->
  (length (column out c) <= nrows out)%nat.
Proof.
  intros H N.
  destruct (normalize_ok P i file H) as [dates [out' [_ [N' [R G]]]]].
  rewrite N in N'. injection N' as <-.
  unfold column. rewrite G, R.
  destruct (stamped P i (reconcile file) c) as [s|e]; cbn [bind length]; [|lia].
  rewrite coercion_length. apply select_length.
Qed.

Lemma present_nonempty (d : dtype) (s : Series) : present d s <> [] -> s <> [].
Proof. intros H ->. now apply H. Qed.

Lemma flat_map_nonempty {A B : Type} (f : A -> list B) (l : list A) :
  flat_map f l <> [] -> exists a, In a l /\ f a <> [].
Proof.
  induction l as [|a l IH]; cbn [flat_map]; [intros H; now contradiction H|].
  intros H. destruct (f a) eqn:E.
  - destruct (IH H) as [x [Hx Hf]]. exists x. split; [now right | exact Hf].
  - exists a. split; [now left | rewrite E; discriminate].
Qed.

(** X10.  Whenever a run gets as far as the guard of line 237, the GPS
    map is drawn: the guard is never false there.  With no files line
    110 has raised before, and when no row of any file survives line
    111 has. *)
Theorem gps_map_drawn_whenever_reached (P : Coercions) (observed : bool)
  (float_of_text : string -> option Q) (files : list DataFrame)
  (group_col chart_type : string) (page : Page) :
  Forall (fun f => NoDup (columns f)) files ->
  report P observed float_of_text files group_col chart_type = Ok page ->
  gps_map page = true.
Proof.
  intros Hd R. unfold report in R.
  apply bind_Ok in R. destruct R as [st [L R]].
  apply bind_Ok in R. destruct R as [k [K R]].
  apply bind_Ok in R. destruct R as [t [_ R]].
  apply bind_Ok in R. destruct R as [c [_ R]].
  injection R as <-. cbn [gps_map].
  apply (gps_all_rows P files st Hd L).
  destruct files as [|file files].
  { cbn in L. injection L as <-. cbn in K. discriminate. }
  assert (Hne : file :: files <> []) by discriminate.
  apply kpis_Ok in K. destruct K as [_ [T _]].
  destruct (total_flight_time_fleet P _ st Hne Hd L) as [_ T2].
  assert (Hft : present (Timedelta64 (resolution P)) (column (df_all st) "flightTime")
                <> []).
  { intros E. destruct (T2 E) as [msg Hmsg]. congruence. }
  apply present_nonempty in Hft. unfold column at 1 in Hft.
  rewrite (fleet_column P _ st Hne Hd L "flightTime") in Hft by (vm_compute; tauto).
  apply flat_map_nonempty in Hft. destruct Hft as [out [Hin Hcol]].
  exists out. split; [exact Hin|].
  destruct (fleet_flights P _ st Hne Hd L) as [F _].
  assert (N : exists j f, In f (file :: files) /\ normalize P j f = Ok out).
  { revert F Hin. generalize (seq 0 (length (file :: files))). generalize (all_dfs st).
    induction l as [|o l IH]; intros js F Hin; [destruct Hin|].
    inversion F as [|j o' js' l' Hx Hr]; subst.
    destruct Hin as [->|Hin].
    - destruct Hx as [f [s [Hf [Hn _]]]]. now exists j, f.
    - eapply IH; eassumption. }
  destruct N as [j [f [Hf Hn]]].
  rewrite Forall_forall in Hd.
  pose proof (normalized_length P j f out "flightTime" (Hd f Hf) Hn) as Len.
  destruct (column out "flightTime"); [now contradiction Hcol | cbn [length] in Len; lia].
Qed.

Lemma gps_map_drawn_whenever_reached_witness :
  report Iso.coercions true Iso.decimal Surveyed.files "month" "line" = Ok Surveyed.page
  /\ gps_map Surveyed.page = true.
Proof.
  assert (R : report Iso.coercions true Iso.decimal Surveyed.files "month" "line"
              = Ok Surveyed.page) by (vm_compute; reflexivity).
  split; [exact R|].
  apply (gps_map_drawn_whenever_reached Iso.coercions true Iso.decimal
           Surveyed.files "month" "line" Surveyed.page).
  - exact surveyed_distinct.
  - exact R.
Defined.

(** ** More on the grouper *)

(** X11.  Whenever grouping by month or by weekday returns its tables,
    every bucket label in them is one of the twelve month abbreviations,
    or of the seven weekday names, and the buckets of each flight appear
    in calendar order, Jan to Dec or Monday to Sunday, not in
    alphabetical order. *)
Theorem calendar_buckets_follow_order (observed : bool) (df : DataFrame)
  (group_col chart_type : string) (figs : list (string * Figure)) :
  In group_col ["month"; "weekday"] ->
  snd (plot_flight_metrics observed df group_col metrics chart_type) = Ok figs ->
  categories "month" = month_order
  /\ categories "weekday" = weekday_order
  /\ forall metric fig,
       In (metric, fig) figs ->
       (forall r, In r (table fig) -> In (bucket r) (categories group_col))
       /\ forall f, exists keep,
            buckets_of f (table fig) = filter keep (categories group_col).
Proof.
  intros Hg H. split; [reflexivity|]. split; [reflexivity|].
  unfold plot_flight_metrics in H.
  destruct (derive_bucket df group_col) as [df' [u|e]]; [|discriminate].
  cbn [snd] in H.
  apply (table_of_categorical observed df' group_col chart_type figs); [|exact H].
  destruct Hg as [<-|[<-|[]]]; reflexivity.
Qed.

Lemma calendar_buckets_follow_order_witness :
  categories "month" = month_order
  /\ categories "weekday" = weekday_order
  /\ forall metric fig,
       In (metric, fig) month_figs ->
       (forall r, In r (table fig) -> In (bucket r) (categories "month"))
       /\ forall f, exists keep,
            buckets_of f (table fig) = filter keep (categories "month").
Proof.
  apply (calendar_buckets_follow_order true Scenario.fleet "month" "line" month_figs).
  - vm_compute. tauto.
  - vm_compute. reflexivity.
Defined.

Lemma make_figs_supported (group_col chart_type : string) (kind : chart)
  (avg_long : list LongRow) (names : list string) :
  (chart_type = "line" /\ kind = Line) \/ (chart_type = "bar" /\ kind = Bar) ->
  forall acc,
    for_each (make_fig group_col chart_type avg_long) names acc
    = Ok (acc ++ map (fun n => (n, mkFigure kind group_col
                                     (filter (fun r => String.eqb (Metric r) n) avg_long)))
                     names).
Proof.
  intros K. induction names as [|n names IH]; intros acc; cbn [for_each map].
  - now rewrite app_nil_r.
  - unfold make_fig at 1.
    destruct K as [[-> ->]|[-> ->]]; cbn [String.eqb Ascii.eqb Bool.eqb bind];
      rewrite IH, <- app_assoc; reflexivity.
Qed.

(** X12.  The chart style changes nothing but the style: called with
    "line" and with "bar", the grouper leaves the caller's table in the
    same state and either raises the same exception or returns figures
    under the same names, with the same x column and the same tables,
    all of them line charts in one case and bar charts in the other. *)
Theorem chart_style_changes_style_only (observed : bool) (df : DataFrame)
  (group_col : string) (ms : list (string * string)) :
  fst (plot_flight_metrics observed df group_col ms "line")
  = fst (plot_flight_metrics observed df group_col ms "bar")
  /\ match snd (plot_flight_metrics observed df group_col ms "line"),
           snd (plot_flight_metrics observed df group_col ms "bar") with
     | Ok lines, Ok bars =>
         map (fun kf => (fst kf, x (snd kf), table (snd kf))) lines
         = map (fun kf => (fst kf, x (snd kf), table (snd kf))) bars
         /\ Forall (fun kf => style (snd kf) = Line) lines
         /\ Forall (fun kf => style (snd kf) = Bar) bars
     | Raise e1, Raise e2 => e1 = e2
     | _, _ => False
     end.
Proof.
  unfold plot_flight_metrics.
  destruct (derive_bucket df group_col) as [df' [u|e]]; cbn [fst snd];
    [|split; reflexivity].
  split; [reflexivity|]. unfold group_and_chart.
  destruct (groupby_mean observed df' group_col (map fst ms)) as [avg_vals|e];
    cbn [bind]; [|reflexivity].
  rewrite (make_figs_supported _ "line" Line) by (left; now split).
  rewrite (make_figs_supported _ "bar" Bar) by (right; now split).
  cbn [app]. rewrite !map_map. cbn [fst snd x table style].
  repeat split; apply Forall_map, Forall_forall; intros; reflexivity.
Qed.

Lemma unique_from_repeat (a : string) (k : nat) :
  forall seen,
    fold_left (fun seen x => if in_list x seen then seen else seen ++ [x])
              (repeat a k) seen
    = if (k =? 0)%nat || in_list a seen then seen else seen ++ [a].
Proof.
  induction k as [|k IH]; intros seen; cbn [repeat fold_left]; [reflexivity|].
  rewrite IH. cbn [Nat.eqb orb]. destruct (in_list a seen) eqn:E.
  - rewrite E. now rewrite orb_true_r.
  - rewrite in_list_app, E. cbn. rewrite String.eqb_refl. cbn.
    now rewrite orb_true_r.
Qed.

Lemma block_metrics (n : string) (j : nat) (avg_vals : list GroupedRow) :
  map Metric (block n j avg_vals) = repeat n (length avg_vals).
Proof.
  unfold block. induction avg_vals as [|r l IH]; cbn; [reflexivity | now rewrite IH].
Qed.

Lemma metric_names (avg_vals : list GroupedRow) :
  unique (map Metric (map (rename_metric metrics) (melt (map fst metrics) avg_vals)))
  = match avg_vals with
    | [] => []
    | _ => ["Ground Speed"; "Air Speed"; "Altitude"; "Battery %"]
    end.
Proof.
  rewrite avg_long_blocks, !map_app, !block_metrics. unfold unique.
  rewrite !fold_left_app, !unique_from_repeat.
  destruct avg_vals as [|r l]; reflexivity.
Qed.

Lemma filter_blocks (name : string) (avg_vals : list GroupedRow) :
  filter (fun r => String.eqb (Metric r) name)
         (map (rename_metric metrics) (melt (map fst metrics) avg_vals))
  = (if String.eqb "Ground Speed" name then block "Ground Speed" 0 avg_vals else [])
    ++ (if String.eqb "Air Speed" name then block "Air Speed" 1 avg_vals else [])
    ++ (if String.eqb "Altitude" name then block "Altitude" 2 avg_vals else [])
    ++ (if String.eqb "Battery %" name then block "Battery %" 3 avg_vals else []).
Proof. now rewrite avg_long_blocks, !filter_app, !filter_block. Qed.

(** X13.  With a supported style the grouper returns either no figure,
    when the grouped table has no row, or exactly four: Ground Speed,
    Air Speed, Altitude and Battery %, in that order, each with the
    style asked for, the grouping key as x column and one row per
    (flight, bucket) group, in the order of the grouped table. *)
Theorem one_figure_per_metric (observed : bool) (df : DataFrame)
  (group_col chart_type : string) (kind : chart) (figs : list (string * Figure)) :
  (chart_type = "line" /\ kind = Line) \/ (chart_type = "bar" /\ kind = Bar) ->
  snd (plot_flight_metrics observed df group_col metrics chart_type) = Ok figs ->
  exists avg_vals,
    groupby_mean observed
      (fst (plot_flight_metrics observed df group_col metrics chart_type))
      group_col (map fst metrics) = Ok avg_vals
    /\ figs = match avg_vals with
              | [] => []
              | _ => [ ("Ground Speed",
                        mkFigure kind group_col (block "Ground Speed" 0 avg_vals));
                       ("Air Speed",
                        mkFigure kind group_col (block "Air Speed" 1 avg_vals));
                       ("Altitude",
                        mkFigure kind group_col (block "Altitude" 2 avg_vals));
                       ("Battery %",
                        mkFigure kind group_col (block "Battery %" 3 avg_vals)) ]
              end.
Proof.
  intros K H. unfold plot_flight_metrics in *.
  destruct (derive_bucket df group_col) as [df' [u|e]]; [|discriminate].
  cbn [fst snd] in *. unfold group_and_chart in H.
  apply bind_Ok in H. destruct H as [avg_vals [G H]].
  exists avg_vals. split; [exact G|].
  rewrite (make_figs_supported _ _ kind _ _ K) in H. injection H as <-.
  rewrite metric_names. destruct avg_vals as [|r l]; [reflexivity|].
  cbn [app map]. rewrite !filter_blocks.
  cbn [String.eqb Ascii.eqb Bool.eqb]. cbn [app]. now rewrite !app_nil_r.
Qed.

Lemma one_figure_per_metric_witness :
  exists avg_vals,
    groupby_mean true (fst month_call) "month" (map fst metrics) = Ok avg_vals
    /\ month_figs = match avg_vals with
                    | [] => []
                    | _ => [ ("Ground Speed",
                              mkFigure Line "month" (block "Ground Speed" 0 avg_vals));
                             ("Air Speed",
                              mkFigure Line "month" (block "Air Speed" 1 avg_vals));
                             ("Altitude",
                              mkFigure Line "month" (block "Altitude" 2 avg_vals));
                             ("Battery %",
                              mkFigure Line "month" (block "Battery %" 3 avg_vals)) ]
                    end.
Proof.
  apply (one_figure_per_metric true Scenario.fleet "month" "line" Line month_figs).
  - left. split; reflexivity.
  - vm_compute. reflexivity.
Defined.






(** ** Grouping by hour when a time is missing *)

Lemma hour_with_missing_time (observed : bool) (df : DataFrame)
  (ms : list (string * string)) (chart_type : string) (times : Series) :
  getitem df "time" = Ok times ->
  is_datetimelike times = true ->
  In NA times ->
  has_col df "hour" = false ->
  plot_flight_metrics observed df "hour" ms chart_type
  = (mkDF (nrows df) (cols df ++ [("hour", raw_hours times)]),
     Raise (ValueError "time data does not match format '%H'")).
Proof.
  intros G D N H. unfold plot_flight_metrics, derive_bucket.
  cbn [String.eqb Ascii.eqb Bool.eqb]. rewrite G. cbn [bind]. unfold dt. rewrite D.
  replace (forallb notna times) with false.
  - now rewrite (setitem_fresh _ _ _ H).
  - symmetry. apply not_true_is_false. intros F. rewrite forallb_forall in F.
    specialize (F NA N). discriminate.
Qed.

Lemma concat_lacks (dfs : list DataFrame) (c : string) :
  Forall (fun d => has_col d c = false) dfs -> has_col (concat dfs) c = false.
Proof.
  intros H. unfold has_col, columns, concat. cbn [cols].
  rewrite map_map. cbn [fst]. rewrite map_id.
  apply in_list_false. rewrite unique_In, in_flat_map. intros [d [Hd Hc]].
  rewrite Forall_forall in H. specialize (H d Hd).
  apply in_list_In in Hc. unfold has_col in H. congruence.
Qed.

Lemma normalized_lacks (P : Coercions) (i : nat) (file out : DataFrame) (c : string) :
  NoDup (columns file) ->
  normalize P i file = Ok out ->
  ~ In c fleet_labels ->
  has_col out c = false.
Proof.
  intros H N Hc.
  destruct (normalize_ok P i file H) as [dates [out' [_ [N' [_ G]]]]].
  rewrite N in N'. injection N' as <-.
  destruct (has_col out c) eqn:E; [|reflexivity].
  destruct (has_col_getitem _ _ E) as [s Hs]. rewrite G in Hs.
  apply bind_Ok in Hs. destruct Hs as [t [St _]]. unfold stamped in St.
  assert (A : forall k, In k fleet_labels -> String.eqb c k = false).
  { intros k Hk. destruct (String.eqb c k) eqn:F; [|reflexivity].
    apply String.eqb_eq in F. subst k. contradiction. }
  rewrite !A in St by (vm_compute; tauto).
  apply getitem_has_col in St. rewrite (reconcile_has_col _ _ H) in St.
  apply in_list_In in St. exfalso. apply Hc. unfold fleet_labels.
  apply in_or_app. now left.
Qed.

Lemma to_datetime_hms_cells (P : Coercions) (mask : list bool) (t : Series) :
  is_datetimelike (select mask (to_datetime_hms P t)) = true.
Proof.
  unfold is_datetimelike. apply forallb_forall.
  apply Forall_forall, select_Forall. unfold to_datetime_hms.
  apply Forall_map, Forall_forall. intros v _.
  destruct v; try reflexivity; (destruct (parse_time P _); reflexivity).
Qed.

Lemma stamped_time (P : Coercions) (i : nat) (d : DataFrame) (s : Series) :
  stamped P i d "time" = Ok s -> exists t, s = to_datetime_hms P t.
Proof.
  unfold stamped. cbn [String.eqb Ascii.eqb Bool.eqb]. intros S.
  apply bind_Ok in S. destruct S as [t [_ S]]. exists t. congruence.
Qed.

Lemma normalized_time_cells (P : Coercions) (i : nat) (file out : DataFrame) :
  NoDup (columns file) ->
  normalize P i file = Ok out ->
  is_datetimelike (column out "time") = true.
Proof.
  intros H N.
  assert (T : In "time" fleet_labels) by (vm_compute; tauto).
  destruct (normalized_column P i file out "time" H N T) as [dates [s [_ [S G]]]].
  unfold column. rewrite G.
  destruct (stamped_time _ _ _ _ S) as [t ->].
  apply (to_datetime_hms_cells P (map notna dates) t).
Qed.

(** X15.  When the time of some surviving row of some flight is missing
    (the log has no clock time there, or one that does not read as
    H:M:S), grouping the fleet table by hour raises ValueError, for
    every style and whatever the other rows hold; by then the caller's
    table has gained an hour column of bare hour numbers. *)
Theorem hour_grouping_needs_every_time (P : Coercions) (observed : bool)
  (files : list DataFrame) (st : Loaded) (out : DataFrame)
  (ms : list (string * string)) (chart_type : string) :
  files <> [] ->
  Forall (fun f => NoDup (columns f)) files ->
  load P files = Ok st ->
  In out (all_dfs st) ->
  In NA (column out "time") ->
  plot_flight_metrics observed (df_all st) "hour" ms chart_type
  = (mkDF (nrows (df_all st))
          (cols (df_all st) ++ [("hour", raw_hours (column (df_all st) "time"))]),
     Raise (ValueError "time data does not match format '%H'")).
Proof.
  intros Hne Hd L Ho Hna.
  destruct (fleet_flights P files st Hne Hd L) as [F _].
  assert (A : Forall (fun o => is_datetimelike (column o "time") = true
                               /\ has_col o "hour" = false) (all_dfs st)).
  { revert F. generalize (seq 0 (length files)). generalize (all_dfs st).
    induction l as [|o l IH]; intros js F;
      inversion F as [|j o' js' l' Hx Hr]; subst; constructor.
    - destruct Hx as [file [s [Hin [N _]]]]. rewrite Forall_forall in Hd.
      split.
      + apply (normalized_time_cells P j file o (Hd _ Hin) N).
      + apply (normalized_lacks P j file o "hour" (Hd _ Hin) N).
        vm_compute. intuition discriminate.
    - eapply IH. eassumption. }
  pose proof (fleet_column P files st Hne Hd L "time") as G.
  assert (T : In "time" fleet_labels) by (vm_compute; tauto). specialize (G T).
  unfold column at 1. rewrite G.
  apply hour_with_missing_time.
  - exact G.
  - unfold is_datetimelike. rewrite forallb_forall. intros v Hv.
    apply in_flat_map in Hv. destruct Hv as [o [Hin Hv]].
    rewrite Forall_forall in A. destruct (A o Hin) as [D _].
    unfold is_datetimelike in D. rewrite forallb_forall in D. now apply D.
  - apply in_flat_map. now exists out.
  - rewrite (df_all_concat P files st Hne Hd L). apply concat_lacks.
    eapply Forall_impl; [|exact A]. intros o [_ B]. exact B.
Qed.

Lemma hour_grouping_needs_every_time_witness :
  plot_flight_metrics true (df_all NoClock.loaded) "hour" metrics "line"
  = (mkDF (nrows (df_all NoClock.loaded))
          (cols (df_all NoClock.loaded)
           ++ [("hour", raw_hours (column (df_all NoClock.loaded) "time"))]),
     Raise (ValueError "time data does not match format '%H'")).
Proof.
  apply (hour_grouping_needs_every_time Iso.coercions true NoClock.files
           NoClock.loaded NoClock.flight metrics "line").
  - discriminate.
  - constructor; [|constructor; [|constructor]];
      apply distinct_NoDup; vm_compute; reflexivity.
  - vm_compute. reflexivity.
  - vm_compute. tauto.
  - vm_compute. tauto.
Defined.

(** ** Averages and extremes of one flight *)

Lemma total_bounds (l : list Q) (lo hi : Q) :
  (forall q, In q l -> (lo <= q)%Q /\ (q <= hi)%Q) ->
  (lo * inject_Z (Z.of_nat (length l)) <= total l)%Q
  /\ (total l <= hi * inject_Z (Z.of_nat (length l)))%Q.
Proof.
  induction l as [|a l IH]; intros B.
  - change (inject_Z (Z.of_nat (length (@nil Q)))) with 0%Q.
    change (total []) with 0%Q. rewrite !Qmult_0_r. split; apply Qle_refl.
  - destruct (IH (fun q Hq => B q (or_intror Hq))) as [I1 I2].
    destruct (B a (or_introl eq_refl)) as [A1 A2].
    change (total (a :: l)) with (a + total l)%Q.
    replace (Z.of_nat (length (a :: l))) with (1 + Z.of_nat (length l))%Z
      by (cbn [length]; lia).
    rewrite inject_Z_plus. change (inject_Z 1) with 1%Q.
    rewrite !Qmult_plus_distr_r, !Qmult_1_r.
    set (x := (lo * inject_Z (Z.of_nat (length l)))%Q) in *.
    set (y := (hi * inject_Z (Z.of_nat (length l)))%Q) in *.
    split; lra.
Qed.

Lemma raw_mean_within (a : Q) (l : list Q) (lo hi : Q) :
  (forall q, In q (a :: l) -> (lo <= q)%Q /\ (q <= hi)%Q) ->
  (lo <= Qsum (a :: l) / inject_Z (Z.of_nat (length (a :: l))))%Q
  /\ (Qsum (a :: l) / inject_Z (Z.of_nat (length (a :: l))) <= hi)%Q.
Proof.
  intros B. destruct (total_bounds (a :: l) lo hi B) as [T1 T2].
  pose proof (mean_of_sum a l) as E.
  set (n := inject_Z (Z.of_nat (length (a :: l)))) in *.
  assert (Hn : (0 < n)%Q).
  { subst n. change 0%Q with (inject_Z 0). rewrite <- Zlt_Qlt. cbn [length]. lia. }
  rewrite <- E in T1, T2. split.
  - apply (Qmult_le_r _ _ n Hn). exact T1.
  - apply (Qmult_le_r _ _ n Hn). exact T2.
Qed.

Lemma mean_within (s : Series) :
  no_more_than Float64 0 (series_min Float64 s) (series_mean Float64 s)
  /\ no_more_than Float64 0 (series_mean Float64 s) (series_max Float64 s).
Proof.
  pose proof (series_min_minimum Float64 s) as Mi.
  pose proof (series_max_maximum Float64 s) as Ma.
  unfold minimum, maximum, no_more_than, series_mean in *.
  destruct (valid Float64 s) as [|q0 l] eqn:V.
  - rewrite Mi, Ma. split; left; split; reflexivity.
  - destruct Mi as [lo [-> [_ Blo]]]. destruct Ma as [hi [-> [_ Bhi]]].
    destruct (raw_mean_within q0 l lo hi) as [T1 T2];
      [intros q Hq; split; [now apply Blo | now apply Bhi]|].
    cbn [as_dtype].
    split; right; eexists; eexists; (split; [reflexivity|]); (split; [reflexivity|]);
      rewrite Qplus_0_r, ?Qred_correct; assumption.
Qed.

Lemma valid_In (d : dtype) (q : Q) (s : Series) :
  In q (valid d s) -> In (box d q) s.
Proof.
  unfold valid. rewrite in_flat_map. intros [v [Hv Hq]].
  destruct d, v; cbn in Hq; try contradiction;
    destruct Hq as [<-|[]]; exact Hv.
Qed.

Lemma duration_mean_within (u : positive) (s : Series) :
  Forall (whole_duration u) s ->
  no_more_than (Timedelta64 u) 0
    (series_mean (Timedelta64 u) s) (series_max (Timedelta64 u) s).
Proof.
  intros W.
  pose proof (series_min_minimum (Timedelta64 u) s) as Mi.
  pose proof (series_max_maximum (Timedelta64 u) s) as Ma.
  pose proof (valid_In (Timedelta64 u)) as I.
  unfold minimum, maximum, no_more_than, series_mean in *.
  destruct (valid (Timedelta64 u) s) as [|q0 l] eqn:V.
  - rewrite Ma. left. split; reflexivity.
  - destruct Mi as [lo [_ [_ Blo]]]. destruct Ma as [hi [-> [Hin Bhi]]].
    destruct (raw_mean_within q0 l lo hi) as [_ T2];
      [intros q Hq; split; [now apply Blo | now apply Bhi]|].
    assert (G : exists K : Z, (hi == inject_Z K / inject_Z (Zpos u))%Q).
    { rewrite Forall_forall in W. rewrite <- V in Hin.
      exact (W _ (I hi s Hin)). }
    destruct G as [K G].
    right. eexists. eexists. split; [reflexivity|]. split; [reflexivity|].
    rewrite Qplus_0_r, Qred_correct. cbn [as_dtype].
    exact (whole_ticks_le u _ hi K G T2).
Qed.

Lemma rounded_mean_within (s : Series) :
  no_more_than Float64 (1 # 200) (series_min Float64 s)
               (round2 (series_mean Float64 s))
  /\ no_more_than Float64 (1 # 200) (round2 (series_mean Float64 s))
                  (series_max Float64 s).
Proof.
  destruct (mean_within s) as [[[E1 E2]|[lo [m [E1 [E2 L]]]]] H2].
  - destruct H2 as [[_ E3]|[m [hi [E2' _]]]]; [|rewrite E2 in E2'; discriminate].
    rewrite E1, E2, E3. split; left; split; reflexivity.
  - destruct H2 as [[E2' _]|[m' [hi [E2' [E3 U]]]]]; [rewrite E2 in E2'; discriminate|].
    rewrite E2 in E2'. injection E2' as <-. rewrite E1, E2, E3. cbn [round2 box].
    destruct (round2_two_decimals m) as [k [_ [B _]]].
    apply Qabs_Qle_condition in B. destruct B as [B1 B2].
    split; right; eexists; eexists; (split; [reflexivity|]); (split; [reflexivity|]);
      cbn [box]; lra.
Qed.

Lemma normalized_durations (P : Coercions) (i : nat) (file out : DataFrame) :
  NoDup (columns file) ->
  normalize P i file = Ok out ->
  Forall (whole_duration (resolution P)) (column out "flightTime").
Proof.
  intros H N.
  destruct (normalized_column P i file out "flightTime" H N)
    as [dates [s [_ [_ G]]]]; [vm_compute; tauto|].
  unfold column. rewrite G.
  change (coercion P "flightTime") with (to_timedelta P).
  apply to_timedelta_whole.
Qed.

(** X16.  In every summary of a table whose durations are whole numbers
    of ticks, as those of a timedelta column are, the averages lie
    within the extremes of the same column: the mean duration is at
    most the longest duration, each rounded mean of distance, altitude,
    ground speed and air speed is at most the column maximum plus half
    a hundredth, and the battery minimum is at most the rounded battery
    mean plus half a hundredth; the two entries of a pair are missing
    together. *)
Theorem summary_averages_within_extremes (P : Coercions) (fid : string)
  (d : DataFrame) (s : dict) :
  Forall (whole_duration (resolution P)) (column d "flightTime") ->
  summary P fid d = Ok s ->
  ordered_entries s (Timedelta64 (resolution P)) 0 "avg_flight_time" "flight_time"
  /\ ordered_entries s Float64 (1 # 200) "avg_flight_distance" "flight_distance"
  /\ ordered_entries s Float64 (1 # 200) "avg_altitude" "max_altitude"
  /\ ordered_entries s Float64 (1 # 200) "avg_ground_speed" "max_ground_speed"
  /\ ordered_entries s Float64 (1 # 200) "avg_air_speed" "max_air_speed"
  /\ ordered_entries s Float64 (1 # 200) "min_battery" "avg_battery_remaining".
Proof.
  intros W H. rewrite (summary_inv _ _ _ _ H). unfold ordered_entries.
  split.
  { eexists. eexists. split; [reflexivity|]. split; [reflexivity|].
    now apply duration_mean_within. }
  repeat split; eexists; eexists;
    (split; [reflexivity|]); (split; [reflexivity|]);
    apply rounded_mean_within.
Qed.

Lemma summary_averages_within_extremes_witness :
  exists d s,
    normalize Iso.coercions 0 Thirds.file = Ok d
    /\ summary Iso.coercions "flight_1" d = Ok s
    /\ ordered_entries s (Timedelta64 1000000000) 0 "avg_flight_time" "flight_time"
    /\ ordered_entries s Float64 (1 # 200) "avg_ground_speed" "max_ground_speed"
    /\ dict_get "avg_flight_time" s = Some (Timedelta (5333333333 # 500000000))
    /\ dict_get "flight_time" s = Some (Timedelta 20).
Proof.
  set (d := match normalize Iso.coercions 0 Thirds.file with
            | Ok o => o
            | Raise _ => empty_frame
            end).
  set (s := match summary Iso.coercions "flight_1" d with Ok s => s | Raise _ => [] end).
  assert (N : normalize Iso.coercions 0 Thirds.file = Ok d)
    by (vm_compute; reflexivity).
  assert (S : summary Iso.coercions "flight_1" d = Ok s) by (vm_compute; reflexivity).
  assert (W : Forall (whole_duration (resolution Iso.coercions)) (column d "flightTime")).
  { apply (normalized_durations Iso.coercions 0 Thirds.file d); [|exact N].
    apply distinct_NoDup. vm_compute. reflexivity. }
  destruct (summary_averages_within_extremes Iso.coercions "flight_1" d s W S)
    as [T [_ [_ [G _]]]].
  exists d, s. split; [exact N|]. split; [exact S|]. split; [exact T|].
  split; [exact G|]. split; vm_compute; reflexivity.
Defined.

(** ** The order of flights and of year buckets *)

Lemma ascii_compare_spec (a b : ascii) :
  CompareSpec (a = b) (N_of_ascii a < N_of_ascii b)%N (N_of_ascii b < N_of_ascii a)%N
              (Ascii.compare a b).
Proof.
  unfold Ascii.compare. destruct (N.compare_spec (N_of_ascii a) (N_of_ascii b)) as [E|L|G];
    constructor; try assumption.
  rewrite <- (ascii_N_embedding a), <- (ascii_N_embedding b). now rewrite E.
Qed.

Lemma text_le_trans (a b c : string) : text_le a b -> text_le b c -> text_le a c.
Proof.
  unfold text_le, String.leb. revert b c.
  induction a as [|x a IH]; intros [|y b] [|z c]; cbn; try easy.
  destruct (ascii_compare_spec x y) as [<-|Lxy|Gxy]; [| |discriminate].
  - destruct (ascii_compare_spec x z) as [<-|Lxz|Gxz]; [apply IH | easy | easy].
  - destruct (ascii_compare_spec y z) as [<-|Lyz|Gyz]; [| |discriminate]; intros _ _.
    + destruct (ascii_compare_spec x y) as [E|L|G]; [subst; lia | reflexivity | lia].
    + destruct (ascii_compare_spec x z) as [E|L|G]; [subst; lia | reflexivity | lia].
Qed.

Lemma text_le_refl (a : string) : text_le a a.
Proof. destruct (String.leb_total a a); assumption. Qed.

Lemma insert_sorted_sorted (x : string) (l : list string) :
  StronglySorted text_le l -> StronglySorted text_le (insert_sorted x l).
Proof.
  induction 1 as [|y l Hl IH Hy]; cbn.
  - constructor; constructor.
  - destruct (String.leb x y) eqn:E.
    + constructor; [constructor; assumption|].
      constructor; [exact E|].
      eapply Forall_impl; [|exact Hy]. intros z Hz. eapply text_le_trans; eassumption.
    + constructor; [exact IH|].
      apply Forall_forall. intros z Hz. apply insert_sorted_In in Hz.
      destruct Hz as [->|Hz].
      * destruct (String.leb_total x y) as [F|F]; [congruence | exact F].
      * rewrite Forall_forall in Hy. now apply Hy.
Qed.

Lemma sort_strings_sorted (l : list string) : StronglySorted text_le (sort_strings l).
Proof.
  unfold sort_strings. induction l as [|a l IH]; cbn; [constructor|].
  now apply insert_sorted_sorted.
Qed.

Lemma filter_sorted (keep : string -> bool) (l : list string) :
  StronglySorted text_le l -> StronglySorted text_le (filter keep l).
Proof.
  induction 1 as [|y l Hl IH Hy]; cbn; [constructor|].
  destruct (keep y); [|exact IH]. constructor; [exact IH|].
  apply Forall_forall. intros z Hz. apply filter_In in Hz.
  rewrite Forall_forall in Hy. now apply Hy.
Qed.

Lemma grid_flights (fs bs : list string) (keep : string -> string -> bool)
  (means : string -> string -> list value) (r : GroupedRow) :
  In r (grid fs bs keep means) -> In (g_flight r) fs.
Proof.
  unfold grid. rewrite in_flat_map. intros [f [Hf H]].
  rewrite in_flat_map in H. destruct H as [b [_ H]].
  destruct (keep f b); [|contradiction]. destruct H as [<-|[]]. exact Hf.
Qed.

Lemma row_block_sorted (a : string) (bs : list string)
  (keep : string -> string -> bool) (means : string -> string -> list value)
  (rest : list string) :
  StronglySorted text_le rest ->
  Forall (text_le a) rest ->
  StronglySorted text_le
    (map g_flight
       (flat_map (fun b => if keep a b then [mkGrouped a b (means a b)] else []) bs)
     ++ rest).
Proof.
  intros S R. induction bs as [|b bs IHb]; [exact S|].
  cbn [flat_map]. destruct (keep a b); [|exact IHb].
  cbn [app map g_flight]. constructor; [exact IHb|].
  apply Forall_app. split; [|exact R].
  apply Forall_forall. intros f Hf. apply in_map_iff in Hf.
  destruct Hf as [r [<- Hr]]. apply in_flat_map in Hr. destruct Hr as [b' [_ Hr]].
  destruct (keep a b'); [|destruct Hr]. destruct Hr as [<-|[]]. apply text_le_refl.
Qed.

Lemma grid_flights_sorted (fs bs : list string) (keep : string -> string -> bool)
  (means : string -> string -> list value) :
  StronglySorted text_le fs ->
  StronglySorted text_le (map g_flight (grid fs bs keep means)).
Proof.
  induction 1 as [|a fs Hfs IH Ha]; [constructor|].
  change (grid (a :: fs) bs keep means)
    with (flat_map (fun b => if keep a b then [mkGrouped a b (means a b)] else []) bs
          ++ grid fs bs keep means).
  rewrite map_app. apply row_block_sorted; [exact IH|].
  apply Forall_forall. intros f Hf. apply in_map_iff in Hf.
  destruct Hf as [r [<- Hr]]. apply grid_flights in Hr.
  rewrite Forall_forall in Ha. now apply Ha.
Qed.

Lemma groupby_mean_sorted (observed : bool) (df : DataFrame) (group_col : string)
  (keys : list string) (avg_vals : list GroupedRow) :
  groupby_mean observed df group_col keys = Ok avg_vals ->
  exists fs bs keep means,
    NoDup fs
    /\ StronglySorted text_le fs
    /\ (is_categorical group_col = false -> NoDup bs /\ StronglySorted text_le bs)
    /\ avg_vals = grid fs bs keep means.
Proof.
  intros H. unfold groupby_mean in H.
  apply bind_Ok in H. destruct H as [flights [_ H]].
  apply bind_Ok in H. destruct H as [buckets [_ H]].
  apply bind_Ok in H. destruct H as [data [_ H]].
  injection H as <-.
  eexists. eexists. eexists. eexists.
  split; [|split; [|split; [|unfold grid; reflexivity]]].
  - apply sort_strings_NoDup, unique_is_NoDup.
  - apply sort_strings_sorted.
  - intros C. rewrite C. split;
      [apply sort_strings_NoDup, unique_is_NoDup | apply sort_strings_sorted].
Qed.

Lemma block_flights (n : string) (j : nat) (avg_vals : list GroupedRow) :
  map flight_id (block n j avg_vals) = map g_flight avg_vals.
Proof. unfold block. now rewrite map_map. Qed.

(** X17.  In every chart table the rows are ordered by the text of the
    flight label, code point by code point, so that flight_10 comes
    before flight_2; and when grouping by year the year labels of each
    flight are distinct and in that same text order. *)
Theorem tables_are_sorted_by_label_text (observed : bool) (df : DataFrame)
  (group_col chart_type : string) (figs : list (string * Figure)) :
  snd (plot_flight_metrics observed df group_col metrics chart_type) = Ok figs ->
  text_le "flight_10" "flight_2"
  /\ forall name fig,
       In (name, fig) figs ->
       StronglySorted text_le (map flight_id (table fig))
       /\ (group_col = "year" ->
           forall f, NoDup (buckets_of f (table fig))
                     /\ StronglySorted text_le (buckets_of f (table fig))).
Proof.
  intros H. split; [reflexivity|]. intros name fig Hin.
  unfold plot_flight_metrics in H.
  destruct (derive_bucket df group_col) as [df' [u|e]]; [|discriminate].
  cbn [snd] in H. unfold group_and_chart in H.
  apply bind_Ok in H. destruct H as [avg_vals [G H]].
  destruct (make_fig_tables _ _ _ _ _ _ H _ _ Hin) as [[]|T].
  rewrite filter_blocks in T. symmetry in T. apply four_names in T.
  destruct (groupby_mean_sorted _ _ _ _ _ G) as [fs [bs [keep [means [Nf [Sf [B E]]]]]]].
  assert (F : StronglySorted text_le (map g_flight avg_vals)).
  { rewrite E. now apply grid_flights_sorted. }
  assert (Y : group_col = "year" ->
              forall f, NoDup (map g_bucket
                                 (filter (fun r => String.eqb (g_flight r) f) avg_vals))
                        /\ StronglySorted text_le
                             (map g_bucket
                                (filter (fun r => String.eqb (g_flight r) f) avg_vals))).
  { intros -> f. destruct (B eq_refl) as [Nb Sb].
    rewrite E, (grid_flight _ _ _ _ _ Nf).
    destruct (in_list f fs); [|split; constructor].
    split; [now apply NoDup_filter | now apply filter_sorted]. }
  destruct T as [T|[T|[T|[T|T]]]]; rewrite T;
    try (split; [constructor | intros _ f; split; constructor]);
    (split; [now rewrite block_flights
            | intros Hy f; rewrite buckets_of_block; now apply Y]).
Qed.

Lemma tables_are_sorted_by_label_text_witness :
  text_le "flight_10" "flight_2"
  /\ (forall name fig,
        In (name, fig) Decade.year_figs ->
        StronglySorted text_le (map flight_id (table fig))
        /\ forall f, NoDup (buckets_of f (table fig))
                     /\ StronglySorted text_le (buckets_of f (table fig)))
  /\ In ("Ground Speed", Decade.ground_speed) Decade.year_figs
  /\ map flight_id (table Decade.ground_speed)
     = [ "flight_1"; "flight_1"; "flight_10"; "flight_10"; "flight_2"; "flight_2";
         "flight_3"; "flight_3"; "flight_4"; "flight_4"; "flight_5"; "flight_5";
         "flight_6"; "flight_6"; "flight_7"; "flight_7"; "flight_8"; "flight_8";
         "flight_9"; "flight_9" ]
  /\ column Decade.fleet "date"
     = flat_map (fun _ => [Datetime 1717200000000000000; Datetime 1685577600000000000])
                (seq 0 10)
  /\ buckets_of "flight_10" (table Decade.ground_speed) = ["2023"; "2024"].
Proof.
  destruct (tables_are_sorted_by_label_text true Decade.fleet "year" "line"
              Decade.year_figs) as [T F].
  - vm_compute. reflexivity.
  - split; [exact T|]. split.
    + intros name fig Hin. destruct (F name fig Hin) as [S Y].
      split; [exact S | exact (Y eq_refl)].
    + split; [vm_compute; left; reflexivity|].
      split; [vm_compute; reflexivity|].
      split; vm_compute; reflexivity.
Defined.

(** ** Keys of a chart table *)

Lemma categories_NoDup (group_col : string) : NoDup (categories group_col).
Proof.
  unfold categories.
  destruct (String.eqb group_col "month");
    [apply distinct_NoDup; vm_compute; reflexivity|].
  destruct (String.eqb group_col "weekday");
    [apply distinct_NoDup; vm_compute; reflexivity|].
  destruct (String.eqb group_col "hour");
    [apply distinct_NoDup; vm_compute; reflexivity | constructor].
Qed.

Lemma groupby_mean_keys (observed : bool) (df : DataFrame) (group_col : string)
  (keys : list string) (avg_vals : list GroupedRow) :
  groupby_mean observed df group_col keys = Ok avg_vals ->
  exists fs bs keep means,
    NoDup fs /\ NoDup bs /\ avg_vals = grid fs bs keep means.
Proof.
  intros H. unfold groupby_mean in H.
  apply bind_Ok in H. destruct H as [flights [_ H]].
  apply bind_Ok in H. destruct H as [buckets [_ H]].
  apply bind_Ok in H. destruct H as [data [_ H]].
  injection H as <-.
  eexists. eexists. eexists. eexists.
  split; [|split; [|unfold grid; reflexivity]].
  - apply sort_strings_NoDup, unique_is_NoDup.
  - destruct (is_categorical group_col);
      [apply categories_NoDup | apply sort_strings_NoDup, unique_is_NoDup].
Qed.

(** X18.  A chart table holds each (flight, bucket) pair at most once:
    for every grouping key and every flight, no bucket label is repeated
    among the flight's rows. *)
Theorem chart_table_keys_are_unique (observed : bool) (df : DataFrame)
  (group_col chart_type : string) (figs : list (string * Figure)) :
  snd (plot_flight_metrics observed df group_col metrics chart_type) = Ok figs ->
  forall name fig f,
    In (name, fig) figs -> NoDup (buckets_of f (table fig)).
Proof.
  intros H name fig f Hin.
  unfold plot_flight_metrics in H.
  destruct (derive_bucket df group_col) as [df' [u|e]]; [|discriminate].
  cbn [snd] in H. unfold group_and_chart in H.
  apply bind_Ok in H. destruct H as [avg_vals [G H]].
  destruct (make_fig_tables _ _ _ _ _ _ H _ _ Hin) as [[]|T].
  rewrite filter_blocks in T. symmetry in T. apply four_names in T.
  destruct (groupby_mean_keys _ _ _ _ _ G) as [fs [bs [keep [means [Nf [Nb E]]]]]].
  destruct T as [T|[T|[T|[T|T]]]]; rewrite T; try constructor;
    rewrite buckets_of_block, E, (grid_flight _ _ _ _ _ Nf);
    (destruct (in_list f fs); [now apply NoDup_filter | constructor]).
Qed.

Lemma chart_table_keys_are_unique_witness :
  NoDup (buckets_of "flight_1" (table month_ground_speed)).
Proof.
  refine (chart_table_keys_are_unique true Scenario.fleet "month" "line" month_figs
            _ "Ground Speed" month_ground_speed "flight_1" _).
  - vm_compute. reflexivity.
  - vm_compute. left. reflexivity.
Defined.

(** ** A grouping key the grouper does not know *)

(** X19.  Called with a key other than year, month, weekday and hour,
    the grouper assigns nothing: the caller's table is left as it was;
    and when the table has a flight_id column but none named after the
    key, the call raises KeyError for the key. *)
Theorem unknown_key_leaves_table (observed : bool) (df : DataFrame)
  (group_col chart_type : string) (ms : list (string * string)) :
  ~ In group_col ["year"; "month"; "weekday"; "hour"] ->
  fst (plot_flight_metrics observed df group_col ms chart_type) = df
  /\ (has_col df "flight_id" = true ->
      has_col df group_col = false ->
      snd (plot_flight_metrics observed df group_col ms chart_type)
      = Raise (KeyError group_col)).
Proof.
  intros H.
  assert (A : forall k, In k ["year"; "month"; "weekday"; "hour"] ->
                        String.eqb group_col k = false).
  { intros k Hk. destruct (String.eqb group_col k) eqn:E; [|reflexivity].
    apply String.eqb_eq in E. subst k. contradiction. }
  unfold plot_flight_metrics, derive_bucket.
  rewrite !A by (vm_compute; tauto). cbn [fst snd]. split; [reflexivity|].
  intros F G. unfold group_and_chart, groupby_mean.
  destruct (has_col_getitem _ _ F) as [s Hs]. rewrite Hs. cbn [bind].
  unfold getitem at 1. unfold has_col, columns in G. apply assoc_None in G.
  now rewrite G.
Qed.

Lemma unknown_key_leaves_table_witness :
  fst (plot_flight_metrics true Scenario.fleet "day" metrics "line") = Scenario.fleet
  /\ (has_col Scenario.fleet "flight_id" = true ->
      has_col Scenario.fleet "day" = false ->
      snd (plot_flight_metrics true Scenario.fleet "day" metrics "line")
      = Raise (KeyError "day")).
Proof.
  apply (unknown_key_leaves_table true Scenario.fleet "day" "line" metrics).
  vm_compute. intuition discriminate.
Defined.

(** ** Grouping a fleet table always returns *)

Lemma to_datetime_cells (P : Coercions) (mask : list bool) (t : Series) :
  is_datetimelike (select mask (to_datetime P t)) = true.
Proof.
  unfold is_datetimelike. apply forallb_forall.
  apply Forall_forall, select_Forall. unfold to_datetime.
  apply Forall_map, Forall_forall. intros i _.
  destruct (nth i t NA); try reflexivity; (destruct (parse_date P t i); reflexivity).
Qed.

Lemma normalized_date_cells (P : Coercions) (i : nat) (file out : DataFrame) :
  NoDup (columns file) ->
  normalize P i file = Ok out ->
  is_datetimelike (column out "date") = true.
Proof.
  intros H N.
  assert (T : In "date" fleet_labels) by (vm_compute; tauto).
  destruct (normalized_column P i file out "date" H N T) as [dates [s [_ [S G]]]].
  unfold column. rewrite G.
  destruct (stamped_date _ _ _ _ S) as [t [_ ->]].
  apply (to_datetime_cells P (map notna dates) t).
Qed.

Lemma is_datetimelike_flat_map {A : Type} (col : A -> Series) (l : list A) :
  Forall (fun a => is_datetimelike (col a) = true) l ->
  is_datetimelike (flat_map col l) = true.
Proof.
  intros H. unfold is_datetimelike in *. rewrite forallb_forall. intros v Hv.
  apply in_flat_map in Hv. destruct Hv as [a [Ha Hv]].
  rewrite Forall_forall in H. specialize (H a Ha).
  rewrite forallb_forall in H. now apply H.
Qed.

Lemma derive_bucket_succeeds (df : DataFrame) (group_col : string) (src : Series) :
  In group_col ["year"; "month"; "weekday"; "hour"] ->
  has_col df group_col = false ->
  getitem df (source_col group_col) = Ok src ->
  is_datetimelike src = true ->
  (group_col = "hour" -> Forall (fun v => v <> NA) src) ->
  exists labels,
    derive_bucket df group_col = (setitem df group_col labels, Ok tt).
Proof.
  intros Hg Hc G D Hh.
  destruct Hg as [<-|[<-|[<-|[<-|[]]]]]; unfold derive_bucket;
    cbn [String.eqb Ascii.eqb Bool.eqb];
    change (source_col _) with "date" in G || change (source_col _) with "time" in G;
    rewrite G; cbn [bind]; unfold dt; rewrite D.
  - eexists. rewrite (setitem_twice _ _ _ _ Hc), (setitem_fresh _ _ _ Hc). reflexivity.
  - eexists. rewrite (setitem_twice _ _ _ _ Hc), (setitem_fresh _ _ _ Hc). reflexivity.
  - eexists. rewrite (setitem_twice _ _ _ _ Hc), (setitem_fresh _ _ _ Hc). reflexivity.
  - rewrite (forallb_present _ (Hh eq_refl)).
    rewrite (setitem_fresh _ _ _ Hc), !(setitem_last _ _ _ _ _ Hc).
    eexists. rewrite (setitem_fresh _ _ _ Hc). reflexivity.
Qed.

Lemma numeric_only_cells (s : Series) :
  Forall (is_cell Float64) s -> numeric_only s = Ok s.
Proof.
  intros H. unfold numeric_only.
  replace (forallb _ s) with true; [reflexivity|].
  symmetry. apply forallb_forall. rewrite Forall_forall in H.
  intros v Hv. destruct (H v Hv) as [->|[q ->]]; reflexivity.
Qed.

Lemma metric_columns_ok (df : DataFrame) (keys : list string) :
  (forall k, In k keys -> exists s, getitem df k = Ok s /\ Forall (is_cell Float64) s) ->
  forall acc, exists data,
    for_each (fun acc m => s <- getitem df m ;;
                           s <- numeric_only s ;;
                           Ok (acc ++ [s])) keys acc = Ok data.
Proof.
  induction keys as [|k keys IH]; intros H acc; cbn [for_each].
  - now exists acc.
  - destruct (H k (or_introl eq_refl)) as [s [G C]].
    rewrite G. cbn [bind]. rewrite (numeric_only_cells _ C). cbn [bind].
    apply IH. intros k' Hk'. apply H. now right.
Qed.

Lemma group_and_chart_ok (observed : bool) (df : DataFrame)
  (group_col chart_type : string) :
  has_col df "flight_id" = true ->
  has_col df group_col = true ->
  (forall k, In k (map fst metrics) ->
             exists s, getitem df k = Ok s /\ Forall (is_cell Float64) s) ->
  In chart_type ["line"; "bar"] ->
  exists figs, group_and_chart observed df group_col metrics chart_type = Ok figs.
Proof.
  intros F G M C. unfold group_and_chart, groupby_mean.
  destruct (has_col_getitem _ _ F) as [fl Hf]. rewrite Hf. cbn [bind].
  destruct (has_col_getitem _ _ G) as [bl Hb]. rewrite Hb. cbn [bind].
  destruct (metric_columns_ok df (map fst metrics) M []) as [data D].
  rewrite D. cbn [bind].
  destruct C as [<-|[<-|[]]].
  - rewrite (make_figs_supported _ "line" Line) by (left; now split).
    eexists. reflexivity.
  - rewrite (make_figs_supported _ "bar" Bar) by (right; now split).
    eexists. reflexivity.
Qed.

(** X20.  On the fleet table of a non-empty list of loaded files the
    grouper, called with a supported style, always returns its figures
    when the key is year, month or weekday, and also when the key is
    hour provided no time in the table is missing: no column it reads
    is absent and none holds a cell it cannot average. *)
Theorem fleet_grouping_returns (P : Coercions) (observed : bool)
  (files : list DataFrame) (st : Loaded) (group_col chart_type : string) :
  files <> [] ->
  Forall (fun f => NoDup (columns f)) files ->
  load P files = Ok st ->
  In group_col ["year"; "month"; "weekday"; "hour"] ->
  In chart_type ["line"; "bar"] ->
  (group_col = "hour" -> Forall (fun v => v <> NA) (column (df_all st) "time")) ->
  exists figs,
    snd (plot_flight_metrics observed (df_all st) group_col metrics chart_type)
    = Ok figs.
Proof.
  intros Hne Hd L Hg Hc Hh.
  destruct (fleet_flights P files st Hne Hd L) as [F _].
  assert (A : Forall (fun o => is_datetimelike (column o "date") = true
                               /\ is_datetimelike (column o "time") = true
                               /\ has_col o group_col = false
                               /\ forall k, In k (map fst metrics) ->
                                            Forall (is_cell Float64) (column o k))
                     (all_dfs st)).
  { revert F. generalize (seq 0 (length files)). generalize (all_dfs st).
    induction l as [|o l IH]; intros js F;
      inversion F as [|j o' js' l' Hx Hr]; subst; constructor.
    - destruct Hx as [file [s [Hin [N _]]]]. rewrite Forall_forall in Hd.
      pose proof (Hd _ Hin) as Hf.
      split; [apply (normalized_date_cells P j file o Hf N)|].
      split; [apply (normalized_time_cells P j file o Hf N)|].
      split.
      + apply (normalized_lacks P j file o group_col Hf N).
        destruct Hg as [<-|[<-|[<-|[<-|[]]]]]; vm_compute; intuition discriminate.
      + intros k Hk.
        assert (Km : In k metric_sources /\ dtype_of P k = Float64).
        { revert k Hk. apply Forall_forall.
          repeat (constructor; [split; [vm_compute; tauto|reflexivity]|]).
          constructor. }
        destruct Km as [Km Kd].
        destruct (normalized_metric P j file o k Hf N Km) as [t [Gt Ct]].
        unfold column. rewrite Gt. now rewrite Kd in Ct.
    - eapply IH. eassumption. }
  assert (Col : forall c, In c fleet_labels ->
                          getitem (df_all st) c
                          = Ok (flat_map (fun o => column o c) (all_dfs st))).
  { intros c. apply (fleet_column P files st Hne Hd L). }
  assert (Lk : has_col (df_all st) group_col = false).
  { rewrite (df_all_concat P files st Hne Hd L). apply concat_lacks.
    eapply Forall_impl; [|exact A]. intros o H. apply H. }
  assert (Src : In (source_col group_col) fleet_labels).
  { destruct Hg as [<-|[<-|[<-|[<-|[]]]]]; vm_compute; tauto. }
  destruct (derive_bucket_succeeds (df_all st) group_col
              (flat_map (fun o => column o (source_col group_col)) (all_dfs st))
              Hg Lk (Col _ Src)) as [labels Db].
  { apply is_datetimelike_flat_map. eapply Forall_impl; [|exact A].
    intros o [D [T _]].
    destruct Hg as [<-|[<-|[<-|[<-|[]]]]]; assumption. }
  { intros ->. specialize (Hh eq_refl). unfold column in Hh at 1.
    now rewrite (Col "time") in Hh by (vm_compute; tauto). }
  unfold plot_flight_metrics. rewrite Db. cbn [snd].
  apply group_and_chart_ok; [| | |exact Hc].
  - destruct (String.eqb "flight_id" group_col) eqn:E.
    + eapply getitem_has_col. rewrite getitem_setitem, E. reflexivity.
    + eapply getitem_has_col. rewrite getitem_setitem, E.
      apply Col. vm_compute. tauto.
  - eapply getitem_has_col. rewrite getitem_setitem, String.eqb_refl. reflexivity.
  - intros k Hk. rewrite getitem_setitem.
    assert (Kf : In k fleet_labels).
    { revert k Hk. apply Forall_forall.
      repeat (constructor; [vm_compute; tauto|]). constructor. }
    destruct (String.eqb k group_col) eqn:E.
    + apply String.eqb_eq in E. subst k.
      pose proof (getitem_has_col _ _ _ (Col _ Kf)). congruence.
    + eexists. split; [apply Col; exact Kf|].
      apply Forall_flat_map. eapply Forall_impl; [|exact A].
      intros o [_ [_ [_ M]]]. now apply M.
Qed.

Lemma fleet_grouping_returns_witness :
  exists figs,
    snd (plot_flight_metrics true (df_all loaded_with_undated) "hour" metrics "bar")
    = Ok figs.
Proof.
  apply (fleet_grouping_returns Iso.coercions true
           [Scenario.file_A; Samples.undated] loaded_with_undated "hour" "bar").
  - discriminate.
  - constructor; [|constructor; [|constructor]];
      apply distinct_NoDup; vm_compute; reflexivity.
  - vm_compute. reflexivity.
  - vm_compute. tauto.
  - vm_compute. tauto.
  - intros _. vm_compute. repeat (constructor; [discriminate|]). constructor.
Defined.
